(** * sample_script.py: the Thai population ETL script

    A shallow embedding of [sample_script.py] and of the fragments of the
    Python runtime, of [requests] and of the DuckDB engine that the script
    exercises, followed by the properties of the script.

    Layout: the Python string built-ins ([Py]), the [result] package,
    the filesystem ([FS]), the SQL engine ([DuckDB]), the script itself
    (Section [Script]) and then the theorems. *)

From Stdlib Require Import ZArith NArith List String Ascii Bool Lia.
From Stdlib Require Import DecimalZ DecimalPos.
Import ListNotations.

(* ================================================================== *)
(** * Python strings *)
(* ================================================================== *)

(** A Python [str] is a sequence of Unicode code points.  The script
    depends on code points above the byte range (U+FEFF, the Unicode
    line boundaries, non-ASCII decimal digits), so a character is a
    code point in [N], not an [ascii]. *)
Module Py.

Definition char := N.
Definition str := list char.

(** A literal of the source, given as an ASCII string. *)
Definition lit (s : string) : str := map N_of_ascii (list_ascii_of_string s).

Definition char_in (chars : str) (c : char) : bool := existsb (N.eqb c) chars.

(** [a == b] on strings. *)
Definition eqb (a b : str) : bool :=
  if list_eq_dec N.eq_dec a b then true else false.

(** [s.lstrip(chars)], [s.rstrip(chars)], [s.strip(chars)]: every
    leading (trailing) character that belongs to [chars] is dropped,
    not only the first one. *)
Fixpoint lstrip (chars : str) (s : str) : str :=
  match s with
  | [] => []
  | c :: r => if char_in chars c then lstrip chars r else s
  end.

Definition rstrip (chars : str) (s : str) : str := rev (lstrip chars (rev s)).

Definition strip (chars : str) (s : str) : str := rstrip chars (lstrip chars s).

(** Line boundaries of [str.splitlines]: LF, VT, FF, CR, FS, GS, RS,
    NEL, LINE SEPARATOR, PARAGRAPH SEPARATOR. *)
Definition linebreaks : list char :=
  [10; 11; 12; 13; 28; 29; 30; 133; 8232; 8233]%N.

Definition is_linebreak (c : char) : bool := char_in linebreaks c.

(** [s.splitlines()]: [cur] is the current line, reversed.  CR LF is
    one boundary; a boundary at the very end opens no further line, and
    the empty text has no line. *)
Fixpoint splitlines_from (cur : str) (s : str) : list str :=
  match s with
  | [] => match cur with [] => [] | _ => [rev cur] end
  | c :: r =>
      if is_linebreak c then
        rev cur ::
        match r with
        | c' :: r' =>
            if ((c =? 13) && (c' =? 10))%N then splitlines_from [] r'
            else splitlines_from [] r
        | [] => splitlines_from [] r
        end
      else splitlines_from (c :: cur) r
  end.

Definition splitlines (s : str) : list str := splitlines_from [] s.

(** [s.split(sep)] for a separator of one character. *)
Fixpoint split (sep : char) (s : str) : list str :=
  match s with
  | [] => [[]]
  | c :: r =>
      if (c =? sep)%N then [] :: split sep r
      else match split sep r with
           | f :: fs => (c :: f) :: fs
           | [] => [[c]]
           end
  end.

(** [s.replace(old, '')] for an [old] of one character. *)
Definition remove (old : char) (s : str) : str :=
  filter (fun c => negb (c =? old)%N) s.

(** [str(n)] and the empty format spec of an f-string on an [int]. *)
Definition digit_char (d : N) : char := (48 + d)%N.

Fixpoint of_uint (d : Decimal.uint) : str :=
  match d with
  | Decimal.Nil => []
  | Decimal.D0 r => digit_char 0 :: of_uint r
  | Decimal.D1 r => digit_char 1 :: of_uint r
  | Decimal.D2 r => digit_char 2 :: of_uint r
  | Decimal.D3 r => digit_char 3 :: of_uint r
  | Decimal.D4 r => digit_char 4 :: of_uint r
  | Decimal.D5 r => digit_char 5 :: of_uint r
  | Decimal.D6 r => digit_char 6 :: of_uint r
  | Decimal.D7 r => digit_char 7 :: of_uint r
  | Decimal.D8 r => digit_char 8 :: of_uint r
  | Decimal.D9 r => digit_char 9 :: of_uint r
  end.

Definition minus_sign : char := 45%N.
Definition plus_sign : char := 43%N.
Definition underscore : char := 95%N.

Definition str_of_int (z : Z) : str :=
  match Z.to_int z with
  | Decimal.Pos d => of_uint d
  | Decimal.Neg d => minus_sign :: of_uint d
  end.

(** ** [int(s)] *)

(** The characters of [str.isspace]. *)
Definition is_space (c : char) : bool :=
  ((9 <=? c) && (c <=? 13) || (28 <=? c) && (c <=? 32)
   || (c =? 133) || (c =? 160) || (c =? 5760)
   || (8192 <=? c) && (c <=? 8202)
   || (c =? 8232) || (c =? 8233) || (c =? 8239) || (c =? 8287)
   || (c =? 12288))%N.

(** The whitespace of the integer parser proper, which sees ASCII:
    HT, LF, VT, FF, CR and the blank. *)
Definition ascii_spaces : str := [9; 10; 11; 12; 13; 32]%N.

(** The code points of the digit zero of every decimal digit block
    (general category Nd, Unicode 14); each block holds the ten digits
    in order. *)
Definition decimal_zeros : list char :=
  [48; 1632; 1776; 1984; 2406; 2534; 2662; 2790; 2918; 3046; 3174;
   3302; 3430; 3558; 3664; 3792; 3872; 4160; 4240; 6112; 6160; 6470;
   6608; 6784; 6800; 6992; 7088; 7232; 7248; 42528; 43216; 43264;
   43472; 43504; 43600; 44016; 65296; 66720; 68912; 69734; 69872;
   69942; 70096; 70384; 70736; 70864; 71248; 71360; 71472; 71904;
   72016; 72784; 73040; 73120; 92768; 92864; 93008; 120782; 120792;
   120802; 120812; 120822; 123200; 123632; 125264; 130032]%N.

Definition to_decimal (c : char) : option N :=
  match find (fun z => (z <=? c) && (c <? z + 10))%N decimal_zeros with
  | Some z => Some (c - z)%N
  | None => None
  end.

(** First pass of [int] on a [str]: ASCII is kept, other whitespace
    becomes a blank, other decimal digits become ASCII digits, and any
    other character makes the literal invalid. *)
Definition to_ascii (c : char) : option char :=
  if (c <? 127)%N then Some c
  else if is_space c then Some 32%N
  else option_map digit_char (to_decimal c).

Fixpoint transform (s : str) : option str :=
  match s with
  | [] => Some []
  | c :: r =>
      match to_ascii c, transform r with
      | Some a, Some r' => Some (a :: r')
      | _, _ => None
      end
  end.

Definition ascii_digit (c : char) : option N :=
  if ((48 <=? c) && (c <=? 57))%N then Some (c - 48)%N else None.

(** The digit scan in base ten.  [prev] is the previous character
    ([None] at the start): an underscore may only stand between two
    digits.  The result is the value and the number of digits. *)
Fixpoint scan_digits (prev : option char) (acc : N) (digits : nat)
    (s : str) : option (N * nat) :=
  match s with
  | [] =>
      match prev with
      | None => None
      | Some p => if (p =? underscore)%N then None else Some (acc, digits)
      end
  | c :: r =>
      if (c =? underscore)%N then
        match prev with
        | None => None
        | Some p =>
            if (p =? underscore)%N then None
            else scan_digits (Some c) acc digits r
        end
      else
        match ascii_digit c with
        | Some d => scan_digits (Some c) (10 * acc + d)%N (S digits) r
        | None => None
        end
  end.

(** [sys.get_int_max_str_digits()], the default of CPython 3.11. *)
Definition int_max_str_digits : nat := 4300.

(** [int(s)]; [None] stands for [ValueError]. *)
Definition int (s : str) : option Z :=
  match transform s with
  | None => None
  | Some a =>
      let a1 := lstrip ascii_spaces a in
      let '(negative, a2) :=
        match a1 with
        | c :: r =>
            if (c =? minus_sign)%N then (true, r)
            else if (c =? plus_sign)%N then (false, r)
            else (false, a1)
        | [] => (false, a1)
        end in
      let a3 := rstrip ascii_spaces a2 in
      match scan_digits None 0%N 0 a3 with
      | Some (v, digits) =>
          if (int_max_str_digits <? digits)%nat then None
          else Some (if negative then (- Z.of_N v)%Z else Z.of_N v)
      | None => None
      end
  end.

End Py.

(* ================================================================== *)
(** * The [result] package *)
(* ================================================================== *)

Inductive Result (T E : Type) : Type :=
| Ok (value : T)
| Err (e : E).

Arguments Ok {T E} value.
Arguments Err {T E} e.

(* ================================================================== *)
(** * The filesystem, as [pathlib] sees it *)
(* ================================================================== *)

Module FS.

(** A relative path, as its components below the working directory. *)
Definition path := list Py.str.

Inductive node :=
| Dir
| File (content : list N).

(** The latest binding of a path is the one that counts. *)
Definition t := list (path * node).

Inductive error :=
| FileExistsError (p : path)
| NotADirectoryError (p : path).

Definition path_eqb (p q : path) : bool :=
  if list_eq_dec (list_eq_dec N.eq_dec) p q then true else false.

Fixpoint lookup (p : path) (fs : t) : option node :=
  match fs with
  | [] => None
  | (q, n) :: r => if path_eqb p q then Some n else lookup p r
  end.

Definition is_dir (p : path) (fs : t) : bool :=
  match p with
  | [] => true
  | _ => match lookup p fs with Some Dir => true | _ => false end
  end.

Definition slash : Py.char := 47%N.
Definition dot : Py.char := 46%N.

(** [Path(s).parts] for a relative [s]: empty components and [.] are
    dropped, as [pathlib] does when it parses a path. *)
Definition parts (s : Py.str) : path :=
  filter (fun c => negb (Py.eqb c [] || Py.eqb c [dot])) (Py.split slash s).

(** [Path.mkdir(parents=True, exist_ok=True)], from the working
    directory downwards: a missing ancestor is created, a directory in
    the way is accepted, a file in the way raises. *)
Fixpoint mkdir_from (done todo : path) (fs : t) : error + t :=
  match todo with
  | [] => inr fs
  | c :: r =>
      let p := done ++ [c] in
      match lookup p fs with
      | Some Dir => mkdir_from p r fs
      | Some (File _) =>
          inl (match r with
               | [] => FileExistsError p
               | _ => NotADirectoryError p
               end)
      | None => mkdir_from p r ((p, Dir) :: fs)
      end
  end.

Definition mkdir_parents_exist_ok (p : path) (fs : t) : error + t :=
  mkdir_from [] p fs.

End FS.

(* ================================================================== *)
(** * The SQL engine *)
(* ================================================================== *)

(** The fragment of DuckDB that the script reaches through
    [duckdb.sql]: one table with typed columns and an optional primary
    key, and the two statements with which the script changes it,
    read from their text: [INSERT INTO t VALUES ('...', ...)] and
    [CREATE OR REPLACE TABLE t (...)], one or several of them in a
    text, separated by semicolons and executed in order.

    The engine itself reads far more than this fragment (operators,
    several rows in one [VALUES], [DELETE], [COPY]); the model answers
    a text it does not read with a parser error, so what is proved
    below of the engine is stated for texts of the fragment. *)
Module DuckDB.

Inductive sqltype := INTEGER | VARCHAR.

Inductive value :=
| VInt (z : Z)
| VStr (s : Py.str).

Definition row := list value.

Record Table := {
  tbl_name : Py.str;
  tbl_columns : list (Py.str * sqltype);
  tbl_primary_key : list Py.str;
  tbl_rows : list row
}.

Inductive error :=
| ParserException
| CatalogException
| BinderException
| ConversionException
| ConstraintException
| IOException
| NotImplementedException.

(** ** Lexing *)

Inductive token :=
| TWord (w : Py.str)
| TString (s : Py.str)
| TLParen
| TRParen
| TComma
| TSemi.

Definition quote : Py.char := 39%N.

Definition is_sql_space (c : Py.char) : bool :=
  ((c =? 32) || (c =? 9) || (c =? 10) || (c =? 13) || (c =? 12))%N.

Definition is_letter (c : Py.char) : bool :=
  ((65 <=? c) && (c <=? 90) || (97 <=? c) && (c <=? 122) || (c =? 95))%N.

Definition is_word_char (c : Py.char) : bool :=
  (is_letter c || (48 <=? c) && (c <=? 57))%N.

(** Keywords and unquoted identifiers are compared without regard to
    case; a name keeps the spelling of the text that declares it. *)
Definition upper (c : Py.char) : Py.char :=
  if ((97 <=? c) && (c <=? 122))%N then (c - 32)%N else c.

Definition same_name (a b : Py.str) : bool :=
  Py.eqb (map upper a) (map upper b).

Definition keyword (k : string) (w : Py.str) : bool :=
  Py.eqb (map upper w) (Py.lit k).

Inductive lexstate :=
| LDefault
| LWord (acc : Py.str)
| LString (acc : Py.str)
| LQuote (acc : Py.str).

(** The lexer, one character at a time; accumulators are reversed.
    Inside a literal a doubled quote stands for one quote; [LQuote] is
    the state after a quote that either closes the literal or starts
    such a pair. *)
Fixpoint lex (st : lexstate) (s : Py.str) : option (list token) :=
  let emit (t : token) (k : option (list token)) :=
    option_map (cons t) k in
  let start (c : Py.char) (r : Py.str) : option (list token) :=
    if is_sql_space c then lex LDefault r
    else if (c =? quote)%N then lex (LString []) r
    else if (c =? 40)%N then emit TLParen (lex LDefault r)
    else if (c =? 41)%N then emit TRParen (lex LDefault r)
    else if (c =? 44)%N then emit TComma (lex LDefault r)
    else if (c =? 59)%N then emit TSemi (lex LDefault r)
    else if is_letter c then lex (LWord [c]) r
    else None in
  match s with
  | [] =>
      match st with
      | LDefault => Some []
      | LWord a => Some [TWord (rev a)]
      | LString _ => None
      | LQuote a => Some [TString (rev a)]
      end
  | c :: r =>
      match st with
      | LDefault => start c r
      | LWord a =>
          if is_word_char c then lex (LWord (c :: a)) r
          else emit (TWord (rev a)) (start c r)
      | LString a =>
          if (c =? quote)%N then lex (LQuote a) r
          else lex (LString (c :: a)) r
      | LQuote a =>
          if (c =? quote)%N then lex (LString (c :: a)) r
          else emit (TString (rev a)) (start c r)
      end
  end.

(** ** Parsing *)

Record insert_statement := {
  ins_table : Py.str;
  ins_values : list Py.str
}.

(** [lit (, lit)* )] then an optional semicolon and the end. *)
Fixpoint parse_values (ts : list token) : option (list Py.str) :=
  match ts with
  | TString s :: TComma :: r => option_map (cons s) (parse_values r)
  | [TString s; TRParen] => Some [s]
  | [TString s; TRParen; TSemi] => Some [s]
  | _ => None
  end.

Definition insert_of_tokens (ts : list token) : option insert_statement :=
  match ts with
  | TWord w1 :: TWord w2 :: TWord name :: TWord w3 :: TLParen :: vs =>
      if keyword "INSERT" w1 && keyword "INTO" w2 && keyword "VALUES" w3
      then option_map
             (fun vs => {| ins_table := map upper name; ins_values := vs |})
             (parse_values vs)
      else None
  | _ => None
  end.

(** The text as one insertion of one row. *)
Definition parse_insert (q : Py.str) : option insert_statement :=
  match lex LDefault q with
  | Some ts => insert_of_tokens ts
  | None => None
  end.

(** The two column types of the script. *)
Definition type_of_word (w : Py.str) : option sqltype :=
  if keyword "INTEGER" w then Some INTEGER
  else if keyword "VARCHAR" w then Some VARCHAR
  else None.

(** [name (, name)* ) )]: the columns of a [PRIMARY KEY] clause, which
    closes the list of a [CREATE TABLE]. *)
Fixpoint parse_key_names (ts : list token) : option (list Py.str) :=
  match ts with
  | TWord n :: TComma :: r => option_map (cons n) (parse_key_names r)
  | [TWord n; TRParen; TRParen] => Some [n]
  | _ => None
  end.

(** [name type (, name type)* [, PRIMARY KEY (...)] )]: the columns
    and the names of the key, in the form of the statement of
    [create_duck_db_table]. *)
Fixpoint parse_columns (ts : list token)
    : option (list (Py.str * sqltype) * list Py.str) :=
  match ts with
  | TWord p :: TWord k :: TLParen :: r =>
      if keyword "PRIMARY" p && keyword "KEY" k
      then option_map (fun names => ([], names)) (parse_key_names r)
      else None
  | TWord c :: TWord ty :: TComma :: r =>
      match type_of_word ty, parse_columns r with
      | Some ty', Some (cols, names) => Some ((c, ty') :: cols, names)
      | _, _ => None
      end
  | [TWord c; TWord ty; TRParen] =>
      option_map (fun ty' => ([(c, ty')], [])) (type_of_word ty)
  | _ => None
  end.

Fixpoint distinct_names (names : list Py.str) : bool :=
  match names with
  | [] => true
  | n :: r => negb (existsb (same_name n) r) && distinct_names r
  end.

(** The columns named by a key, in the spelling of their declaration;
    [None] when a name is no column. *)
Fixpoint key_columns (cols : list (Py.str * sqltype)) (names : list Py.str)
    : option (list Py.str) :=
  match names with
  | [] => Some []
  | n :: r =>
      match find (fun c => same_name (fst c) n) cols, key_columns cols r with
      | Some c, Some k => Some (fst c :: k)
      | _, _ => None
      end
  end.

Definition create_of_tokens (ts : list token) : option Table :=
  match ts with
  | TWord w1 :: TWord w2 :: TWord w3 :: TWord w4 :: TWord name :: TLParen
    :: r =>
      if keyword "CREATE" w1 && keyword "OR" w2 && keyword "REPLACE" w3
         && keyword "TABLE" w4
      then
        match parse_columns r with
        | Some (cols, names) =>
            if distinct_names (map fst cols) && distinct_names names
            then option_map
                   (fun k => {| tbl_name := name; tbl_columns := cols;
                                tbl_primary_key := k; tbl_rows := [] |})
                   (key_columns cols names)
            else None
        | None => None
        end
      else None
  | _ => None
  end.

Inductive statement :=
| InsertInto (stmt : insert_statement)
| CreateOrReplaceTable (t : Table).

Definition statement_of_tokens (ts : list token) : option statement :=
  match insert_of_tokens ts with
  | Some stmt => Some (InsertInto stmt)
  | None => option_map CreateOrReplaceTable (create_of_tokens ts)
  end.

(** The tokens of a text, cut at the semicolons; [cur] is the current
    statement, reversed.  An empty statement is dropped. *)
Fixpoint split_statements (cur : list token) (ts : list token)
    : list (list token) :=
  match ts with
  | [] => match cur with [] => [] | _ => [rev cur] end
  | TSemi :: r =>
      match cur with
      | [] => split_statements [] r
      | _ => rev cur :: split_statements [] r
      end
  | t :: r => split_statements (t :: cur) r
  end.

Fixpoint statements_of_tokens (tss : list (list token))
    : option (list statement) :=
  match tss with
  | [] => Some []
  | ts :: r =>
      match statement_of_tokens ts, statements_of_tokens r with
      | Some s, Some ss => Some (s :: ss)
      | _, _ => None
      end
  end.

(** The text as a sequence of statements. *)
Definition parse_script (q : Py.str) : option (list statement) :=
  match lex LDefault q with
  | Some ts => statements_of_tokens (split_statements [] ts)
  | None => None
  end.


(** ** Execution *)

(** Text to [INTEGER]: the canonical decimal form, an optional minus
    and digits, within 32 bits. *)
Fixpoint to_uint (s : Py.str) : option Decimal.uint :=
  match s with
  | [] => Some Decimal.Nil
  | c :: r =>
      match Py.ascii_digit c, to_uint r with
      | Some d, Some u =>
          Some (match d with
                | 0 => Decimal.D0 u | 1 => Decimal.D1 u | 2 => Decimal.D2 u
                | 3 => Decimal.D3 u | 4 => Decimal.D4 u | 5 => Decimal.D5 u
                | 6 => Decimal.D6 u | 7 => Decimal.D7 u | 8 => Decimal.D8 u
                | _ => Decimal.D9 u
                end)%N
      | _, _ => None
      end
  end.

Definition integer_of_text (s : Py.str) : option Z :=
  match s with
  | [] => None
  | c :: r =>
      if (c =? Py.minus_sign)%N then
        match r with
        | [] => None
        | _ => option_map (fun u => Z.of_int (Decimal.Neg u)) (to_uint r)
        end
      else option_map (fun u => Z.of_int (Decimal.Pos u)) (to_uint s)
  end.

Definition in_int32 (z : Z) : bool :=
  ((-2147483648 <=? z) && (z <=? 2147483647))%Z.

Definition cast (ty : sqltype) (s : Py.str) : option value :=
  match ty with
  | VARCHAR => Some (VStr s)
  | INTEGER =>
      match integer_of_text s with
      | Some z => if in_int32 z then Some (VInt z) else None
      | None => None
      end
  end.

Fixpoint cast_row (cols : list (Py.str * sqltype)) (vs : list Py.str)
    : option row :=
  match cols, vs with
  | [], [] => Some []
  | (_, ty) :: cs, v :: r =>
      match cast ty v, cast_row cs r with
      | Some x, Some xs => Some (x :: xs)
      | _, _ => None
      end
  | _, _ => None
  end.

Definition value_eqb (a b : value) : bool :=
  match a, b with
  | VInt x, VInt y => (x =? y)%Z
  | VStr x, VStr y => Py.eqb x y
  | _, _ => false
  end.

Fixpoint key_eqb (a b : row) : bool :=
  match a, b with
  | [], [] => true
  | x :: a', y :: b' => value_eqb x y && key_eqb a' b'
  | _, _ => false
  end.

(** The values of a row in the primary-key columns. *)
Fixpoint key_of (cols : list (Py.str * sqltype)) (pk : list Py.str)
    (r : row) : row :=
  match cols, r with
  | (n, _) :: cs, v :: vs =>
      if existsb (Py.eqb n) pk then v :: key_of cs pk vs
      else key_of cs pk vs
  | _, _ => []
  end.

Definition table_key (t : Table) (r : row) : row :=
  key_of (tbl_columns t) (tbl_primary_key t) r.

(** A row of the table has the key of [r]; a table that declares no
    key has no key to violate. *)
Definition key_taken (t : Table) (r : row) : bool :=
  match tbl_primary_key t with
  | [] => false
  | _ :: _ =>
      existsb (fun r' => key_eqb (table_key t r') (table_key t r)) (tbl_rows t)
  end.

Definition insert (stmt : insert_statement) (t : Table) : error + Table :=
  if negb (Py.eqb (ins_table stmt) (map upper (tbl_name t)))
  then inl CatalogException
  else if negb (List.length (ins_values stmt) =? List.length (tbl_columns t))%nat
  then inl BinderException
  else
    match cast_row (tbl_columns t) (ins_values stmt) with
    | None => inl ConversionException
    | Some r =>
        if key_taken t r
        then inl ConstraintException
        else inr {| tbl_name := tbl_name t;
                    tbl_columns := tbl_columns t;
                    tbl_primary_key := tbl_primary_key t;
                    tbl_rows := tbl_rows t ++ [r] |}
    end.

(** One statement on the default in-memory database, which holds at
    most the one table of the script; a second table is more than the
    model holds. *)
Definition exec (s : statement) (db : option Table) : error + option Table :=
  match s with
  | InsertInto stmt =>
      match db with
      | None => inl CatalogException
      | Some t =>
          match insert stmt t with
          | inl e => inl e
          | inr t' => inr (Some t')
          end
      end
  | CreateOrReplaceTable t =>
      match db with
      | None => inr (Some t)
      | Some t0 =>
          if same_name (tbl_name t0) (tbl_name t) then inr (Some t)
          else inl NotImplementedException
      end
  end.

(** The statements in order, each committed on its own: the first
    that fails ends the call, and what the earlier ones did stays. *)
Fixpoint run (ss : list statement) (db : option Table)
    : option error * option Table :=
  match ss with
  | [] => (None, db)
  | s :: r =>
      match exec s db with
      | inl e => (Some e, db)
      | inr db' => run r db'
      end
  end.

Definition execute (q : Py.str) (db : option Table)
    : option error * option Table :=
  match parse_script q with
  | None => (Some ParserException, db)
  | Some ss => run ss db
  end.

(** [duckdb.sql(q)]: the database after the call, or the exception. *)
Definition sql (q : Py.str) (db : option Table) : error + option Table :=
  match execute q db with
  | (None, db') => inr db'
  | (Some e, _) => inl e
  end.

(** The database after a call of [duckdb.sql(q)] that raised. *)
Definition after_error (q : Py.str) (db : option Table) : option Table :=
  snd (execute q db).

(** The options of a [COPY t TO 'dir' (...)] statement. *)
Record copy_statement := {
  copy_table : Py.str;
  copy_target : Py.str;
  copy_format : Py.str;
  copy_partition_by : list Py.str;
  copy_overwrite_or_ignore : bool;
  copy_compression : Py.str;
  copy_file_extension : Py.str
}.

End DuckDB.

(* ================================================================== *)
(** * The script *)
(* ================================================================== *)

(** What the run can raise.  The unpacking raises [ValueError] with
    the message [not enough values to unpack (expected 13, got n)] or
    [too many values to unpack (expected 13)]; only the first carries
    a count. *)
Inductive Exception :=
| ValueError_unpack (got : nat)
| ValueError_too_many
| ValueError_int (literal : Py.str)
| RequestException (info : Py.str)
| OSError (e : FS.error)
| DuckDBException (e : DuckDB.error).

(** The two attributes of a [requests.Response] that the script
    reads: [ok] is derived from the status code, and fails for the
    client and server error classes. *)
Record Response := {
  status_code : Z;
  text : Py.str
}.

Definition ok (r : Response) : bool :=
  negb ((400 <=? status_code r) && (status_code r <? 600))%Z.

(** The observable steps of a run, in the order they happen: the
    table is created, a year is fetched, a row of a year has been
    inserted, the loop has reached [year += 1], the Exporter is
    called. *)
Inductive Event :=
| EvCreateTable
| EvFetch (year : Z)
| EvInsert (year : Z)
| EvYearDone (year : Z)
| EvExport.

Record World := {
  db : option DuckDB.Table;
  fs : FS.t;
  trace : list Event
}.

Definition log (e : Event) (w : World) : World :=
  {| db := db w; fs := fs w; trace := trace w ++ [e] |}.

(** How a piece of the run ends: it falls through, an exception
    leaves it, or the loop bound of the model is used up.  Each case
    keeps the world as it is at that moment. *)
Inductive outcome :=
| Normal (w : World)
| Raised (e : Exception) (w : World)
| Diverged (w : World).

Definition world_of (o : outcome) : World :=
  match o with
  | Normal w | Raised _ w | Diverged w => w
  end.

Definition bind {A B : Type} (m : Exception + A) (k : A -> Exception + B)
    : Exception + B :=
  match m with
  | inl e => inl e
  | inr a => k a
  end.

Notation "x <- m ;; k" := (bind m (fun x => k))
  (at level 61, m at next level, right associativity).

Definition nl : Py.str := [10%N].
Definition bom : Py.char := 65279%N.
Definition pipe : Py.char := 124%N.
Definition comma : Py.char := 44%N.

Definition thai_population : DuckDB.Table :=
  {| DuckDB.tbl_name := Py.lit "thai_population";
     DuckDB.tbl_columns :=
       [ (Py.lit "data_year", DuckDB.INTEGER);
         (Py.lit "yymm", DuckDB.VARCHAR);
         (Py.lit "cc_code", DuckDB.INTEGER);
         (Py.lit "cc_desc", DuckDB.VARCHAR);
         (Py.lit "rcode_code", DuckDB.VARCHAR);
         (Py.lit "rcode_desc", DuckDB.VARCHAR);
         (Py.lit "ccaatt_code", DuckDB.VARCHAR);
         (Py.lit "ccaatt_desc", DuckDB.VARCHAR);
         (Py.lit "ccaattmm_code", DuckDB.VARCHAR);
         (Py.lit "ccaattmm_desc", DuckDB.VARCHAR);
         (Py.lit "male", DuckDB.INTEGER);
         (Py.lit "female", DuckDB.INTEGER);
         (Py.lit "total", DuckDB.INTEGER);
         (Py.lit "house", DuckDB.INTEGER) ];
     DuckDB.tbl_primary_key := [Py.lit "data_year"; Py.lit "cc_code"];
     DuckDB.tbl_rows := [] |}.

(** [CREATE OR REPLACE TABLE thai_population (...)]: whatever the
    database held, it now holds the empty table. *)
Definition create_duck_db_table (d : option DuckDB.Table)
    : option DuckDB.Table :=
  Some thai_population.

Definition generate_insert_sql
    (data_year : Z) (yymm : Py.str) (cc_code : Z)
    (cc_desc rcode_code rcode_desc ccaatt_code ccaatt_desc
     ccaattmm_code ccaattmm_desc : Py.str)
    (male female total house : Z) : Py.str :=
  Py.lit "INSERT INTO thai_population" ++ nl ++
  Py.lit "VALUES (" ++ nl ++
  Py.lit "    '" ++ Py.str_of_int data_year ++ Py.lit "'," ++ nl ++
  Py.lit "    '" ++ yymm ++ Py.lit "'," ++ nl ++
  Py.lit "    '" ++ Py.str_of_int cc_code ++ Py.lit "'," ++ nl ++
  Py.lit "    '" ++ cc_desc ++ Py.lit "'," ++ nl ++
  Py.lit "    '" ++ rcode_code ++ Py.lit "'," ++ nl ++
  Py.lit "    '" ++ rcode_desc ++ Py.lit "'," ++ nl ++
  Py.lit "    '" ++ ccaatt_code ++ Py.lit "'," ++ nl ++
  Py.lit "    '" ++ ccaatt_desc ++ Py.lit "'," ++ nl ++
  Py.lit "    '" ++ ccaattmm_code ++ Py.lit "'," ++ nl ++
  Py.lit "    '" ++ ccaattmm_desc ++ Py.lit "'," ++ nl ++
  Py.lit "    '" ++ Py.str_of_int male ++ Py.lit "'," ++ nl ++
  Py.lit "    '" ++ Py.str_of_int female ++ Py.lit "'," ++ nl ++
  Py.lit "    '" ++ Py.str_of_int total ++ Py.lit "'," ++ nl ++
  Py.lit "    '" ++ Py.str_of_int house ++ Py.lit "'" ++ nl ++
  Py.lit ")".

(** The [COPY] statement of [write_into_hive_partition]. *)
Definition copy_thai_population : DuckDB.copy_statement :=
  {| DuckDB.copy_table := Py.lit "thai_population";
     DuckDB.copy_target := Py.lit "./datasets/thai_population";
     DuckDB.copy_format := Py.lit "PARQUET";
     DuckDB.copy_partition_by := [Py.lit "data_year"];
     DuckDB.copy_overwrite_or_ignore := true;
     DuckDB.copy_compression := Py.lit "GZIP";
     DuckDB.copy_file_extension := Py.lit "parquet.gz" |}.

Definition convert_to_thai_year (year : Z) : Z := ((year + 543) - 2500)%Z.

(** The f-string bound to [url] in [get_data_stat_by_year]. *)
Definition stat_url (thai_year : Z) : Py.str :=
  Py.lit "https://stat.bora.dopa.go.th/new_stat/file/" ++
  Py.str_of_int thai_year ++ Py.lit "/stat_c" ++
  Py.str_of_int thai_year ++ Py.lit ".txt".

Definition clean_text (text : Py.str) : Py.str := Py.strip [bom] text.

Definition extract_row (row : Py.str) : list Py.str := Py.split pipe row.

Definition string_to_int (value : Py.str) : Exception + Z :=
  match Py.int (Py.remove comma value) with
  | Some z => inr z
  | None => inl (ValueError_int (Py.remove comma value))
  end.

(** One pass of the body of the [for] loop up to the call of
    [duckdb.sql]: the thirteen-target unpacking, then the arguments of
    [generate_insert_sql] from left to right. *)
Definition row_statement (year : Z) (row : Py.str) : Exception + Py.str :=
  match extract_row (Py.strip [pipe] row) with
  | [yymm; cc_code; cc_desc; rcode_code; rcode_desc; ccaatt_code;
     ccaatt_desc; ccaattmm_code; ccaattmm_desc;
     male_str; female_str; total_str; house_str] =>
      cc <- string_to_int cc_code ;;
      male <- string_to_int male_str ;;
      female <- string_to_int female_str ;;
      total <- string_to_int total_str ;;
      house <- string_to_int house_str ;;
      inr (generate_insert_sql year yymm cc cc_desc rcode_code rcode_desc
             ccaatt_code ccaatt_desc ccaattmm_code ccaattmm_desc
             male female total house)
  | fields =>
      inl (if (List.length fields <? 13)%nat
           then ValueError_unpack (List.length fields)
           else ValueError_too_many)
  end.

(** The [for row in table.splitlines()] loop.  When [duckdb.sql]
    raises, the database is as the statements before the failing one
    left it.  No statement of the fragment touches the filesystem. *)
Fixpoint load_rows (year : Z) (rows : list Py.str) (w : World) : outcome :=
  match rows with
  | [] => Normal w
  | row :: rest =>
      match row_statement year row with
      | inl e => Raised e w
      | inr sql_syntax =>
          match DuckDB.sql sql_syntax (db w) with
          | inl e =>
              Raised (DuckDBException e)
                {| db := DuckDB.after_error sql_syntax (db w); fs := fs w;
                   trace := trace w |}
          | inr d =>
              load_rows year rest
                {| db := d; fs := fs w;
                   trace := trace w ++ [EvInsert year] |}
          end
      end
  end.

(** The filesystem after [Path('.datasets').mkdir(parents=True,
    exist_ok=True)], whether or not it raised. *)
Definition directory_step (f : FS.t) : FS.t :=
  match FS.mkdir_parents_exist_ok (FS.parts (Py.lit ".datasets")) f with
  | inl _ => f
  | inr f' => f'
  end.

Section Script.

(** The outside of the script: what [requests.get] answers for a URL
    (a response, or an exception of its own), and what the engine does
    to the filesystem for a [COPY ... TO]. *)
Variable requests_get : Py.str -> Exception + Response.
Variable duckdb_copy :
  DuckDB.copy_statement -> option DuckDB.Table -> FS.t ->
  DuckDB.error + FS.t.

Definition write_into_hive_partition (d : option DuckDB.Table) (f : FS.t)
    : Exception + FS.t :=
  match FS.mkdir_parents_exist_ok (FS.parts (Py.lit ".datasets")) f with
  | inl e => inl (OSError e)
  | inr f' =>
      match duckdb_copy copy_thai_population d f' with
      | inl e => inl (DuckDBException e)
      | inr f'' => inr f''
      end
  end.

Definition get_data_stat_by_year (year : Z)
    : Exception + Result Py.str Py.str :=
  let thai_year := convert_to_thai_year year in
  let url := stat_url thai_year in
  response <- requests_get url ;;
  if negb (ok response) then inr (Err (text response))
  else inr (Ok (text response)).

(** The [while True] loop; [fuel] bounds the number of iterations. *)
Fixpoint driver_loop (fuel : nat) (year : Z) (w : World) : outcome :=
  match fuel with
  | O => Diverged w
  | S fuel' =>
      let w1 := log (EvFetch year) w in
      match get_data_stat_by_year year with
      | inl e => Raised e w1
      | inr (Err _) => Normal w1
      | inr (Ok value) =>
          let table := clean_text value in
          match load_rows year (Py.splitlines table) w1 with
          | Normal w2 => driver_loop fuel' (year + 1)%Z (log (EvYearDone year) w2)
          | o => o
          end
      end
  end.

(** The module-level code, started on the filesystem [f].  When
    [write_into_hive_partition] raises, the directory step has already
    been taken; a [COPY] that raises is taken to have written
    nothing. *)
Definition main (fuel : nat) (f : FS.t) : outcome :=
  let w0 := {| db := create_duck_db_table None; fs := f;
               trace := [EvCreateTable] |} in
  match driver_loop fuel 1993%Z w0 with
  | Normal w =>
      let w' := log EvExport w in
      match write_into_hive_partition (db w') (fs w') with
      | inl e =>
          Raised e {| db := db w'; fs := directory_step (fs w');
                      trace := trace w' |}
      | inr f' => Normal {| db := db w'; fs := f'; trace := trace w' |}
      end
  | o => o
  end.

End Script.

(* ================================================================== *)
(** * Vocabulary of the properties *)
(* ================================================================== *)

(** [sep.join(fields)] and a record line as the source publishes it:
    the fields between pipes, with a pipe at both ends. *)
Fixpoint join (sep : Py.char) (fields : list Py.str) : Py.str :=
  match fields with
  | [] => []
  | [f] => f
  | f :: r => f ++ sep :: join sep r
  end.

Definition record_line (fields : list Py.str) : Py.str :=
  pipe :: join pipe fields ++ [pipe].

Definition free_of (c : Py.char) (s : Py.str) : Prop := ~ In c s.

(** The first line of a text, when it has one. *)
Definition first_line (s : Py.str) : option Py.str :=
  hd_error (Py.splitlines s).

Definition starts_with (c : Py.char) (s : Py.str) : Prop :=
  hd_error s = Some c.

Definition ends_with (c : Py.char) (s : Py.str) : Prop :=
  hd_error (rev s) = Some c.

Definition has_linebreak (s : Py.str) : Prop :=
  existsb Py.is_linebreak s = true.

(** A line the parser cannot turn into a record: the field count is
    not thirteen, or one of the five numeric fields is no integer once
    its commas are removed. *)
Definition fields_of (row : Py.str) : list Py.str :=
  extract_row (Py.strip [pipe] row).

Definition numeric_fields (row : Py.str) : list Py.str :=
  map (fun i => nth i (fields_of row) []) [1; 9; 10; 11; 12]%nat.

Definition non_numeric (v : Py.str) : Prop :=
  Py.int (Py.remove comma v) = None.

Definition malformed (row : Py.str) : Prop :=
  List.length (fields_of row) <> 13%nat \/
  Exists non_numeric (numeric_fields row).

(** Projections of a trace. *)
Definition fetched (tr : list Event) : list Z :=
  flat_map (fun e => match e with EvFetch y => [y] | _ => [] end) tr.

Definition years_done (tr : list Event) : list Z :=
  flat_map (fun e => match e with EvYearDone y => [y] | _ => [] end) tr.


Definition exports (tr : list Event) : nat :=
  List.length
    (filter (fun e => match e with EvExport => true | _ => false end) tr).

Definition years_1993_1999 : list Z :=
  [1993; 1994; 1995; 1996; 1997; 1998; 1999]%Z.

(** The primary key holds in a table: no two rows agree on it. *)
Definition unique_keys (t : DuckDB.Table) : Prop :=
  NoDup (map (DuckDB.table_key t) (DuckDB.tbl_rows t)).

Definition same_schema (t u : DuckDB.Table) : Prop :=
  DuckDB.tbl_name t = DuckDB.tbl_name u /\
  DuckDB.tbl_columns t = DuckDB.tbl_columns u /\
  DuckDB.tbl_primary_key t = DuckDB.tbl_primary_key u.

Definition int32 (z : Z) : Prop := (-2147483648 <= z <= 2147483647)%Z.

(** The record that the fourteen arguments of [generate_insert_sql]
    stand for, column by column. *)
Definition record_of
    (data_year : Z) (yymm : Py.str) (cc_code : Z)
    (cc_desc rcode_code rcode_desc ccaatt_code ccaatt_desc
     ccaattmm_code ccaattmm_desc : Py.str)
    (male female total house : Z) : DuckDB.row :=
  [ DuckDB.VInt data_year; DuckDB.VStr yymm; DuckDB.VInt cc_code;
    DuckDB.VStr cc_desc; DuckDB.VStr rcode_code; DuckDB.VStr rcode_desc;
    DuckDB.VStr ccaatt_code; DuckDB.VStr ccaatt_desc;
    DuckDB.VStr ccaattmm_code; DuckDB.VStr ccaattmm_desc;
    DuckDB.VInt male; DuckDB.VInt female; DuckDB.VInt total;
    DuckDB.VInt house ].

Definition quoted (v : Py.str) : Py.str := DuckDB.quote :: v ++ [DuckDB.quote].

(** [sep.join(parts)] for a separator of several characters. *)
Fixpoint join_str (sep : Py.str) (parts : list Py.str) : Py.str :=
  match parts with
  | [] => []
  | [p] => p
  | p :: r => p ++ sep ++ join_str sep r
  end.


(** The constant parts of the text that [generate_insert_sql] returns. *)
Definition sql_header : Py.str :=
  Py.lit "INSERT INTO thai_population" ++ nl ++ Py.lit "VALUES (" ++ nl ++
  Py.lit "    ".

Definition sql_separator : Py.str := Py.lit "," ++ nl ++ Py.lit "    ".

Definition sql_footer : Py.str := nl ++ Py.lit ")".

(** The tokens of a parenthesised list of literals, after the opening
    parenthesis. *)
Fixpoint value_tokens (vs : list Py.str) : list DuckDB.token :=
  match vs with
  | [] => []
  | [v] => [DuckDB.TString v; DuckDB.TRParen]
  | v :: r => DuckDB.TString v :: DuckDB.TComma :: value_tokens r
  end.

Definition no_semicolon (t : DuckDB.token) : Prop := t <> DuckDB.TSemi.

(** A table after one more row. *)
Definition append_row (t : DuckDB.Table) (r : DuckDB.row) : DuckDB.Table :=
  {| DuckDB.tbl_name := DuckDB.tbl_name t;
     DuckDB.tbl_columns := DuckDB.tbl_columns t;
     DuckDB.tbl_primary_key := DuckDB.tbl_primary_key t;
     DuckDB.tbl_rows := DuckDB.tbl_rows t ++ [r] |}.

(** A row of the table holds the key [(data_year, cc_code)]. *)
Definition has_key (t : DuckDB.Table) (data_year cc_code : Z) : Prop :=
  exists r, In r (DuckDB.tbl_rows t) /\
            DuckDB.table_key t r = [DuckDB.VInt data_year; DuckDB.VInt cc_code].

(** The fourteen arguments as the texts spliced into the statement. *)
Definition argument_texts
    (data_year : Z) (yymm : Py.str) (cc_code : Z)
    (cc_desc rcode_code rcode_desc ccaatt_code ccaatt_desc
     ccaattmm_code ccaattmm_desc : Py.str)
    (male female total house : Z) : list Py.str :=
  [ Py.str_of_int data_year; yymm; Py.str_of_int cc_code; cc_desc;
    rcode_code; rcode_desc; ccaatt_code; ccaatt_desc; ccaattmm_code;
    ccaattmm_desc; Py.str_of_int male; Py.str_of_int female;
    Py.str_of_int total; Py.str_of_int house ].

(** ** Sample inputs *)

Definition sample_fields : list Py.str :=
  [ Py.lit "3612"; Py.lit "001"; Py.lit "Bangkok"; Py.lit "1";
    Py.lit "Central"; Py.lit "1001"; Py.lit "Phra Nakhon"; Py.lit "100101";
    Py.lit "Phra Borom"; Py.lit "1,234"; Py.lit "2,345"; Py.lit "3,579";
    Py.lit "1,000" ].

Definition sample_line : Py.str := record_line sample_fields.

Definition sample_record : DuckDB.row :=
  record_of 1993 (Py.lit "3612") 1 (Py.lit "Bangkok") (Py.lit "1")
    (Py.lit "Central") (Py.lit "1001") (Py.lit "Phra Nakhon")
    (Py.lit "100101") (Py.lit "Phra Borom") 1234 2345 3579 1000.

Definition sample_table : DuckDB.Table :=
  append_row thai_population sample_record.

(** A network that is down: every request raises. *)
Definition offline (url : Py.str) : Exception + Response :=
  inl (RequestException (Py.lit "ConnectionError")).

(** A network that serves [body] for every year but 2000, for which
    it answers 404. *)
Definition serve_until_2000 (body : Py.str) (url : Py.str)
    : Exception + Response :=
  if Py.eqb url (stat_url (convert_to_thai_year 2000))
  then inr {| status_code := 404; text := Py.lit "Not Found" |}
  else inr {| status_code := 200; text := body |}.

(** An engine whose [COPY] leaves the filesystem as it is. *)
Definition copy_nothing (c : DuckDB.copy_statement)
    (d : option DuckDB.Table) (f : FS.t) : DuckDB.error + FS.t :=
  inr f.

Definition sample_body : Py.str := bom :: sample_line ++ nl.

Definition initial_world (f : FS.t) : World :=
  {| db := create_duck_db_table None; fs := f; trace := [EvCreateTable] |}.

(** The oracles of the termination property: the fetch succeeds for
    1993 to 1999 and fails at 2000. *)
Definition fetch_ok (requests_get : Py.str -> Exception + Response)
    (year : Z) : Prop :=
  exists body, get_data_stat_by_year requests_get year = inr (Ok body).

Definition fetch_err (requests_get : Py.str -> Exception + Response)
    (year : Z) : Prop :=
  exists e, get_data_stat_by_year requests_get year = inr (Err e).



(** The number of lines of the cleaned body of a year. *)
Definition lines_of (requests_get : Py.str -> Exception + Response)
    (year : Z) : nat :=
  match get_data_stat_by_year requests_get year with
  | inr (Ok body) => List.length (Py.splitlines (clean_text body))
  | _ => 0%nat
  end.

(** The events of a year that is fetched and loaded to its end. *)
Definition year_events (requests_get : Py.str -> Exception + Response)
    (year : Z) : list Event :=
  EvFetch year :: repeat (EvInsert year) (lines_of requests_get year) ++
  [EvYearDone year].

Fixpoint years_from (year : Z) (n : nat) : list Z :=
  match n with
  | O => []
  | S n' => year :: years_from (year + 1)%Z n'
  end.

(** A line of fourteen fields. *)
Definition fourteen_fields : Py.str :=
  Py.lit "3612|001|Bangkok|1|Central|1001|Phra Nakhon|100101|Phra Borom|1|2|3|4|5".

Definition two_bad_lines : Py.str :=
  sample_line ++ nl ++ Py.lit "x" ++ nl ++ sample_line.

(** ** Vocabulary of the further properties *)

(** The number of pipes of a line. *)
Definition count_pipes (row : Py.str) : nat := count_occ N.eq_dec row pipe.

Definition not_linebreak (c : Py.char) : bool := negb (Py.is_linebreak c).

(** The years of the insertions of a trace, in order. *)
Definition insert_years (tr : list Event) : list Z :=
  flat_map (fun e => match e with EvInsert y => [y] | _ => [] end) tr.

(** The first column of a stored row. *)
Definition data_year_of (r : DuckDB.row) : option DuckDB.value := hd_error r.

(** A stored value fits the type of its column. *)
Definition fits (col : Py.str * DuckDB.sqltype) (v : DuckDB.value) : Prop :=
  match snd col, v with
  | DuckDB.INTEGER, DuckDB.VInt z => int32 z
  | DuckDB.VARCHAR, DuckDB.VStr _ => True
  | _, _ => False
  end.

Definition well_typed (t : DuckDB.Table) : Prop :=
  Forall (Forall2 fits (DuckDB.tbl_columns t)) (DuckDB.tbl_rows t).

(** A network that serves [body] for every year. *)
Definition serve_always (body : Py.str) (url : Py.str)
    : Exception + Response :=
  inr {| status_code := 200; text := body |}.

(** The table mirrors the insertions of the trace: it has the schema
    of the script, its rows fit the column types, and their first
    columns are the years of the insertions, in order. *)
Definition table_mirrors_trace (w : World) : Prop :=
  exists t, db w = Some t /\
            same_schema t thai_population /\
            well_typed t /\
            map data_year_of (DuckDB.tbl_rows t)
            = map (fun y => Some (DuckDB.VInt y)) (insert_years (trace w)).

(** The state of the loop at its head ([at_head]) and after the fetch
    of the current year ([in_year]), [n] years after 1993. *)
Definition at_head (year : Z) (w : World) : Prop :=
  exists n, year = (1993 + Z.of_nat n)%Z /\
            fetched (trace w) = years_from 1993 n /\
            years_done (trace w) = years_from 1993 n /\
            exports (trace w) = 0%nat.

Definition in_year (year : Z) (w : World) : Prop :=
  exists n, year = (1993 + Z.of_nat n)%Z /\
            fetched (trace w) = years_from 1993 (S n) /\
            years_done (trace w) = years_from 1993 n /\
            exports (trace w) = 0%nat.

(** A network none of whose bodies holds an apostrophe: every
    statement that the Loader builds from them is one insertion of one
    row. *)
Definition apostrophe_free (requests_get : Py.str -> Exception + Response)
    : Prop :=
  forall url response,
    requests_get url = inr response -> ok response = true ->
    free_of DuckDB.quote (text response).

(** The database holds the table of the script, with its key, and no
    two rows agree on the key. *)
Definition keyed_table (w : World) : Prop :=
  exists t, db w = Some t /\ same_schema t thai_population /\ unique_keys t.

(** The text of the statement of [create_duck_db_table]. *)
Definition create_table_sql : Py.str :=
  Py.lit "CREATE OR REPLACE TABLE" ++ nl ++ nl ++
  Py.lit "    thai_population" ++ nl ++
  Py.lit "    (" ++ nl ++
  Py.lit "        data_year INTEGER," ++ nl ++
  Py.lit "        yymm VARCHAR," ++ nl ++
  Py.lit "        cc_code INTEGER," ++ nl ++
  Py.lit "        cc_desc VARCHAR," ++ nl ++
  Py.lit "        rcode_code VARCHAR," ++ nl ++
  Py.lit "        rcode_desc VARCHAR," ++ nl ++
  Py.lit "        ccaatt_code VARCHAR," ++ nl ++
  Py.lit "        ccaatt_desc VARCHAR," ++ nl ++
  Py.lit "        ccaattmm_code VARCHAR," ++ nl ++
  Py.lit "        ccaattmm_desc VARCHAR," ++ nl ++
  Py.lit "        male INTEGER," ++ nl ++
  Py.lit "        female INTEGER," ++ nl ++
  Py.lit "        total INTEGER," ++ nl ++
  Py.lit "        house INTEGER," ++ nl ++
  Py.lit "        PRIMARY KEY (data_year, cc_code)" ++ nl ++
  Py.lit "    );".

(** A table without its key. *)
Definition keyless (t : DuckDB.Table) : DuckDB.Table :=
  {| DuckDB.tbl_name := DuckDB.tbl_name t;
     DuckDB.tbl_columns := DuckDB.tbl_columns t;
     DuckDB.tbl_primary_key := [];
     DuckDB.tbl_rows := DuckDB.tbl_rows t |}.

(** A line whose third field (cc_desc) holds apostrophes: it closes
    the literal and the statement, declares the table again without
    its key, and opens a second insertion that the rest of the
    template completes. *)
Definition keyless_table_sql : Py.str :=
  Py.lit "CREATE OR REPLACE TABLE thai_population (data_year INTEGER, yymm VARCHAR, cc_code INTEGER, cc_desc VARCHAR, rcode_code VARCHAR, rcode_desc VARCHAR, ccaatt_code VARCHAR, ccaatt_desc VARCHAR, ccaattmm_code VARCHAR, ccaattmm_desc VARCHAR, male INTEGER, female INTEGER, total INTEGER, house INTEGER)".

Definition injected_cc_desc : Py.str :=
  Py.lit "Bangkok','1','Central','1001','Phra Nakhon','100101','Phra Borom','1234','2345','3579','1000'); " ++
  keyless_table_sql ++
  Py.lit "; INSERT INTO thai_population VALUES ('1993','3612','1','Bangkok".

Definition injected_fields : list Py.str :=
  [ Py.lit "3612"; Py.lit "001"; injected_cc_desc; Py.lit "1";
    Py.lit "Central"; Py.lit "1001"; Py.lit "Phra Nakhon"; Py.lit "100101";
    Py.lit "Phra Borom"; Py.lit "1,234"; Py.lit "2,345"; Py.lit "3,579";
    Py.lit "1,000" ].

Definition injected_line : Py.str := record_line injected_fields.

Definition injected_body : Py.str :=
  injected_line ++ nl ++ sample_line ++ nl ++ sample_line ++ nl.

(** An engine whose [COPY] raises. *)
Definition copy_refused (c : DuckDB.copy_statement)
    (d : option DuckDB.Table) (f : FS.t) : DuckDB.error + FS.t :=
  inl DuckDB.IOException.

(** The record that a line stands for in the iteration of [year]:
    its thirteen fields in the order of the columns after [data_year],
    the five numeric ones read as integers. *)
Definition line_record (year : Z) (row : Py.str) : option DuckDB.row :=
  match fields_of row with
  | [yymm; cc_code; cc_desc; rcode_code; rcode_desc; ccaatt_code;
     ccaatt_desc; ccaattmm_code; ccaattmm_desc;
     male_str; female_str; total_str; house_str] =>
      match Py.int (Py.remove comma cc_code),
            Py.int (Py.remove comma male_str),
            Py.int (Py.remove comma female_str),
            Py.int (Py.remove comma total_str),
            Py.int (Py.remove comma house_str) with
      | Some cc, Some male, Some female, Some total, Some house =>
          Some (record_of year yymm cc cc_desc rcode_code rcode_desc
                  ccaatt_code ccaatt_desc ccaattmm_code ccaattmm_desc
                  male female total house)
      | _, _, _, _, _ => None
      end
  | _ => None
  end.

Definition text_free_of_quote (v : DuckDB.value) : Prop :=
  match v with
  | DuckDB.VStr s => free_of DuckDB.quote s
  | DuckDB.VInt _ => True
  end.

(** A line that the Loader can store as the record [r]: its integers
    fit the columns and its texts hold no apostrophe. *)
Definition loadable (year : Z) (row : Py.str) (r : DuckDB.row) : Prop :=
  line_record year row = Some r /\
  Forall2 fits (DuckDB.tbl_columns thai_population) r /\
  Forall text_free_of_quote r.

(** A table with further rows. *)
Definition extend (t : DuckDB.Table) (rs : list DuckDB.row) : DuckDB.Table :=
  {| DuckDB.tbl_name := DuckDB.tbl_name t;
     DuckDB.tbl_columns := DuckDB.tbl_columns t;
     DuckDB.tbl_primary_key := DuckDB.tbl_primary_key t;
     DuckDB.tbl_rows := DuckDB.tbl_rows t ++ rs |}.

Definition sample_fields2 : list Py.str :=
  [ Py.lit "3612"; Py.lit "002"; Py.lit "Samut Prakan"; Py.lit "1";
    Py.lit "Central"; Py.lit "1101"; Py.lit "Mueang"; Py.lit "110101";
    Py.lit "Pak Nam"; Py.lit "10"; Py.lit "20"; Py.lit "30"; Py.lit "5" ].

Definition sample_line2 : Py.str := record_line sample_fields2.

Definition sample_record2 : DuckDB.row :=
  record_of 1993 (Py.lit "3612") 2 (Py.lit "Samut Prakan") (Py.lit "1")
    (Py.lit "Central") (Py.lit "1101") (Py.lit "Mueang")
    (Py.lit "110101") (Py.lit "Pak Nam") 10 20 30 5.

(** The bodies of the years from [year] on are served, and their
    lines stand for the records [records], year by year. *)
Definition years_loadable (requests_get : Py.str -> Exception + Response)
    (years : list Z) (records : list (list DuckDB.row)) : Prop :=
  Forall2
    (fun y rs =>
       exists body,
         get_data_stat_by_year requests_get y = inr (Ok body) /\
         Forall2 (loadable y) (Py.splitlines (clean_text body)) rs)
    years records.

Definition sample_records_of (year : Z) : list DuckDB.row :=
  [ record_of year (Py.lit "3612") 1 (Py.lit "Bangkok") (Py.lit "1")
      (Py.lit "Central") (Py.lit "1001") (Py.lit "Phra Nakhon")
      (Py.lit "100101") (Py.lit "Phra Borom") 1234 2345 3579 1000 ].
(* ================================================================== *)
(** * Lemmas on the string built-ins *)
(* ================================================================== *)

(** Right-nest the appends and push them through the conses. *)
Ltac norm_app := repeat (progress (rewrite <- ?app_assoc; cbn [app])).

Lemma char_in_single (c x : Py.char) :
  Py.char_in [c] x = (x =? c)%N.
Proof. unfold Py.char_in; simpl. now rewrite orb_false_r. Qed.

Lemma char_in_true_iff (chars : Py.str) (c : Py.char) :
  Py.char_in chars c = true <-> In c chars.
Proof.
  unfold Py.char_in. rewrite existsb_exists. split.
  - intros [x [Hin Heq]]. apply N.eqb_eq in Heq. now subst.
  - intros Hin. exists c. split; [assumption | apply N.eqb_refl].
Qed.

Lemma lstrip_head (chars s : Py.str) (c : Py.char) :
  hd_error (Py.lstrip chars s) = Some c -> Py.char_in chars c = false.
Proof.
  induction s as [|x r IH]; simpl; [discriminate|].
  destruct (Py.char_in chars x) eqn:E; [exact IH|].
  simpl. intros [= <-]. exact E.
Qed.

Lemma lstrip_id (chars s : Py.str) :
  (forall c, hd_error s = Some c -> Py.char_in chars c = false) ->
  Py.lstrip chars s = s.
Proof.
  destruct s as [|x r]; simpl; [reflexivity|].
  intros H. now rewrite (H x eq_refl).
Qed.

Lemma lstrip_app_keep (chars x y : Py.str) (c : Py.char) :
  Py.char_in chars c = false ->
  Py.lstrip chars (x ++ c :: y) = Py.lstrip chars x ++ c :: y.
Proof.
  intros Hc. induction x as [|a x IH]; simpl.
  - now rewrite Hc.
  - destruct (Py.char_in chars a); [exact IH | reflexivity].
Qed.

Lemma lstrip_suffix (chars s : Py.str) :
  exists p, s = p ++ Py.lstrip chars s.
Proof.
  induction s as [|x r [p IH]]; simpl.
  - now exists [].
  - destruct (Py.char_in chars x).
    + exists (x :: p). simpl. now rewrite <- IH.
    + now exists [].
Qed.

Lemma rstrip_prefix (chars s : Py.str) :
  exists t, s = Py.rstrip chars s ++ t.
Proof.
  unfold Py.rstrip. destruct (lstrip_suffix chars (rev s)) as [p Hp].
  exists (rev p). rewrite <- rev_app_distr, <- Hp. now rewrite rev_involutive.
Qed.

Lemma rstrip_app_keep (chars a b : Py.str) (c : Py.char) :
  Py.char_in chars c = false ->
  Py.rstrip chars (a ++ c :: b) = a ++ c :: Py.rstrip chars b.
Proof.
  intros Hc. unfold Py.rstrip.
  rewrite rev_app_distr. simpl. rewrite <- app_assoc. simpl.
  rewrite (lstrip_app_keep _ _ _ _ Hc).
  rewrite rev_app_distr. simpl. rewrite rev_involutive, <- app_assoc.
  reflexivity.
Qed.

Lemma rstrip_id (chars s : Py.str) :
  (forall c, hd_error (rev s) = Some c -> Py.char_in chars c = false) ->
  Py.rstrip chars s = s.
Proof.
  intros H. unfold Py.rstrip. rewrite (lstrip_id _ _ H).
  apply rev_involutive.
Qed.

Lemma hd_error_prefix {A : Type} (p t : list A) (c : A) :
  hd_error p = Some c -> hd_error (p ++ t) = Some c.
Proof. destruct p; simpl; [discriminate | trivial]. Qed.

Lemma strip_head (chars s : Py.str) (c : Py.char) :
  hd_error (Py.strip chars s) = Some c -> Py.char_in chars c = false.
Proof.
  unfold Py.strip. intros H.
  destruct (rstrip_prefix chars (Py.lstrip chars s)) as [t Ht].
  apply (lstrip_head chars s). rewrite Ht.
  now apply hd_error_prefix.
Qed.

Lemma strip_last (chars s : Py.str) (c : Py.char) :
  hd_error (rev (Py.strip chars s)) = Some c -> Py.char_in chars c = false.
Proof.
  unfold Py.strip, Py.rstrip. rewrite rev_involutive. apply lstrip_head.
Qed.

(** The first line of a text is the part before its first boundary. *)
Lemma splitlines_from_head (s cur l : Py.str) :
  hd_error (Py.splitlines_from cur s) = Some l ->
  exists p t, l = rev cur ++ p /\ s = p ++ t /\
              forallb (fun c => negb (Py.is_linebreak c)) p = true.
Proof.
  revert cur. induction s as [|c r IH]; intros cur; simpl.
  - destruct cur; simpl; [discriminate|].
    intros [= <-]. exists [], []. now rewrite app_nil_r.
  - destruct (Py.is_linebreak c) eqn:E.
    + simpl. intros [= <-]. exists [], (c :: r). now rewrite app_nil_r.
    + intros H. destruct (IH _ H) as (p & t & -> & -> & Hp).
      exists (c :: p), t. simpl. rewrite E, Hp, <- app_assoc. now simpl.
Qed.

Lemma splitlines_from_break (p t cur : Py.str) (c : Py.char) :
  forallb (fun c => negb (Py.is_linebreak c)) p = true ->
  Py.is_linebreak c = true ->
  hd_error (Py.splitlines_from cur (p ++ c :: t)) = Some (rev cur ++ p).
Proof.
  revert cur. induction p as [|x p IH]; intros cur Hp Hc; simpl.
  - rewrite Hc. simpl. now rewrite app_nil_r.
  - simpl in Hp. apply andb_prop in Hp as [Hx Hp].
    apply negb_true_iff in Hx. rewrite Hx, (IH _ Hp Hc).
    simpl. now rewrite <- app_assoc.
Qed.

Lemma first_break (s : Py.str) :
  existsb Py.is_linebreak s = true ->
  exists p c t, s = p ++ c :: t /\ Py.is_linebreak c = true /\
                forallb (fun c => negb (Py.is_linebreak c)) p = true.
Proof.
  induction s as [|x r IH]; simpl; [discriminate|].
  destruct (Py.is_linebreak x) eqn:E.
  - intros _. now exists [], x, r.
  - simpl. intros H. destruct (IH H) as (p & c & t & -> & Hc & Hp).
    exists (x :: p), c, t. simpl. now rewrite E, Hp.
Qed.

(** Splitting at a one-character separator undoes joining fields that
    do not contain it. *)
Lemma split_free (sep : Py.char) (f : Py.str) :
  free_of sep f -> Py.split sep f = [f].
Proof.
  unfold free_of. induction f as [|c r IH]; simpl; [reflexivity|].
  intros H. destruct (N.eqb_spec c sep) as [->|_].
  - exfalso. apply H. now left.
  - rewrite IH; [reflexivity | intros Hin; apply H; now right].
Qed.

Lemma split_app (sep : Py.char) (f rest : Py.str) :
  free_of sep f ->
  Py.split sep (f ++ sep :: rest) = f :: Py.split sep rest.
Proof.
  unfold free_of. induction f as [|c r IH]; simpl; intros H.
  - now rewrite N.eqb_refl.
  - destruct (N.eqb_spec c sep) as [->|_].
    + exfalso. apply H. now left.
    + rewrite IH; [reflexivity | intros Hin; apply H; now right].
Qed.

Lemma split_join (sep : Py.char) (fields : list Py.str) :
  fields <> [] -> Forall (free_of sep) fields ->
  Py.split sep (join sep fields) = fields.
Proof.
  induction fields as [|f r IH]; [congruence|].
  intros _ Hall. inversion Hall as [|? ? Hf Hr]; subst.
  destruct r as [|g r'].
  - simpl. now apply split_free.
  - change (join sep (f :: g :: r')) with (f ++ sep :: join sep (g :: r')).
    rewrite (split_app _ _ _ Hf), IH; [reflexivity | congruence | assumption].
Qed.

Lemma join_head (sep : Py.char) (f : Py.str) (r : list Py.str) :
  f <> [] -> hd_error (join sep (f :: r)) = hd_error f.
Proof.
  destruct f as [|c f']; [congruence|]. intros _. now destruct r.
Qed.

Lemma join_last (sep : Py.char) (init : list Py.str) (l : Py.str) :
  l <> [] -> hd_error (rev (join sep (init ++ [l]))) = hd_error (rev l).
Proof.
  intros Hl. induction init as [|f r IH]; [reflexivity|].
  assert (E : exists g r', r ++ [l] = g :: r').
  { destruct r; simpl; eauto. }
  destruct E as (g & r' & E).
  change ((f :: r) ++ [l]) with (f :: (r ++ [l])). rewrite E in *.
  change (join sep (f :: g :: r')) with (f ++ sep :: join sep (g :: r')).
  remember (join sep (g :: r')) as J eqn:EJ. clear EJ.
  rewrite rev_app_distr. simpl. rewrite <- app_assoc.
  destruct (rev J) as [|c t] eqn:Er; [|exact IH].
  destruct (rev l) as [|c t] eqn:El; [|discriminate].
  apply (f_equal (@rev _)) in El. rewrite rev_involutive in El. now subst.
Qed.

Lemma lstrip_cons_in (chars r : Py.str) (c : Py.char) :
  Py.char_in chars c = true -> Py.lstrip chars (c :: r) = Py.lstrip chars r.
Proof. intros H. cbn [Py.lstrip]. now rewrite H. Qed.

Lemma lstrip_cons_out (chars r : Py.str) (c : Py.char) :
  Py.char_in chars c = false -> Py.lstrip chars (c :: r) = c :: r.
Proof. intros H. cbn [Py.lstrip]. now rewrite H. Qed.

Lemma pipe_in_pipe : Py.char_in [pipe] pipe = true.
Proof. reflexivity. Qed.

Lemma strip_record_line (fields : list Py.str) :
  (forall c, hd_error (join pipe fields) = Some c -> c <> pipe) ->
  (forall c, hd_error (rev (join pipe fields)) = Some c -> c <> pipe) ->
  Py.strip [pipe] (record_line fields) = join pipe fields.
Proof.
  unfold record_line. destruct (join pipe fields) as [|x t]; intros Hh Hl.
  - reflexivity.
  - assert (Hx : Py.char_in [pipe] x = false).
    { rewrite char_in_single. apply N.eqb_neq. now apply Hh. }
    unfold Py.strip.
    assert (E : Py.lstrip [pipe] (pipe :: (x :: t) ++ [pipe])
                = (x :: t) ++ [pipe]).
    { rewrite (lstrip_cons_in _ _ _ pipe_in_pipe).
      change ((x :: t) ++ [pipe]) with (x :: t ++ [pipe]).
      now apply lstrip_cons_out. }
    rewrite E. unfold Py.rstrip. rewrite rev_app_distr.
    change (rev [pipe] ++ rev (x :: t)) with (pipe :: rev (x :: t)).
    rewrite (lstrip_cons_in _ _ _ pipe_in_pipe).
    rewrite lstrip_id; [apply rev_involutive|].
    intros c Hc. rewrite char_in_single. apply N.eqb_neq. now apply Hl.
Qed.

(** ** Decimal numerals *)

Lemma to_uint_of_uint (d : Decimal.uint) :
  DuckDB.to_uint (Py.of_uint d) = Some d.
Proof. induction d; simpl; try rewrite IHd; reflexivity. Qed.

Lemma of_uint_nonnil (d : Decimal.uint) :
  d <> Decimal.Nil ->
  exists c r, Py.of_uint d = c :: r /\ (48 <= c <= 57)%N.
Proof.
  destruct d; [congruence| ..]; intros _; simpl;
    eexists; eexists; (split; [reflexivity | unfold Py.digit_char; lia]).
Qed.

Lemma to_int_nonnil (z : Z) :
  match Z.to_int z with
  | Decimal.Pos d | Decimal.Neg d => d <> Decimal.Nil
  end.
Proof.
  destruct z; simpl; try apply DecimalPos.Unsigned.to_uint_nonnil.
  discriminate.
Qed.

(** The rendering of an integer is its decimal numeral: the engine
    reads it back as the same integer. *)
Lemma integer_of_text_str_of_int (z : Z) :
  DuckDB.integer_of_text (Py.str_of_int z) = Some z.
Proof.
  unfold Py.str_of_int. pose proof (to_int_nonnil z) as Hn.
  pose proof (DecimalZ.of_to z) as Hz.
  destruct (Z.to_int z) as [d|d];
    destruct (of_uint_nonnil d Hn) as (c & r & E & Hc).
  - unfold DuckDB.integer_of_text. rewrite E. lazy beta iota.
    replace (c =? Py.minus_sign)%N with false
      by (symmetry; apply N.eqb_neq; unfold Py.minus_sign; lia).
    rewrite <- E, to_uint_of_uint. cbn [option_map]. now rewrite Hz.
  - unfold DuckDB.integer_of_text. rewrite N.eqb_refl, E. lazy beta iota.
    rewrite <- E, to_uint_of_uint. cbn [option_map]. now rewrite Hz.
Qed.

Lemma of_uint_chars (d : Decimal.uint) :
  Forall (fun c => 48 <= c <= 57)%N (Py.of_uint d).
Proof.
  induction d; simpl; constructor; try assumption; unfold Py.digit_char; lia.
Qed.

Lemma str_of_int_chars (z : Z) :
  Forall (fun c => c = Py.minus_sign \/ 48 <= c <= 57)%N (Py.str_of_int z).
Proof.
  unfold Py.str_of_int.
  destruct (Z.to_int z) as [d|d]; [|constructor; [now left|]];
    (eapply Forall_impl; [|apply of_uint_chars]); intros c Hc; now right.
Qed.

Lemma str_of_int_free (c : Py.char) (z : Z) :
  c <> Py.minus_sign -> ~ (48 <= c <= 57)%N -> free_of c (Py.str_of_int z).
Proof.
  intros H1 H2 Hin.
  pose proof (str_of_int_chars z) as Hall. rewrite Forall_forall in Hall.
  destruct (Hall _ Hin); [congruence | contradiction].
Qed.

(* ================================================================== *)
(** * The Fetcher's address *)
(* ================================================================== *)



(* ================================================================== *)
(** * Cleaning the body *)
(* ================================================================== *)

Lemma bom_not_in_bom (c : Py.char) :
  Py.char_in [bom] c = false <-> c <> bom.
Proof. rewrite char_in_single. apply N.eqb_neq. Qed.

Lemma linebreak_not_bom (c : Py.char) :
  Py.is_linebreak c = true -> Py.char_in [bom] c = false.
Proof.
  intros H. apply bom_not_in_bom. intros ->. discriminate H.
Qed.

Lemma first_line_prefix (s l : Py.str) :
  first_line s = Some l -> exists t, s = l ++ t.
Proof.
  intros H. apply splitlines_from_head in H as (p & t & -> & -> & _).
  now exists t.
Qed.

(** The claim C9 as the specification words it: its second half fails
    on the one-line body made of the letter a followed by a mark, whose
    first line loses the mark at its end. *)
Lemma clean_text_trailing_bom :
  ~ ((forall body, starts_with bom body ->
        forall l, first_line (clean_text body) = Some l ->
                  ~ starts_with bom l) /\
     (forall body, ~ starts_with bom body ->
        first_line (clean_text body) = first_line body)).
Proof.
  intros [_ H]. specialize (H [97%N; bom]).
  assert (Hs : ~ starts_with bom [97%N; bom]) by (intros E; discriminate E).
  specialize (H Hs). discriminate H.
Qed.

(** C9 (amended).  A body that starts with a byte-order mark has no
    leading mark in the first line of its cleaned text; a body that
    does not start with one keeps its first line when it contains a
    line boundary or does not end with a mark. *)
Theorem clean_text_first_line (body : Py.str) :
  (starts_with bom body ->
   forall l, first_line (clean_text body) = Some l -> ~ starts_with bom l) /\
  (~ starts_with bom body ->
   has_linebreak body \/ ~ ends_with bom body ->
   first_line (clean_text body) = first_line body).
Proof.
  split.
  - intros _ l Hl Hb. destruct (first_line_prefix _ _ Hl) as [t Ht].
    assert (Hc : hd_error (clean_text body) = Some bom).
    { rewrite Ht. now apply hd_error_prefix. }
    apply strip_head in Hc. now apply bom_not_in_bom in Hc.
  - intros Hs Hcase. unfold clean_text, Py.strip.
    rewrite (lstrip_id [bom] body).
    2:{ intros c Hc. apply bom_not_in_bom. intros ->. now apply Hs. }
    destruct Hcase as [Hb | He].
    + destruct (first_break _ Hb) as (p & c & t & -> & Hc & Hp).
      rewrite (rstrip_app_keep _ _ _ _ (linebreak_not_bom _ Hc)).
      unfold first_line, Py.splitlines.
      now rewrite !splitlines_from_break.
    + rewrite rstrip_id; [reflexivity|].
      intros c Hc. apply bom_not_in_bom. intros ->. now apply He.
Qed.

Lemma clean_text_first_line_witness :
  ~ starts_with bom [97%N] /\
  first_line (clean_text [97; 10; 98; bom]%N) = first_line [97; 10; 98; bom]%N.
Proof.
  split.
  - apply (proj1 (clean_text_first_line [bom; 97%N])); reflexivity.
  - apply (proj2 (clean_text_first_line [97; 10; 98; bom]%N)).
    + intros E; discriminate E.
    + left; reflexivity.
Defined.

(* ================================================================== *)
(** * Parsing a record line *)
(* ================================================================== *)

Lemma string_to_int_eq (v : Py.str) :
  string_to_int v =
  match Py.int (Py.remove comma v) with
  | Some z => inr z
  | None => inl (ValueError_int (Py.remove comma v))
  end.
Proof. reflexivity. Qed.

Lemma remove_free (c : Py.char) (v : Py.str) : free_of c (Py.remove c v).
Proof.
  unfold free_of, Py.remove. rewrite filter_In. intros [_ H].
  now rewrite N.eqb_refl in H.
Qed.

Lemma free_of_hd (c x : Py.char) (s : Py.str) :
  free_of c s -> hd_error s = Some x -> x <> c.
Proof.
  destruct s as [|y r]; [discriminate|]. simpl. intros H [= ->] ->.
  apply H. now left.
Qed.

Lemma free_of_last (c x : Py.char) (s : Py.str) :
  free_of c s -> hd_error (rev s) = Some x -> x <> c.
Proof.
  intros H Hx. apply (free_of_hd c x (rev s)); [|assumption].
  unfold free_of in *. now rewrite <- in_rev.
Qed.

(** C5.  On a well-formed line of thirteen fields with [001] as the
    region code and [1,234] in tenth position, extraction and coercion
    give the integers 1 and 1234; in general [string_to_int] parses its
    argument with every comma removed. *)
Theorem parse_well_formed_line
    (year : Z)
    (yymm cc_desc rcode_code rcode_desc ccaatt_code ccaatt_desc
     ccaattmm_code ccaattmm_desc female_str total_str house_str : Py.str)
    (female total house : Z)
    (Hfree : Forall (free_of pipe)
               [yymm; cc_desc; rcode_code; rcode_desc; ccaatt_code;
                ccaatt_desc; ccaattmm_code; ccaattmm_desc;
                female_str; total_str; house_str])
    (Hfirst : yymm <> []) (Hlast : house_str <> [])
    (Hfemale : string_to_int female_str = inr female)
    (Htotal : string_to_int total_str = inr total)
    (Hhouse : string_to_int house_str = inr house) :
  let line :=
    record_line [yymm; Py.lit "001"; cc_desc; rcode_code; rcode_desc;
                 ccaatt_code; ccaatt_desc; ccaattmm_code; ccaattmm_desc;
                 Py.lit "1,234"; female_str; total_str; house_str] in
  string_to_int (nth 1 (fields_of line) []) = inr 1%Z /\
  string_to_int (nth 9 (fields_of line) []) = inr 1234%Z /\
  row_statement year line
  = inr (generate_insert_sql year yymm 1 cc_desc rcode_code rcode_desc
           ccaatt_code ccaatt_desc ccaattmm_code ccaattmm_desc
           1234 female total house) /\
  (forall v, free_of comma (Py.remove comma v) /\
             string_to_int v =
             match Py.int (Py.remove comma v) with
             | Some z => inr z
             | None => inl (ValueError_int (Py.remove comma v))
             end).
Proof.
  intros line.
  assert (Hall : Forall (free_of pipe)
            [yymm; Py.lit "001"; cc_desc; rcode_code; rcode_desc;
             ccaatt_code; ccaatt_desc; ccaattmm_code; ccaattmm_desc;
             Py.lit "1,234"; female_str; total_str; house_str]).
  { assert (H1 : free_of pipe (Py.lit "001")).
    { intros H; vm_compute in H; intuition discriminate. }
    assert (H2 : free_of pipe (Py.lit "1,234")).
    { intros H; vm_compute in H; intuition discriminate. }
    repeat match goal with
           | H : Forall _ (_ :: _) |- _ =>
               let a := fresh in let b := fresh in
               inversion H as [|? ? a b]; subst; clear H
           end.
    repeat (constructor; try assumption). }
  assert (Hfields :
    fields_of line
    = [yymm; Py.lit "001"; cc_desc; rcode_code; rcode_desc;
       ccaatt_code; ccaatt_desc; ccaattmm_code; ccaattmm_desc;
       Py.lit "1,234"; female_str; total_str; house_str]).
  { unfold fields_of, line, extract_row. rewrite strip_record_line.
    - apply split_join; [discriminate | exact Hall].
    - intros c. rewrite join_head by assumption.
      apply free_of_hd. now inversion Hall.
    - intros c.
      change [yymm; Py.lit "001"; cc_desc; rcode_code; rcode_desc;
              ccaatt_code; ccaatt_desc; ccaattmm_code; ccaattmm_desc;
              Py.lit "1,234"; female_str; total_str; house_str]
        with ([yymm; Py.lit "001"; cc_desc; rcode_code; rcode_desc;
               ccaatt_code; ccaatt_desc; ccaattmm_code; ccaattmm_desc;
               Py.lit "1,234"; female_str; total_str] ++ [house_str]).
      rewrite join_last by assumption.
      apply free_of_last.
      rewrite Forall_forall in Hall. apply Hall.
      repeat (try (left; reflexivity); right). }
  split; [now rewrite Hfields|]. split; [now rewrite Hfields|].
  split.
  - unfold row_statement. fold (fields_of line). rewrite Hfields.
    change (string_to_int (Py.lit "001")) with (@inr Exception Z 1%Z).
    change (string_to_int (Py.lit "1,234")) with (@inr Exception Z 1234%Z).
    cbn [bind]. rewrite Hfemale, Htotal, Hhouse. reflexivity.
  - intros v. split; [apply remove_free | reflexivity].
Qed.

Lemma parse_well_formed_line_witness :
  row_statement 1993 sample_line
  = inr (generate_insert_sql 1993 (Py.lit "3612") 1 (Py.lit "Bangkok")
           (Py.lit "1") (Py.lit "Central") (Py.lit "1001")
           (Py.lit "Phra Nakhon") (Py.lit "100101") (Py.lit "Phra Borom")
           1234 2345 3579 1000).
Proof.
  refine (proj1 (proj2 (proj2
            (parse_well_formed_line 1993 (Py.lit "3612") (Py.lit "Bangkok")
               (Py.lit "1") (Py.lit "Central") (Py.lit "1001")
               (Py.lit "Phra Nakhon") (Py.lit "100101") (Py.lit "Phra Borom")
               (Py.lit "2,345") (Py.lit "3,579") (Py.lit "1,000")
               2345 3579 1000 _ _ _ _ _ _)))).
  - repeat constructor; intros H; vm_compute in H; intuition discriminate.
  - discriminate.
  - discriminate.
  - reflexivity.
  - reflexivity.
  - reflexivity.
Defined.

(* ================================================================== *)
(** * The text of the insertion *)
(* ================================================================== *)

Lemma lex_string_free (v a r : Py.str) :
  free_of DuckDB.quote v ->
  DuckDB.lex (DuckDB.LString a) (v ++ r)
  = DuckDB.lex (DuckDB.LString (rev v ++ a)) r.
Proof.
  revert a. induction v as [|c v IH]; intros a H; [reflexivity|].
  assert (Hc : (c =? DuckDB.quote)%N = false).
  { apply N.eqb_neq. intros ->. apply H. now left. }
  change ((c :: v) ++ r) with (c :: v ++ r).
  cbn [DuckDB.lex]. rewrite Hc, IH.
  - simpl. now rewrite <- app_assoc.
  - intros Hin. apply H. now right.
Qed.

Lemma lex_header (r : Py.str) :
  DuckDB.lex DuckDB.LDefault (sql_header ++ r)
  = option_map (app [DuckDB.TWord (Py.lit "INSERT");
                     DuckDB.TWord (Py.lit "INTO");
                     DuckDB.TWord (Py.lit "thai_population");
                     DuckDB.TWord (Py.lit "VALUES");
                     DuckDB.TLParen])
      (DuckDB.lex DuckDB.LDefault r).
Proof.
  transitivity
    (option_map (cons (DuckDB.TWord (Py.lit "INSERT")))
       (option_map (cons (DuckDB.TWord (Py.lit "INTO")))
          (option_map (cons (DuckDB.TWord (Py.lit "thai_population")))
             (option_map (cons (DuckDB.TWord (Py.lit "VALUES")))
                (option_map (cons DuckDB.TLParen)
                   (DuckDB.lex DuckDB.LDefault r)))))).
  - reflexivity.
  - now destruct (DuckDB.lex DuckDB.LDefault r).
Qed.

Lemma lex_quoted_last (v : Py.str) :
  free_of DuckDB.quote v ->
  DuckDB.lex DuckDB.LDefault (quoted v ++ sql_footer)
  = Some [DuckDB.TString v; DuckDB.TRParen].
Proof.
  intros H. unfold quoted.
  change ((DuckDB.quote :: v ++ [DuckDB.quote]) ++ sql_footer)
    with (DuckDB.quote :: (v ++ [DuckDB.quote]) ++ sql_footer).
  rewrite <- app_assoc.
  change (DuckDB.lex DuckDB.LDefault
            (DuckDB.quote :: v ++ [DuckDB.quote] ++ sql_footer))
    with (DuckDB.lex (DuckDB.LString []) (v ++ [DuckDB.quote] ++ sql_footer)).
  rewrite (lex_string_free _ _ _ H), app_nil_r.
  change (DuckDB.lex (DuckDB.LString (rev v)) ([DuckDB.quote] ++ sql_footer))
    with (Some [DuckDB.TString (rev (rev v)); DuckDB.TRParen]).
  now rewrite rev_involutive.
Qed.

Lemma lex_quoted_next (v r : Py.str) :
  free_of DuckDB.quote v ->
  DuckDB.lex DuckDB.LDefault (quoted v ++ sql_separator ++ r)
  = option_map (fun ts => DuckDB.TString v :: DuckDB.TComma :: ts)
      (DuckDB.lex DuckDB.LDefault r).
Proof.
  intros H. unfold quoted.
  change ((DuckDB.quote :: v ++ [DuckDB.quote]) ++ sql_separator ++ r)
    with (DuckDB.quote :: (v ++ [DuckDB.quote]) ++ sql_separator ++ r).
  rewrite <- app_assoc.
  change (DuckDB.lex DuckDB.LDefault
            (DuckDB.quote :: v ++ [DuckDB.quote] ++ sql_separator ++ r))
    with (DuckDB.lex (DuckDB.LString [])
            (v ++ [DuckDB.quote] ++ sql_separator ++ r)).
  rewrite (lex_string_free _ _ _ H), app_nil_r.
  transitivity
    (option_map (cons (DuckDB.TString (rev (rev v))))
       (option_map (cons DuckDB.TComma) (DuckDB.lex DuckDB.LDefault r))).
  - reflexivity.
  - rewrite rev_involutive. now destruct (DuckDB.lex DuckDB.LDefault r).
Qed.

Lemma lex_values (vs : list Py.str) :
  vs <> [] -> Forall (free_of DuckDB.quote) vs ->
  DuckDB.lex DuckDB.LDefault
    (join_str sql_separator (map quoted vs) ++ sql_footer)
  = Some (value_tokens vs).
Proof.
  induction vs as [|v r IH]; [congruence|]. intros _ Hall.
  inversion Hall as [|? ? Hv Hr]; subst.
  destruct r as [|v' r'].
  - apply lex_quoted_last, Hv.
  - change (join_str sql_separator (map quoted (v :: v' :: r')))
      with (quoted v ++ sql_separator ++
            join_str sql_separator (map quoted (v' :: r'))).
    rewrite <- !app_assoc, (lex_quoted_next _ _ Hv), IH;
      [reflexivity | discriminate | assumption].
Qed.

Lemma parse_value_tokens (vs : list Py.str) :
  vs <> [] -> DuckDB.parse_values (value_tokens vs) = Some vs.
Proof.
  induction vs as [|v r IH]; [congruence|]. intros _.
  destruct r as [|v' r']; [reflexivity|].
  change (value_tokens (v :: v' :: r'))
    with (DuckDB.TString v :: DuckDB.TComma :: value_tokens (v' :: r')).
  cbn [DuckDB.parse_values]. rewrite IH by discriminate. reflexivity.
Qed.

(** The text of a statement whose literals hold no quote is read back
    as the insertion of exactly these literals. *)
Lemma parse_insert_values (vs : list Py.str) :
  vs <> [] -> Forall (free_of DuckDB.quote) vs ->
  DuckDB.parse_insert
    (sql_header ++ join_str sql_separator (map quoted vs) ++ sql_footer)
  = Some {| DuckDB.ins_table := Py.lit "THAI_POPULATION";
            DuckDB.ins_values := vs |}.
Proof.
  intros Hne Hall. unfold DuckDB.parse_insert.
  rewrite lex_header, (lex_values _ Hne Hall).
  cbn [option_map app DuckDB.insert_of_tokens].
  change (DuckDB.keyword "INSERT" (Py.lit "INSERT")) with true.
  change (DuckDB.keyword "INTO" (Py.lit "INTO")) with true.
  change (DuckDB.keyword "VALUES" (Py.lit "VALUES")) with true.
  cbn [andb]. now rewrite (parse_value_tokens _ Hne).
Qed.

(** ** One insertion as a sequence of statements *)

Lemma value_tokens_cons (v v' : Py.str) (r : list Py.str) :
  value_tokens (v :: v' :: r)
  = DuckDB.TString v :: DuckDB.TComma :: value_tokens (v' :: r).
Proof. reflexivity. Qed.

Lemma value_tokens_no_semicolon (vs : list Py.str) :
  Forall no_semicolon (value_tokens vs).
Proof.
  induction vs as [|v r IH]; [constructor|].
  destruct r as [|v' r'].
  - repeat constructor; discriminate.
  - rewrite value_tokens_cons. repeat (constructor; [discriminate|]).
    exact IH.
Qed.

(** What [parse_values] accepts: the tokens of a list of literals,
    with or without a semicolon after it. *)
Lemma parse_values_inv (n : nat) :
  forall (ts : list DuckDB.token) (vs : list Py.str),
    (List.length ts <= n)%nat ->
    DuckDB.parse_values ts = Some vs ->
    vs <> [] /\
    (ts = value_tokens vs \/ ts = value_tokens vs ++ [DuckDB.TSemi]).
Proof.
  induction n as [|n IH]; intros ts vs Hn H.
  { destruct ts; [discriminate | simpl in Hn; lia]. }
  destruct ts as [|t1 ts]; [discriminate|].
  destruct t1 as [w|s| | | |]; try discriminate.
  destruct ts as [|t2 ts]; [discriminate|].
  destruct t2 as [w|s'| | | |]; try discriminate.
  - destruct ts as [|t3 ts].
    + injection H as <-. split; [discriminate | now left].
    + destruct t3 as [w|s'| | | |]; try discriminate.
      destruct ts; [|discriminate].
      injection H as <-. split; [discriminate | now right].
  - cbn [DuckDB.parse_values] in H.
    destruct (DuckDB.parse_values ts) as [vs'|] eqn:E; [|discriminate].
    injection H as <-.
    apply IH in E as [Hne Hts]; [|simpl in Hn; lia].
    split; [discriminate|].
    destruct vs' as [|v' r']; [congruence|].
    rewrite value_tokens_cons.
    destruct Hts as [-> | ->]; [now left | now right].
Qed.

Lemma split_statements_app (pre rest cur : list DuckDB.token) :
  Forall no_semicolon pre ->
  DuckDB.split_statements cur (pre ++ rest)
  = DuckDB.split_statements (rev pre ++ cur) rest.
Proof.
  intros H. revert cur. induction H as [|t pre Ht _ IH]; intros cur;
    [reflexivity|].
  change ((t :: pre) ++ rest) with (t :: pre ++ rest).
  cbn [rev]. rewrite <- app_assoc. cbn [app].
  destruct t; try (cbn [DuckDB.split_statements]; apply IH).
  now contradiction Ht.
Qed.

Lemma split_statements_one (ts : list DuckDB.token) :
  ts <> [] -> Forall no_semicolon ts ->
  DuckDB.split_statements [] ts = [ts] /\
  DuckDB.split_statements [] (ts ++ [DuckDB.TSemi]) = [ts].
Proof.
  intros Hne H.
  assert (Hr : rev ts <> []).
  { intros E. apply Hne. now rewrite <- (rev_involutive ts), E. }
  split.
  - rewrite <- (app_nil_r ts) at 1. rewrite (split_statements_app _ _ _ H).
    rewrite app_nil_r. cbn [DuckDB.split_statements].
    destruct (rev ts) eqn:E; [congruence|].
    now rewrite <- E, rev_involutive.
  - rewrite (split_statements_app _ _ _ H), app_nil_r.
    cbn [DuckDB.split_statements].
    destruct (rev ts) eqn:E; [congruence|].
    now rewrite <- E, rev_involutive.
Qed.

(** A text that reads as one insertion reads as the sequence of that
    one statement. *)
Lemma parse_script_insert (q : Py.str) (stmt : DuckDB.insert_statement) :
  DuckDB.parse_insert q = Some stmt ->
  DuckDB.parse_script q = Some [DuckDB.InsertInto stmt].
Proof.
  unfold DuckDB.parse_insert, DuckDB.parse_script.
  destruct (DuckDB.lex DuckDB.LDefault q) as [ts|]; [|discriminate].
  intros H.
  assert (Hts : exists ts',
            DuckDB.insert_of_tokens ts' = Some stmt /\ ts' <> [] /\
            Forall no_semicolon ts' /\
            (ts = ts' \/ ts = ts' ++ [DuckDB.TSemi])).
  { destruct ts as [|[w1| | | | |] ts]; try discriminate.
    destruct ts as [|[w2| | | | |] ts]; try discriminate.
    destruct ts as [|[name| | | | |] ts]; try discriminate.
    destruct ts as [|[w3| | | | |] ts]; try discriminate.
    destruct ts as [|[ | | | | |] vs]; try discriminate.
    cbn [DuckDB.insert_of_tokens] in H.
    destruct (_ && _) eqn:Ek; [|discriminate].
    destruct (DuckDB.parse_values vs) as [vals|] eqn:Ev; [|discriminate].
    cbn [option_map] in H. injection H as <-.
    apply (parse_values_inv (List.length vs)) in Ev as [Hne Hvs];
      [|apply le_n].
    exists (DuckDB.TWord w1 :: DuckDB.TWord w2 :: DuckDB.TWord name ::
            DuckDB.TWord w3 :: DuckDB.TLParen :: value_tokens vals).
    split; [|split; [discriminate|split]].
    - cbn [DuckDB.insert_of_tokens].
      now rewrite Ek, (parse_value_tokens _ Hne).
    - repeat (constructor; [discriminate|]).
      apply value_tokens_no_semicolon.
    - destruct Hvs as [-> | ->]; [now left | now right]. }
  destruct Hts as (ts' & Hi & Hne & Hsemi & Hts).
  destruct (split_statements_one ts' Hne Hsemi) as [H1 H2].
  assert (E : DuckDB.split_statements [] ts = [ts'])
    by (destruct Hts as [-> | ->]; assumption).
  rewrite E. cbn [DuckDB.statements_of_tokens].
  unfold DuckDB.statement_of_tokens. now rewrite Hi.
Qed.

(** A text that is one insertion is executed as that insertion, and
    leaves the database as it was when it is refused. *)
Lemma sql_insert (q : Py.str) (stmt : DuckDB.insert_statement)
    (d : option DuckDB.Table) :
  DuckDB.parse_insert q = Some stmt ->
  DuckDB.sql q d
  = match d with
    | None => inl DuckDB.CatalogException
    | Some t =>
        match DuckDB.insert stmt t with
        | inl e => inl e
        | inr t' => inr (Some t')
        end
    end.
Proof.
  intros H. unfold DuckDB.sql, DuckDB.execute.
  rewrite (parse_script_insert _ _ H). cbn [DuckDB.run DuckDB.exec].
  destruct d as [t|]; [|reflexivity].
  now destruct (DuckDB.insert stmt t).
Qed.

Lemma after_error_insert (q : Py.str) (stmt : DuckDB.insert_statement)
    (d : option DuckDB.Table) (e : DuckDB.error) :
  DuckDB.parse_insert q = Some stmt ->
  DuckDB.sql q d = inl e -> DuckDB.after_error q d = d.
Proof.
  intros H. unfold DuckDB.sql, DuckDB.after_error, DuckDB.execute.
  rewrite (parse_script_insert _ _ H). cbn [DuckDB.run DuckDB.exec].
  destruct d as [t|]; [|reflexivity].
  now destruct (DuckDB.insert stmt t).
Qed.

(** The world in which [load_rows] raises when the engine refuses one
    insertion is the world before the row. *)
Lemma world_after_error (q : Py.str) (stmt : DuckDB.insert_statement)
    (w : World) (e : DuckDB.error) :
  DuckDB.parse_insert q = Some stmt ->
  DuckDB.sql q (db w) = inl e ->
  {| db := DuckDB.after_error q (db w); fs := fs w; trace := trace w |} = w.
Proof.
  intros H He. rewrite (after_error_insert _ _ _ _ H He). now destruct w.
Qed.

Lemma generate_insert_sql_splice
    (data_year : Z) (yymm : Py.str) (cc_code : Z)
    (cc_desc rcode_code rcode_desc ccaatt_code ccaatt_desc
     ccaattmm_code ccaattmm_desc : Py.str)
    (male female total house : Z) :
  generate_insert_sql data_year yymm cc_code cc_desc rcode_code rcode_desc
    ccaatt_code ccaatt_desc ccaattmm_code ccaattmm_desc
    male female total house
  = sql_header ++
    join_str sql_separator
      (map quoted
         (argument_texts data_year yymm cc_code cc_desc rcode_code
            rcode_desc ccaatt_code ccaatt_desc ccaattmm_code ccaattmm_desc
            male female total house)) ++
    sql_footer.
Proof.
  unfold generate_insert_sql, argument_texts, quoted.
  cbn [map join_str].
  norm_app.
  reflexivity.
Qed.

(* ================================================================== *)
(** * Execution of the insertion and the primary key *)
(* ================================================================== *)

Lemma value_eqb_eq (a b : DuckDB.value) :
  DuckDB.value_eqb a b = true <-> a = b.
Proof.
  destruct a as [x|x], b as [y|y]; simpl; try (split; congruence).
  - rewrite Z.eqb_eq. split; congruence.
  - unfold Py.eqb. destruct (list_eq_dec N.eq_dec x y); split; congruence.
Qed.

Lemma key_eqb_eq (a b : DuckDB.row) :
  DuckDB.key_eqb a b = true <-> a = b.
Proof.
  revert b. induction a as [|x a IH]; intros [|y b]; simpl;
    try (split; congruence).
  rewrite andb_true_iff, value_eqb_eq, IH. split.
  - intros [-> ->]. reflexivity.
  - intros [= -> ->]. now split.
Qed.

Lemma key_present (t : DuckDB.Table) (k : DuckDB.row) :
  existsb (fun r' => DuckDB.key_eqb (DuckDB.table_key t r') k)
    (DuckDB.tbl_rows t) = true
  <-> In k (map (DuckDB.table_key t) (DuckDB.tbl_rows t)).
Proof.
  rewrite existsb_exists, in_map_iff. split.
  - intros (r & Hin & He). apply key_eqb_eq in He. eauto.
  - intros (r & He & Hin). exists r. split; [assumption|].
    now apply key_eqb_eq.
Qed.

Lemma NoDup_snoc {A : Type} (l : list A) (x : A) :
  NoDup l -> ~ In x l -> NoDup (l ++ [x]).
Proof.
  induction 1 as [|y l Hy Hl IH]; simpl; intros Hx.
  - constructor; [easy | constructor].
  - constructor.
    + rewrite in_app_iff. simpl. intuition congruence.
    + apply IH. intuition.
Qed.

(** What a successful insertion does. *)
Lemma key_taken_declared (t : DuckDB.Table) (r : DuckDB.row) :
  DuckDB.tbl_primary_key t <> [] ->
  DuckDB.key_taken t r
  = existsb (fun r' => DuckDB.key_eqb (DuckDB.table_key t r')
                         (DuckDB.table_key t r))
      (DuckDB.tbl_rows t).
Proof.
  unfold DuckDB.key_taken. now destruct (DuckDB.tbl_primary_key t).
Qed.

Lemma schema_key_declared (t : DuckDB.Table) :
  same_schema t thai_population -> DuckDB.tbl_primary_key t <> [].
Proof. intros (_ & _ & ->). discriminate. Qed.

Lemma insert_inr (stmt : DuckDB.insert_statement) (t t' : DuckDB.Table) :
  DuckDB.tbl_primary_key t <> [] ->
  DuckDB.insert stmt t = inr t' ->
  exists r, t' = append_row t r /\
            ~ In (DuckDB.table_key t r)
                (map (DuckDB.table_key t) (DuckDB.tbl_rows t)).
Proof.
  intros Hk. unfold DuckDB.insert.
  destruct (negb _); [discriminate|].
  destruct (negb _); [discriminate|].
  destruct (DuckDB.cast_row _ _) as [r|]; [|discriminate].
  rewrite (key_taken_declared _ _ Hk).
  destruct (existsb _ _) eqn:E; [discriminate|].
  intros [= <-]. exists r. split; [reflexivity|].
  rewrite <- key_present, E. discriminate.
Qed.

Lemma insert_unique (stmt : DuckDB.insert_statement) (t t' : DuckDB.Table) :
  DuckDB.tbl_primary_key t <> [] ->
  unique_keys t -> DuckDB.insert stmt t = inr t' -> unique_keys t'.
Proof.
  intros Hk Hu H. apply (insert_inr _ _ _ Hk) in H as (r & -> & Hr).
  unfold unique_keys, append_row, DuckDB.table_key in *. simpl.
  rewrite map_app. simpl. now apply NoDup_snoc.
Qed.

Lemma insert_schema (stmt : DuckDB.insert_statement) (t t' : DuckDB.Table) :
  DuckDB.insert stmt t = inr t' ->
  DuckDB.tbl_name t' = DuckDB.tbl_name t /\
  DuckDB.tbl_columns t' = DuckDB.tbl_columns t /\
  DuckDB.tbl_primary_key t' = DuckDB.tbl_primary_key t.
Proof.
  unfold DuckDB.insert.
  destruct (negb _); [discriminate|].
  destruct (negb _); [discriminate|].
  destruct (DuckDB.cast_row _ _) as [r|]; [|discriminate].
  destruct (DuckDB.key_taken t r); [discriminate|].
  intros [= <-]. repeat split.
Qed.

(** The statement that [generate_insert_sql] returns for text
    arguments without an apostrophe is read back as the insertion of
    the fourteen argument texts. *)
Lemma parse_insert_arguments
    (data_year : Z) (yymm : Py.str) (cc_code : Z)
    (cc_desc rcode_code rcode_desc ccaatt_code ccaatt_desc
     ccaattmm_code ccaattmm_desc : Py.str)
    (male female total house : Z) :
  Forall (free_of DuckDB.quote)
    [yymm; cc_desc; rcode_code; rcode_desc; ccaatt_code; ccaatt_desc;
     ccaattmm_code; ccaattmm_desc] ->
  DuckDB.parse_insert
    (generate_insert_sql data_year yymm cc_code cc_desc rcode_code
       rcode_desc ccaatt_code ccaatt_desc ccaattmm_code ccaattmm_desc
       male female total house)
  = Some {| DuckDB.ins_table := Py.lit "THAI_POPULATION";
            DuckDB.ins_values :=
              argument_texts data_year yymm cc_code cc_desc rcode_code
                rcode_desc ccaatt_code ccaatt_desc ccaattmm_code
                ccaattmm_desc male female total house |}.
Proof.
  intros Hq. rewrite generate_insert_sql_splice. apply parse_insert_values.
  - discriminate.
  - assert (Hz : forall z, free_of DuckDB.quote (Py.str_of_int z)).
    { intros z. apply str_of_int_free;
        unfold DuckDB.quote, Py.minus_sign; [discriminate | lia]. }
    repeat match goal with
           | H : Forall _ (_ :: _) |- _ =>
               let a := fresh "Hs" in let b := fresh in
               inversion H as [|? ? a b]; subst; clear H
           end.
    unfold argument_texts. repeat (constructor; auto).
Qed.

Lemma cast_integer (z : Z) :
  int32 z -> DuckDB.cast DuckDB.INTEGER (Py.str_of_int z) = Some (DuckDB.VInt z).
Proof.
  intros H. unfold DuckDB.cast. rewrite integer_of_text_str_of_int.
  unfold DuckDB.in_int32, int32 in *.
  replace ((-2147483648 <=? z) && (z <=? 2147483647))%Z with true;
    [reflexivity|].
  symmetry. apply andb_true_iff. split; apply Z.leb_le; lia.
Qed.

Lemma cast_row_record
    (data_year : Z) (yymm : Py.str) (cc_code : Z)
    (cc_desc rcode_code rcode_desc ccaatt_code ccaatt_desc
     ccaattmm_code ccaattmm_desc : Py.str)
    (male female total house : Z) :
  Forall int32 [data_year; cc_code; male; female; total; house] ->
  DuckDB.cast_row (DuckDB.tbl_columns thai_population)
    (argument_texts data_year yymm cc_code cc_desc rcode_code rcode_desc
       ccaatt_code ccaatt_desc ccaattmm_code ccaattmm_desc
       male female total house)
  = Some (record_of data_year yymm cc_code cc_desc rcode_code rcode_desc
            ccaatt_code ccaatt_desc ccaattmm_code ccaattmm_desc
            male female total house).
Proof.
  intros H.
  repeat match goal with
         | H : Forall _ (_ :: _) |- _ =>
             let a := fresh "Hi" in let b := fresh in
             inversion H as [|? ? a b]; subst; clear H
         end.
  unfold argument_texts, record_of, thai_population.
  cbn [DuckDB.cast_row DuckDB.tbl_columns].
  rewrite !cast_integer by assumption. reflexivity.
Qed.

(** Executing the generated statement on a table of the script's
    schema: a row with the same key makes the engine refuse it, and
    otherwise the record of the arguments is appended. *)
Lemma sql_generated
    (t : DuckDB.Table)
    (data_year : Z) (yymm : Py.str) (cc_code : Z)
    (cc_desc rcode_code rcode_desc ccaatt_code ccaatt_desc
     ccaattmm_code ccaattmm_desc : Py.str)
    (male female total house : Z) :
  same_schema t thai_population ->
  Forall (free_of DuckDB.quote)
    [yymm; cc_desc; rcode_code; rcode_desc; ccaatt_code; ccaatt_desc;
     ccaattmm_code; ccaattmm_desc] ->
  Forall int32 [data_year; cc_code; male; female; total; house] ->
  DuckDB.sql
    (generate_insert_sql data_year yymm cc_code cc_desc rcode_code
       rcode_desc ccaatt_code ccaatt_desc ccaattmm_code ccaattmm_desc
       male female total house) (Some t)
  = if existsb
         (fun r' => DuckDB.key_eqb (DuckDB.table_key t r')
                      [DuckDB.VInt data_year; DuckDB.VInt cc_code])
         (DuckDB.tbl_rows t)
    then inl DuckDB.ConstraintException
    else inr (Some (append_row t
           (record_of data_year yymm cc_code cc_desc rcode_code rcode_desc
              ccaatt_code ccaatt_desc ccaattmm_code ccaattmm_desc
              male female total house))).
Proof.
  intros (Hn & Hc & Hk) Hq Hi. destruct t as [name cols pk rows].
  simpl in Hn, Hc, Hk. subst name cols pk.
  rewrite (sql_insert _ _ _
             (parse_insert_arguments data_year yymm cc_code cc_desc
                rcode_code rcode_desc ccaatt_code ccaatt_desc ccaattmm_code
                ccaattmm_desc male female total house Hq)).
  unfold DuckDB.insert.
  cbn [DuckDB.ins_table DuckDB.ins_values DuckDB.tbl_name DuckDB.tbl_columns
       DuckDB.tbl_rows DuckDB.tbl_primary_key].
  change (negb (Py.eqb (Py.lit "THAI_POPULATION")
                  (map DuckDB.upper (Py.lit "thai_population"))))
    with false.
  change (negb (List.length (argument_texts data_year yymm cc_code cc_desc
                  rcode_code rcode_desc ccaatt_code ccaatt_desc
                  ccaattmm_code ccaattmm_desc male female total house)
                =? List.length (DuckDB.tbl_columns thai_population))%nat)
    with false.
  cbn match. rewrite (cast_row_record _ _ _ _ _ _ _ _ _ _ _ _ _ _ Hi).
  rewrite key_taken_declared by discriminate.
  cbn [DuckDB.tbl_rows].
  match goal with
  | |- context [DuckDB.table_key ?T
                  (record_of data_year yymm cc_code cc_desc rcode_code
                     rcode_desc ccaatt_code ccaatt_desc ccaattmm_code
                     ccaattmm_desc male female total house)] =>
      change (DuckDB.table_key T
                (record_of data_year yymm cc_code cc_desc rcode_code
                   rcode_desc ccaatt_code ccaatt_desc ccaattmm_code
                   ccaattmm_desc male female total house))
        with [DuckDB.VInt data_year; DuckDB.VInt cc_code]
  end.
  now destruct (existsb _ rows).
Qed.

Lemma no_key_absent (t : DuckDB.Table) (data_year cc_code : Z) :
  ~ has_key t data_year cc_code ->
  existsb
    (fun r' => DuckDB.key_eqb (DuckDB.table_key t r')
                 [DuckDB.VInt data_year; DuckDB.VInt cc_code])
    (DuckDB.tbl_rows t) = false.
Proof.
  intros H. apply not_true_is_false. intros E. apply H.
  apply key_present, in_map_iff in E as (r & Hk & Hin). now exists r.
Qed.

Lemma key_there (t : DuckDB.Table) (data_year cc_code : Z) :
  has_key t data_year cc_code ->
  existsb
    (fun r' => DuckDB.key_eqb (DuckDB.table_key t r')
                 [DuckDB.VInt data_year; DuckDB.VInt cc_code])
    (DuckDB.tbl_rows t) = true.
Proof.
  intros (r & Hin & Hk). apply key_present, in_map_iff. now exists r.
Qed.

(** C10.  [generate_insert_sql] escapes nothing: the text is the
    fourteen arguments, each between two single quotes, joined by a
    comma and a line break.  When no string argument holds an
    apostrophe the text reads back as the insertion of exactly these
    fourteen values, and the engine appends their record; with an
    apostrophe in a string argument the text can fail to be an
    insertion at all. *)
Theorem insert_sql_unescaped :
  (forall (data_year : Z) (yymm : Py.str) (cc_code : Z)
          (cc_desc rcode_code rcode_desc ccaatt_code ccaatt_desc
           ccaattmm_code ccaattmm_desc : Py.str)
          (male female total house : Z),
     generate_insert_sql data_year yymm cc_code cc_desc rcode_code
       rcode_desc ccaatt_code ccaatt_desc ccaattmm_code ccaattmm_desc
       male female total house
     = sql_header ++
       join_str sql_separator
         (map quoted
            (argument_texts data_year yymm cc_code cc_desc rcode_code
               rcode_desc ccaatt_code ccaatt_desc ccaattmm_code
               ccaattmm_desc male female total house)) ++
       sql_footer) /\
  (forall (data_year : Z) (yymm : Py.str) (cc_code : Z)
          (cc_desc rcode_code rcode_desc ccaatt_code ccaatt_desc
           ccaattmm_code ccaattmm_desc : Py.str)
          (male female total house : Z),
     Forall (free_of DuckDB.quote)
       [yymm; cc_desc; rcode_code; rcode_desc; ccaatt_code; ccaatt_desc;
        ccaattmm_code; ccaattmm_desc] ->
     DuckDB.parse_insert
       (generate_insert_sql data_year yymm cc_code cc_desc rcode_code
          rcode_desc ccaatt_code ccaatt_desc ccaattmm_code ccaattmm_desc
          male female total house)
     = Some {| DuckDB.ins_table := Py.lit "THAI_POPULATION";
               DuckDB.ins_values :=
                 argument_texts data_year yymm cc_code cc_desc rcode_code
                   rcode_desc ccaatt_code ccaatt_desc ccaattmm_code
                   ccaattmm_desc male female total house |} /\
     (Forall int32 [data_year; cc_code; male; female; total; house] ->
      forall t, same_schema t thai_population ->
                ~ has_key t data_year cc_code ->
        DuckDB.sql
          (generate_insert_sql data_year yymm cc_code cc_desc rcode_code
             rcode_desc ccaatt_code ccaatt_desc ccaattmm_code
             ccaattmm_desc male female total house) (Some t)
        = inr (Some (append_row t
                 (record_of data_year yymm cc_code cc_desc rcode_code
                    rcode_desc ccaatt_code ccaatt_desc ccaattmm_code
                    ccaattmm_desc male female total house))))) /\
  (exists cc_desc : Py.str,
     In DuckDB.quote cc_desc /\
     DuckDB.parse_insert
       (generate_insert_sql 1993 (Py.lit "3612") 1 cc_desc (Py.lit "1")
          (Py.lit "Central") (Py.lit "1001") (Py.lit "Phra Nakhon")
          (Py.lit "100101") (Py.lit "Phra Borom") 1234 2345 3579 1000)
     = None /\
     DuckDB.sql
       (generate_insert_sql 1993 (Py.lit "3612") 1 cc_desc (Py.lit "1")
          (Py.lit "Central") (Py.lit "1001") (Py.lit "Phra Nakhon")
          (Py.lit "100101") (Py.lit "Phra Borom") 1234 2345 3579 1000)
       (Some thai_population)
     = inl DuckDB.ParserException).
Proof.
  split; [exact generate_insert_sql_splice|]. split.
  - intros data_year yymm cc_code cc_desc rcode_code rcode_desc ccaatt_code
      ccaatt_desc ccaattmm_code ccaattmm_desc male female total house Hq.
    split.
    + rewrite generate_insert_sql_splice. apply parse_insert_values.
      * discriminate.
      * assert (Hz : forall z, free_of DuckDB.quote (Py.str_of_int z)).
        { intros z. apply str_of_int_free;
            unfold DuckDB.quote, Py.minus_sign; [discriminate | lia]. }
        repeat match goal with
               | H : Forall _ (_ :: _) |- _ =>
                   let a := fresh "Hs" in let b := fresh in
                   inversion H as [|? ? a b]; subst; clear H
               end.
        unfold argument_texts. repeat (constructor; auto).
    + intros Hi t Hs Hk.
      rewrite (sql_generated t _ _ _ _ _ _ _ _ _ _ _ _ _ _ Hs Hq Hi).
      now rewrite (no_key_absent _ _ _ Hk).
  - exists (Py.lit "O'Brien"). split; [|split].
    + vm_compute. tauto.
    + vm_compute. reflexivity.
    + vm_compute. reflexivity.
Qed.

Lemma insert_sql_unescaped_witness :
  DuckDB.sql
    (generate_insert_sql 1993 (Py.lit "3612") 1 (Py.lit "Bangkok")
       (Py.lit "1") (Py.lit "Central") (Py.lit "1001") (Py.lit "Phra Nakhon")
       (Py.lit "100101") (Py.lit "Phra Borom") 1234 2345 3579 1000)
    (Some thai_population)
  = inr (Some sample_table).
Proof.
  refine (proj2 (proj1 (proj2 insert_sql_unescaped)
                   1993%Z (Py.lit "3612") 1%Z (Py.lit "Bangkok")
                   (Py.lit "1") (Py.lit "Central") (Py.lit "1001")
                   (Py.lit "Phra Nakhon") (Py.lit "100101")
                   (Py.lit "Phra Borom") 1234%Z 2345%Z 3579%Z 1000%Z _)
            _ thai_population _ _).
  - repeat constructor; intros H; vm_compute in H; intuition discriminate.
  - repeat constructor; unfold int32; lia.
  - repeat split.
  - intros (r & Hin & _). exact Hin.
Defined.


(* ================================================================== *)
(** * The Fetcher *)
(* ================================================================== *)

(** The claim C2 as the specification words it fails: with the network
    down, [requests.get] raises and nothing in [get_data_stat_by_year]
    catches it. *)
Lemma fetcher_propagates_exception :
  get_data_stat_by_year offline 1993
  = inl (RequestException (Py.lit "ConnectionError")) /\
  ~ (forall requests_get year,
       exists r, get_data_stat_by_year requests_get year = inr r).
Proof.
  split; [reflexivity|]. intros H.
  destruct (H offline 1993%Z) as [r Hr]. discriminate Hr.
Qed.

(** C2 (amended).  When [requests.get] answers with a response, the
    Fetcher returns a result: the success variant with the body when
    the response is [ok], the failure variant with the body otherwise,
    where a response is not [ok] exactly for the status codes 400 to
    599.  When [requests.get] raises, the exception leaves the
    Fetcher. *)
Theorem fetcher_result (requests_get : Py.str -> Exception + Response)
    (year : Z) :
  (forall response,
     requests_get (stat_url (convert_to_thai_year year)) = inr response ->
     (ok response = true /\
      get_data_stat_by_year requests_get year = inr (Ok (text response))) \/
     (ok response = false /\
      get_data_stat_by_year requests_get year = inr (Err (text response)))) /\
  (forall response,
     ok response = false <-> (400 <= status_code response < 600)%Z) /\
  (forall e,
     requests_get (stat_url (convert_to_thai_year year)) = inl e ->
     get_data_stat_by_year requests_get year = inl e).
Proof.
  unfold get_data_stat_by_year. split; [|split].
  - intros response H. rewrite H. cbn [bind].
    destruct (ok response); [left | right]; now split.
  - intros response. unfold ok. rewrite negb_false_iff, andb_true_iff.
    rewrite Z.leb_le, Z.ltb_lt. tauto.
  - intros e H. now rewrite H.
Qed.

Lemma fetcher_result_witness :
  get_data_stat_by_year (serve_until_2000 sample_body) 2000
  = inr (Err (Py.lit "Not Found")) /\
  get_data_stat_by_year (serve_until_2000 sample_body) 1993
  = inr (Ok sample_body) /\
  get_data_stat_by_year offline 1993
  = inl (RequestException (Py.lit "ConnectionError")).
Proof.
  split; [|split].
  - destruct (proj1 (fetcher_result (serve_until_2000 sample_body) 2000)
                {| status_code := 404; text := Py.lit "Not Found" |}
                eq_refl) as [[H _] | [_ H]]; [discriminate H | exact H].
  - destruct (proj1 (fetcher_result (serve_until_2000 sample_body) 1993)
                {| status_code := 200; text := sample_body |}
                eq_refl) as [[_ H] | [H _]]; [exact H | discriminate H].
  - exact (proj2 (proj2 (fetcher_result offline 1993)) _ eq_refl).
Defined.

(* ================================================================== *)
(** * Malformed lines *)
(* ================================================================== *)

Lemma load_rows_app (year : Z) (pre rest : list Py.str) (w : World) :
  load_rows year (pre ++ rest) w
  = match load_rows year pre w with
    | Normal w' => load_rows year rest w'
    | o => o
    end.
Proof.
  revert w. induction pre as [|row pre IH]; intros w; simpl; [reflexivity|].
  destruct (row_statement year row) as [e|q]; [reflexivity|].
  destruct (DuckDB.sql q (db w)) as [e|d]; [reflexivity|]. apply IH.
Qed.

Lemma load_rows_not_diverged (year : Z) (rows : list Py.str) (w w' : World) :
  load_rows year rows w <> Diverged w'.
Proof.
  revert w. induction rows as [|row rows IH]; intros w; simpl; [discriminate|].
  destruct (row_statement year row) as [e|q]; [discriminate|].
  destruct (DuckDB.sql q (db w)) as [e|d]; [discriminate|]. apply IH.
Qed.

Lemma row_statement_fields (year : Z) (row : Py.str)
    (yymm cc_code cc_desc rcode_code rcode_desc ccaatt_code ccaatt_desc
     ccaattmm_code ccaattmm_desc male_str female_str total_str house_str
     : Py.str) :
  fields_of row
  = [yymm; cc_code; cc_desc; rcode_code; rcode_desc; ccaatt_code;
     ccaatt_desc; ccaattmm_code; ccaattmm_desc;
     male_str; female_str; total_str; house_str] ->
  row_statement year row
  = (cc <- string_to_int cc_code ;;
     male <- string_to_int male_str ;;
     female <- string_to_int female_str ;;
     total <- string_to_int total_str ;;
     house <- string_to_int house_str ;;
     inr (generate_insert_sql year yymm cc cc_desc rcode_code rcode_desc
            ccaatt_code ccaatt_desc ccaattmm_code ccaattmm_desc
            male female total house)).
Proof.
  unfold fields_of, row_statement. intros ->. reflexivity.
Qed.

Lemma string_to_int_non_numeric (v : Py.str) :
  non_numeric v -> string_to_int v = inl (ValueError_int (Py.remove comma v)).
Proof. unfold non_numeric, string_to_int. now intros ->. Qed.

Lemma row_statement_malformed (year : Z) (row : Py.str) :
  malformed row -> exists e, row_statement year row = inl e.
Proof.
  unfold malformed, numeric_fields. intros H.
  destruct (fields_of row) as [|f1 l] eqn:E.
  { unfold row_statement. unfold fields_of in E. rewrite E. eauto. }
  revert E H.
  do 12 (destruct l as [|? l];
         [intros E _; unfold row_statement; unfold fields_of in E;
          rewrite E; eauto|]).
  destruct l as [|? l].
  - intros E [H|H]; [now contradiction H|].
    rewrite (row_statement_fields _ _ _ _ _ _ _ _ _ _ _ _ _ _ _ E).
    cbn [map nth] in H.
    repeat match goal with
           | |- context [string_to_int ?v] =>
               let Hv := fresh in
               destruct (string_to_int v) eqn:Hv;
               [cbn [bind]; eauto|];
               cbn [bind]
           end.
    exfalso.
    repeat match goal with
           | H : Exists _ (_ :: _) |- _ =>
               let a := fresh in
               inversion H as [? ? a|? ? a]; subst; clear H;
               [apply string_to_int_non_numeric in a; congruence|]
           | H : Exists _ [] |- _ => inversion H
           end.
  - intros E _. unfold row_statement. unfold fields_of in E. rewrite E. eauto.
Qed.

(** C3.  A line is stripped of its pipes at both ends and split at
    the pipes into the thirteen fields, taken in the order of the data
    model; a line that does not give thirteen fields, or one of whose
    numeric fields is no integer once the commas are removed, raises:
    the row is not skipped, no later row of the body is loaded, and the
    exception ends the run. *)
Theorem malformed_line_aborts :
  (forall (year : Z) (row : Py.str)
          (yymm cc_code cc_desc rcode_code rcode_desc ccaatt_code
           ccaatt_desc ccaattmm_code ccaattmm_desc
           male_str female_str total_str house_str : Py.str)
          (cc male female total house : Z),
     Py.split pipe (Py.strip [pipe] row)
     = [yymm; cc_code; cc_desc; rcode_code; rcode_desc; ccaatt_code;
        ccaatt_desc; ccaattmm_code; ccaattmm_desc;
        male_str; female_str; total_str; house_str] ->
     string_to_int cc_code = inr cc ->
     string_to_int male_str = inr male ->
     string_to_int female_str = inr female ->
     string_to_int total_str = inr total ->
     string_to_int house_str = inr house ->
     row_statement year row
     = inr (generate_insert_sql year yymm cc cc_desc rcode_code rcode_desc
              ccaatt_code ccaatt_desc ccaattmm_code ccaattmm_desc
              male female total house)) /\
  (forall requests_get (fuel : nat) (year : Z) (w : World)
          (body : Py.str) (pre : list Py.str) (bad : Py.str)
          (post : list Py.str),
     get_data_stat_by_year requests_get year = inr (Ok body) ->
     Py.splitlines (clean_text body) = pre ++ bad :: post ->
     malformed bad ->
     exists e w',
       driver_loop requests_get (S fuel) year w = Raised e w' /\
       ((load_rows year pre (log (EvFetch year) w) = Normal w' /\
         row_statement year bad = inl e) \/
        load_rows year pre (log (EvFetch year) w) = Raised e w')) /\
  (forall requests_get duckdb_copy (fuel : nat) (f : FS.t)
          (e : Exception) (w : World),
     driver_loop requests_get fuel 1993 (initial_world f) = Raised e w ->
     main requests_get duckdb_copy fuel f = Raised e w).
Proof.
  split; [|split].
  - intros year row yymm cc_code cc_desc rcode_code rcode_desc ccaatt_code
      ccaatt_desc ccaattmm_code ccaattmm_desc male_str female_str total_str
      house_str cc male female total house E H1 H2 H3 H4 H5.
    rewrite (row_statement_fields _ _ _ _ _ _ _ _ _ _ _ _ _ _ _ E).
    now rewrite H1, H2, H3, H4, H5.
  - intros rg fuel year w body pre bad post Hget Hlines Hbad.
    destruct (row_statement_malformed year bad Hbad) as [e He].
    cbn [driver_loop]. rewrite Hget, Hlines, load_rows_app.
    destruct (load_rows year pre (log (EvFetch year) w)) as [w'|e' w'|w'] eqn:E.
    + exists e, w'. cbn [load_rows]. rewrite He. split; [reflexivity|]. now left.
    + exists e', w'. split; [reflexivity|]. now right.
    + now apply load_rows_not_diverged in E.
  - intros rg cp fuel f e w H. unfold main.
    change {| db := create_duck_db_table None; fs := f;
              trace := [EvCreateTable] |} with (initial_world f).
    now rewrite H.
Qed.

Lemma malformed_line_aborts_witness :
  exists e w',
    driver_loop (serve_until_2000 two_bad_lines) 1 1993 (initial_world [])
    = Raised e w' /\
    ((load_rows 1993 [sample_line] (log (EvFetch 1993) (initial_world []))
      = Normal w' /\
      row_statement 1993 (Py.lit "x") = inl e) \/
     load_rows 1993 [sample_line] (log (EvFetch 1993) (initial_world []))
     = Raised e w').
Proof.
  refine (proj1 (proj2 malformed_line_aborts)
            (serve_until_2000 two_bad_lines) 0%nat 1993%Z (initial_world [])
            two_bad_lines [sample_line] (Py.lit "x") [sample_line] _ _ _).
  - reflexivity.
  - reflexivity.
  - left. vm_compute. discriminate.
Defined.

(* ================================================================== *)
(** * The Driver *)
(* ================================================================== *)

Lemma fetched_app (a b : list Event) : fetched (a ++ b) = fetched a ++ fetched b.
Proof. apply flat_map_app. Qed.

Lemma years_done_app (a b : list Event) :
  years_done (a ++ b) = years_done a ++ years_done b.
Proof. apply flat_map_app. Qed.

Lemma exports_app (a b : list Event) :
  exports (a ++ b) = (exports a + exports b)%nat.
Proof. unfold exports. now rewrite filter_app, length_app. Qed.










Lemma load_rows_trace (year : Z) (rows : list Py.str) (w w' : World) :
  load_rows year rows w = Normal w' ->
  trace w' = trace w ++ repeat (EvInsert year) (List.length rows) /\
  fs w' = fs w.
Proof.
  revert w. induction rows as [|row rows IH]; intros w; simpl.
  - intros [= <-]. now rewrite app_nil_r.
  - destruct (row_statement year row) as [e|q]; [discriminate|].
    destruct (DuckDB.sql q (db w)) as [e|d]; [discriminate|].
    intros H. apply IH in H as [H1 H2]. simpl in H1, H2.
    rewrite H1, <- app_assoc. now split.
Qed.






(* ================================================================== *)
(** * The Exporter *)
(* ================================================================== *)

Lemma path_eqb_eq (p q : FS.path) : FS.path_eqb p q = true <-> p = q.
Proof.
  unfold FS.path_eqb.
  destruct (list_eq_dec (list_eq_dec N.eq_dec) p q); split; congruence.
Qed.

(** The directory step of the Exporter touches one path only. *)
Lemma mkdir_hidden_datasets (f f' : FS.t) (p : FS.path) :
  FS.mkdir_parents_exist_ok (FS.parts (Py.lit ".datasets")) f = inr f' ->
  p <> [Py.lit ".datasets"] ->
  FS.lookup p f' = FS.lookup p f.
Proof.
  change (FS.parts (Py.lit ".datasets")) with [Py.lit ".datasets"].
  unfold FS.mkdir_parents_exist_ok. cbn [FS.mkdir_from app].
  destruct (FS.lookup [Py.lit ".datasets"] f) as [[|c]|].
  - now intros [= <-].
  - discriminate.
  - intros [= <-] Hp. cbn [FS.lookup].
    destruct (FS.path_eqb p [Py.lit ".datasets"]) eqn:E; [|reflexivity].
    now apply path_eqb_eq in E.
Qed.

(** C7, at the filesystem in which [./datasets] does not exist.  The
    directory that [write_into_hive_partition] creates is the hidden
    directory [.datasets], not the tree [./datasets/thai_population]
    that the [COPY] statement writes to: the engine is handed a
    filesystem in which the output tree is still absent, and with an
    engine that creates no directory of its own the tree is absent
    after the whole run. *)
Theorem exporter_makes_hidden_directory :
  FS.parts (Py.lit ".datasets") = [Py.lit ".datasets"] /\
  FS.parts (DuckDB.copy_target copy_thai_population)
  = [Py.lit "datasets"; Py.lit "thai_population"] /\
  (forall duckdb_copy d,
     write_into_hive_partition duckdb_copy d []
     = match duckdb_copy copy_thai_population d
               [([Py.lit ".datasets"], FS.Dir)] with
       | inl e => inl (DuckDBException e)
       | inr f => inr f
       end) /\
  FS.is_dir [Py.lit "datasets"] [([Py.lit ".datasets"], FS.Dir)] = false /\
  FS.is_dir [Py.lit "datasets"; Py.lit "thai_population"]
    [([Py.lit ".datasets"], FS.Dir)] = false /\
  (forall (f f' : FS.t) (p : FS.path),
     FS.mkdir_parents_exist_ok (FS.parts (Py.lit ".datasets")) f = inr f' ->
     p <> [Py.lit ".datasets"] ->
     FS.lookup p f' = FS.lookup p f) /\
  fs (world_of (main (serve_until_2000 sample_body) copy_nothing 8 []))
  = [([Py.lit ".datasets"], FS.Dir)].
Proof.
  repeat split; try reflexivity. exact mkdir_hidden_datasets.
Qed.

Lemma exporter_makes_hidden_directory_witness :
  FS.lookup [Py.lit "datasets"; Py.lit "thai_population"]
    [([Py.lit ".datasets"], FS.Dir)]
  = FS.lookup [Py.lit "datasets"; Py.lit "thai_population"] [].
Proof.
  refine (proj1 (proj2 (proj2 (proj2 (proj2 (proj2
            exporter_makes_hidden_directory)))))
            [] [([Py.lit ".datasets"], FS.Dir)]
            [Py.lit "datasets"; Py.lit "thai_population"] _ _).
  - reflexivity.
  - discriminate.
Defined.

(* ================================================================== *)
(** * Further properties of the text functions *)
(* ================================================================== *)

Lemma lstrip_split (chars s : Py.str) :
  exists p, s = p ++ Py.lstrip chars s /\
            Forall (fun c => Py.char_in chars c = true) p.
Proof.
  induction s as [|x r (p & IH & Hp)]; simpl.
  - exists []. now split.
  - destruct (Py.char_in chars x) eqn:E.
    + exists (x :: p). simpl. rewrite <- IH. split; [reflexivity|].
      now constructor.
    + exists []. now split.
Qed.

Lemma rstrip_split (chars s : Py.str) :
  exists q, s = Py.rstrip chars s ++ q /\
            Forall (fun c => Py.char_in chars c = true) q.
Proof.
  unfold Py.rstrip. destruct (lstrip_split chars (rev s)) as (p & Hp & Hall).
  exists (rev p). split.
  - rewrite <- rev_app_distr, <- Hp. now rewrite rev_involutive.
  - now apply Forall_rev.
Qed.

Lemma in_bom_eq (s : Py.str) :
  Forall (fun c => Py.char_in [bom] c = true) s -> Forall (eq bom) s.
Proof.
  apply Forall_impl. intros c H. rewrite char_in_single in H.
  apply N.eqb_eq in H. now subst.
Qed.

(** X1.  [clean_text] removes byte-order marks and nothing else, and
    only at the two ends: the text is the cleaned text between two
    runs of marks; the cleaned text neither starts nor ends with a
    mark; cleaning twice is cleaning once. *)
Theorem clean_text_strips_marks_only (text : Py.str) :
  (exists p q, text = p ++ clean_text text ++ q /\
               Forall (eq bom) p /\ Forall (eq bom) q) /\
  ~ starts_with bom (clean_text text) /\
  ~ ends_with bom (clean_text text) /\
  clean_text (clean_text text) = clean_text text.
Proof.
  assert (Hs : ~ starts_with bom (clean_text text)).
  { intros H. apply strip_head in H. now apply bom_not_in_bom in H. }
  assert (He : ~ ends_with bom (clean_text text)).
  { intros H. apply strip_last in H. now apply bom_not_in_bom in H. }
  split; [|split; [exact Hs|split; [exact He|]]].
  - unfold clean_text, Py.strip.
    destruct (lstrip_split [bom] text) as (p & Hp & Hpa).
    destruct (rstrip_split [bom] (Py.lstrip [bom] text)) as (q & Hq & Hqa).
    exists p, q. split; [|split; now apply in_bom_eq].
    now rewrite <- Hq.
  - unfold clean_text at 1. unfold Py.strip.
    rewrite lstrip_id.
    + apply rstrip_id. intros c Hc. apply bom_not_in_bom. intros ->.
      now apply He.
    + intros c Hc. apply bom_not_in_bom. intros ->. now apply Hs.
Qed.

(** ** Splitting at the pipes *)

Lemma split_nonempty (sep : Py.char) (s : Py.str) : Py.split sep s <> [].
Proof.
  destruct s as [|c r]; simpl; [discriminate|].
  destruct (c =? sep)%N; [discriminate|].
  destruct (Py.split sep r); discriminate.
Qed.

Lemma join_split (sep : Py.char) (s : Py.str) :
  join sep (Py.split sep s) = s.
Proof.
  induction s as [|c r IH]; [reflexivity|]. simpl.
  destruct (N.eqb_spec c sep) as [->|Hc].
  - pose proof (split_nonempty sep r) as Hne.
    destruct (Py.split sep r) as [|f fs] eqn:E; [congruence|].
    change (join sep ([] :: f :: fs)) with (sep :: join sep (f :: fs)).
    now rewrite IH.
  - pose proof (split_nonempty sep r) as Hne.
    destruct (Py.split sep r) as [|f fs] eqn:E; [congruence|].
    rewrite <- IH. destruct fs; reflexivity.
Qed.

Lemma split_fields_free (sep : Py.char) (s : Py.str) :
  Forall (free_of sep) (Py.split sep s).
Proof.
  induction s as [|c r IH]; simpl.
  - constructor; [intros []|constructor].
  - destruct (N.eqb_spec c sep) as [->|Hc].
    + constructor; [intros []|exact IH].
    + destruct (Py.split sep r) as [|f fs]; [repeat constructor|].
      * intros [H|[]]. congruence.
      * inversion IH as [|? ? Hf Hfs]; subst. constructor; [|assumption].
        intros [H|H]; [congruence | now apply Hf].
Qed.

Lemma split_length (s : Py.str) :
  List.length (Py.split pipe s) = S (count_pipes s).
Proof.
  unfold count_pipes. induction s as [|c r IH]; [reflexivity|]. simpl.
  destruct (N.eqb_spec c pipe) as [->|Hc].
  - simpl. rewrite IH. now destruct (N.eq_dec pipe pipe).
  - destruct (N.eq_dec c pipe) as [|_]; [contradiction|].
    rewrite <- IH. now destruct (Py.split pipe r).
Qed.

(** X2.  [extract_row] and joining with pipes are inverse to each
    other: joining the fields of any row gives the row back, every
    field is free of pipes, there is one field more than the row has
    pipes, and the fields of a join of pipe-free fields are these
    fields. *)
Theorem extract_row_join :
  (forall row : Py.str,
     join pipe (extract_row row) = row /\
     Forall (free_of pipe) (extract_row row) /\
     List.length (extract_row row) = S (count_pipes row)) /\
  (forall fields : list Py.str,
     fields <> [] -> Forall (free_of pipe) fields ->
     extract_row (join pipe fields) = fields).
Proof.
  split.
  - intros row. unfold extract_row. split; [apply join_split|].
    split; [apply split_fields_free | apply split_length].
  - intros fields Hne Hall. now apply split_join.
Qed.

Lemma extract_row_join_witness :
  extract_row (join pipe sample_fields) = sample_fields.
Proof.
  apply (proj2 extract_row_join sample_fields).
  - discriminate.
  - repeat constructor; intros H; vm_compute in H; intuition discriminate.
Defined.

(** ** Cutting the body into lines *)

Lemma forallb_rev_true {A : Type} (f : A -> bool) (l : list A) :
  forallb f l = true -> forallb f (rev l) = true.
Proof.
  rewrite !forallb_forall. intros H x Hx. apply H. now apply in_rev.
Qed.

Lemma splitlines_from_nil (cur : Py.str) :
  List.concat (Py.splitlines_from cur []) = rev cur ++ [] /\
  (forallb not_linebreak cur = true ->
   Forall (fun l => forallb not_linebreak l = true)
     (Py.splitlines_from cur [])).
Proof.
  destruct cur as [|a cur]; [now split|].
  cbn [Py.splitlines_from List.concat]. split; [reflexivity|].
  intros H. constructor; [now apply forallb_rev_true | constructor].
Qed.

Lemma splitlines_from_concat (n : nat) :
  forall (s cur : Py.str), (List.length s <= n)%nat ->
    List.concat (Py.splitlines_from cur s)
    = rev cur ++ filter not_linebreak s /\
    (forallb not_linebreak cur = true ->
     Forall (fun l => forallb not_linebreak l = true)
       (Py.splitlines_from cur s)).
Proof.
  induction n as [|n IH]; intros s cur Hlen.
  - destruct s; [|simpl in Hlen; lia]. apply splitlines_from_nil.
  - destruct s as [|c r]; [apply splitlines_from_nil|].
    simpl in Hlen. cbn [Py.splitlines_from filter]. unfold not_linebreak at 1.
    destruct (Py.is_linebreak c) eqn:E; cbn [negb].
    + destruct r as [|c' r'].
      { cbn [Py.splitlines_from List.concat filter]. split; [reflexivity|].
        intros H. constructor; [now apply forallb_rev_true | constructor]. }
      destruct ((c =? 13) && (c' =? 10))%N eqn:Ecr.
      * apply andb_prop in Ecr as [_ Ec']. apply N.eqb_eq in Ec'. subst c'.
        simpl in Hlen.
        destruct (IH r' [] ltac:(lia)) as [H1 H2].
        cbn [List.concat filter]. change (not_linebreak 10%N) with false.
        cbn iota. rewrite H1. split; [reflexivity|].
        intros H. constructor; [now apply forallb_rev_true | now apply H2].
      * destruct (IH (c' :: r') [] ltac:(simpl in *; lia)) as [H1 H2].
        cbn [List.concat]. rewrite H1. split; [reflexivity|].
        intros H. constructor; [now apply forallb_rev_true | now apply H2].
    + destruct (IH r (c :: cur) ltac:(lia)) as [H1 H2].
      rewrite H1. cbn [rev]. rewrite <- app_assoc. split; [reflexivity|].
      intros H. apply H2. cbn [forallb]. unfold not_linebreak at 1.
      now rewrite E, H.
Qed.

(** X3.  The rows that the loop reads from a body are the body cut at
    its line boundaries: no row contains a line-boundary character,
    and put end to end the rows are the body without these
    characters, so that no other character is lost or reordered. *)
Theorem splitlines_keeps_text (s : Py.str) :
  List.concat (Py.splitlines s) = filter not_linebreak s /\
  Forall (fun l => forallb not_linebreak l = true) (Py.splitlines s).
Proof.
  destruct (splitlines_from_concat (List.length s) s [] (le_n _)) as [H1 H2].
  split; [exact H1 | now apply H2].
Qed.

(** ** Which lines parse *)

Lemma row_statement_unpack (year : Z) (row : Py.str) :
  List.length (fields_of row) <> 13%nat ->
  row_statement year row
  = inl (if (List.length (fields_of row) <? 13)%nat
         then ValueError_unpack (List.length (fields_of row))
         else ValueError_too_many).
Proof.
  unfold row_statement, fields_of.
  destruct (extract_row (Py.strip [pipe] row)) as [|f1 l]; [reflexivity|].
  do 12 (destruct l as [|? l]; [reflexivity|]).
  destruct l as [|? l]; [|reflexivity].
  intros H. now contradiction H.
Qed.

Lemma row_statement_not_enough (year : Z) (row : Py.str) :
  (List.length (fields_of row) < 13)%nat ->
  row_statement year row
  = inl (ValueError_unpack (List.length (fields_of row))).
Proof.
  intros H. rewrite row_statement_unpack by lia.
  apply Nat.ltb_lt in H. now rewrite H.
Qed.

Lemma row_statement_too_many (year : Z) (row : Py.str) :
  (13 < List.length (fields_of row))%nat ->
  row_statement year row = inl ValueError_too_many.
Proof.
  intros H. rewrite row_statement_unpack by lia.
  assert (E : (List.length (fields_of row) <? 13)%nat = false)
    by (apply Nat.ltb_ge; lia).
  now rewrite E.
Qed.

Lemma row_statement_inr (year : Z) (row q : Py.str) :
  row_statement year row = inr q ->
  exists yymm cc_code cc_desc rcode_code rcode_desc ccaatt_code ccaatt_desc
         ccaattmm_code ccaattmm_desc male_str female_str total_str house_str
         cc male female total house,
    fields_of row
    = [yymm; cc_code; cc_desc; rcode_code; rcode_desc; ccaatt_code;
       ccaatt_desc; ccaattmm_code; ccaattmm_desc;
       male_str; female_str; total_str; house_str] /\
    string_to_int cc_code = inr cc /\
    string_to_int male_str = inr male /\
    string_to_int female_str = inr female /\
    string_to_int total_str = inr total /\
    string_to_int house_str = inr house /\
    q = generate_insert_sql year yymm cc cc_desc rcode_code rcode_desc
          ccaatt_code ccaatt_desc ccaattmm_code ccaattmm_desc
          male female total house.
Proof.
  destruct (Nat.eq_dec (List.length (fields_of row)) 13) as [Hlen|Hlen].
  2:{ rewrite (row_statement_unpack _ _ Hlen). discriminate. }
  destruct (fields_of row) as [|f1 l] eqn:E; [discriminate|].
  do 12 (destruct l as [|? l]; [discriminate|]).
  destruct l as [|? l]; [|discriminate].
  rewrite (row_statement_fields _ _ _ _ _ _ _ _ _ _ _ _ _ _ _ E).
  repeat match goal with
         | |- context [string_to_int ?v] =>
             let Hv := fresh "Hv" in
             destruct (string_to_int v) eqn:Hv; cbn [bind]; [discriminate|]
         end.
  intros [= <-]. do 18 eexists. repeat split; eassumption.
Qed.

Lemma string_to_int_inr (v : Py.str) (z : Z) :
  string_to_int v = inr z -> ~ non_numeric v.
Proof.
  unfold string_to_int, non_numeric.
  destruct (Py.int (Py.remove comma v)); [discriminate 2 | discriminate 1].
Qed.

(** X4.  A line gives a statement exactly when it is not malformed:
    thirteen fields whose five numeric fields are integers are enough,
    whatever the text fields hold.  With fewer than thirteen fields
    the exception is the unpacking error that carries their number;
    with more than thirteen it is the unpacking error for too many
    values, which carries no number. *)
Theorem row_statement_iff (year : Z) (row : Py.str) :
  ((exists q, row_statement year row = inr q) <-> ~ malformed row) /\
  ((List.length (fields_of row) < 13)%nat ->
   row_statement year row
   = inl (ValueError_unpack (List.length (fields_of row)))) /\
  ((13 < List.length (fields_of row))%nat ->
   row_statement year row = inl ValueError_too_many).
Proof.
  split; [|split;
           [apply row_statement_not_enough | apply row_statement_too_many]].
  split.
  - intros [q Hq] Hm.
    destruct (row_statement_malformed year row Hm) as [e He]. congruence.
  - intros Hm.
    destruct (row_statement year row) as [e|q] eqn:E; [|eauto].
    exfalso. apply Hm. unfold malformed, numeric_fields.
    destruct (Nat.eq_dec (List.length (fields_of row)) 13) as [Hlen|Hlen];
      [|now left].
    right.
    destruct (fields_of row) as [|f1 l] eqn:Ef; [discriminate|].
    do 12 (destruct l as [|? l]; [discriminate|]).
    destruct l as [|? l]; [|discriminate].
    rewrite (row_statement_fields _ _ _ _ _ _ _ _ _ _ _ _ _ _ _ Ef) in E.
    cbn [map nth].
    unfold string_to_int in E.
    repeat match type of E with
           | context [Py.int (Py.remove comma ?v)] =>
               let Hv := fresh "Hv" in
               destruct (Py.int (Py.remove comma v)) eqn:Hv; cbn [bind] in E;
               [|clear E;
                 repeat (first [apply Exists_cons_hd; exact Hv
                               | apply Exists_cons_tl])]
           end.
    discriminate E.
Qed.

Lemma row_statement_iff_witness :
  (exists q, row_statement 1993 sample_line = inr q) /\
  row_statement 1993 (Py.lit "x") = inl (ValueError_unpack 1) /\
  row_statement 1993 fourteen_fields = inl ValueError_too_many.
Proof.
  split; [|split].
  - apply (proj2 (proj1 (row_statement_iff 1993 sample_line))).
    intros [H|H].
    + apply H. reflexivity.
    + unfold numeric_fields in H. cbn [map] in H.
      repeat match goal with
             | H : Exists _ (_ :: _) |- _ =>
                 let a := fresh in
                 inversion H as [? ? a|? ? a]; subst; clear H;
                 [vm_compute in a; discriminate a|]
             | H : Exists _ [] |- _ => inversion H
             end.
  - refine (proj1 (proj2 (row_statement_iff 1993 (Py.lit "x"))) _).
    vm_compute. lia.
  - refine (proj2 (proj2 (row_statement_iff 1993 fourteen_fields)) _).
    vm_compute. lia.
Defined.

(** ** A line whose first field is empty *)

Lemma count_pipes_app (a b : Py.str) :
  count_pipes (a ++ b) = (count_pipes a + count_pipes b)%nat.
Proof. apply count_occ_app. Qed.

Lemma count_pipes_lstrip (chars s : Py.str) :
  (count_pipes (Py.lstrip chars s) <= count_pipes s)%nat.
Proof.
  destruct (lstrip_suffix chars s) as [p Hp].
  rewrite Hp at 2. rewrite count_pipes_app. lia.
Qed.

Lemma count_pipes_rstrip (chars s : Py.str) :
  (count_pipes (Py.rstrip chars s) <= count_pipes s)%nat.
Proof.
  destruct (rstrip_prefix chars s) as [t Ht].
  rewrite Ht at 2. rewrite count_pipes_app. lia.
Qed.

Lemma lstrip_app (chars a b : Py.str) :
  Py.lstrip chars (a ++ b)
  = match Py.lstrip chars a with
    | [] => Py.lstrip chars b
    | l => l ++ b
    end.
Proof.
  induction a as [|x a IH]; [reflexivity|].
  change ((x :: a) ++ b) with (x :: a ++ b). cbn [Py.lstrip].
  destruct (Py.char_in chars x); [exact IH | reflexivity].
Qed.

Lemma rstrip_snoc_in (chars a : Py.str) (c : Py.char) :
  Py.char_in chars c = true ->
  Py.rstrip chars (a ++ [c]) = Py.rstrip chars a.
Proof.
  intros H. unfold Py.rstrip. rewrite rev_app_distr.
  change (rev [c] ++ rev a) with (c :: rev a).
  now rewrite (lstrip_cons_in _ _ _ H).
Qed.

Lemma count_pipes_join (fields : list Py.str) :
  fields <> [] -> Forall (free_of pipe) fields ->
  S (count_pipes (join pipe fields)) = List.length fields.
Proof.
  intros Hne Hall. rewrite <- split_length.
  now rewrite (split_join _ _ Hne Hall).
Qed.

(** X5.  [row.strip('|')] removes every pipe at the two ends, not one:
    a record line of thirteen fields whose first field (yymm) is empty
    loses that field and its delimiter, gives at most twelve fields,
    and raises the unpacking error although its field count was
    right. *)
Theorem empty_first_field_raises (year : Z) (rest : list Py.str)
    (Hfree : Forall (free_of pipe) rest)
    (Hlen : List.length rest = 12%nat) :
  (List.length (fields_of (record_line ([] :: rest))) <= 12)%nat /\
  malformed (record_line ([] :: rest)) /\
  row_statement year (record_line ([] :: rest))
  = inl (ValueError_unpack
           (List.length (fields_of (record_line ([] :: rest))))).
Proof.
  assert (H : (List.length (fields_of (record_line ([] :: rest))) <= 12)%nat).
  { destruct rest as [|g r']; [discriminate|].
    assert (Hj : S (count_pipes (join pipe (g :: r'))) = 12%nat).
    { rewrite count_pipes_join; [assumption | discriminate | assumption]. }
    unfold fields_of, extract_row, record_line. rewrite split_length.
    change (join pipe ([] :: g :: r')) with (pipe :: join pipe (g :: r')).
    unfold Py.strip.
    change (pipe :: (pipe :: join pipe (g :: r')) ++ [pipe])
      with (pipe :: pipe :: join pipe (g :: r') ++ [pipe]).
    rewrite !(lstrip_cons_in _ _ _ pipe_in_pipe), lstrip_app.
    pose proof (count_pipes_lstrip [pipe] (join pipe (g :: r'))) as Hl.
    destruct (Py.lstrip [pipe] (join pipe (g :: r'))) as [|x l].
    - vm_compute. lia.
    - rewrite (rstrip_snoc_in _ _ _ pipe_in_pipe).
      pose proof (count_pipes_rstrip [pipe] (x :: l)). lia. }
  assert (Hne : List.length (fields_of (record_line ([] :: rest))) <> 13%nat)
    by lia.
  split; [exact H|]. split; [now left|].
  apply row_statement_not_enough. lia.
Qed.

Lemma empty_first_field_raises_witness :
  row_statement 1993 (record_line ([] :: tl sample_fields))
  = inl (ValueError_unpack 12).
Proof.
  refine (proj2 (proj2 (empty_first_field_raises 1993 (tl sample_fields) _ _))).
  - repeat constructor; intros H; vm_compute in H; intuition discriminate.
  - reflexivity.
Defined.

(* ================================================================== *)
(** * Reading integers *)
(* ================================================================== *)

Lemma transform_ascii (s : Py.str) :
  Forall (fun c => c < 127)%N s -> Py.transform s = Some s.
Proof.
  induction 1 as [|c r Hc _ IH]; [reflexivity|].
  cbn [Py.transform]. unfold Py.to_ascii.
  apply N.ltb_lt in Hc. now rewrite Hc, IH.
Qed.

Lemma digit_not_space (c : Py.char) :
  (48 <= c <= 57)%N -> Py.char_in Py.ascii_spaces c = false.
Proof.
  intros H. unfold Py.char_in, Py.ascii_spaces. cbn [existsb].
  repeat match goal with
         | |- context [(c =? ?k)%N] =>
             replace (c =? k)%N with false
               by (symmetry; apply N.eqb_neq; lia)
         end.
  reflexivity.
Qed.

Lemma scan_digits_of_uint (d : Decimal.uint) :
  forall (prev : option Py.char) (acc : N) (k : nat),
    d <> Decimal.Nil \/
    (exists p, prev = Some p /\ p <> Py.underscore) ->
    Py.scan_digits prev acc k (Py.of_uint d)
    = Some ((DecimalPos.Unsigned.of_lu (Decimal.rev d)
             + acc * 10 ^ DecimalPos.Unsigned.usize d)%N,
            (k + List.length (Py.of_uint d))%nat).
Proof.
  induction d; intros prev acc k Hp;
    try (unfold Decimal.rev; cbn [Decimal.revapp];
         rewrite DecimalPos.Unsigned.of_lu_revapp;
         cbn [DecimalPos.Unsigned.of_lu DecimalPos.Unsigned.usize];
         rewrite N.pow_succ_r';
         cbn [Py.of_uint Py.scan_digits List.length];
         match goal with
         | |- context [Py.ascii_digit (Py.digit_char ?n)] =>
             change (Py.digit_char n =? Py.underscore)%N with false;
             change (Py.ascii_digit (Py.digit_char n)) with (Some n)
         end;
         cbn iota;
         rewrite IHd by (right; eexists; split;
                         [reflexivity | discriminate]);
         rewrite Nat.add_succ_r; cbn [Nat.add];
         f_equal; f_equal; ring).
  destruct Hp as [Hp | (p & -> & Hp)]; [congruence|].
  cbn [Py.of_uint Py.scan_digits List.length].
  apply N.eqb_neq in Hp. rewrite Hp.
  cbn. now rewrite N.mul_1_r, Nat.add_0_r.
Qed.

Lemma of_uint_ascii (d : Decimal.uint) :
  Forall (fun c => c < 127)%N (Py.of_uint d).
Proof.
  eapply Forall_impl; [|apply of_uint_chars]. intros c Hc. simpl in Hc. lia.
Qed.

Lemma hd_error_In {A : Type} (l : list A) (c : A) :
  hd_error l = Some c -> In c l.
Proof. destruct l; simpl; [discriminate|]. intros [= ->]. now left. Qed.

Lemma of_uint_last_digit (d : Decimal.uint) (c : Py.char) :
  hd_error (rev (Py.of_uint d)) = Some c -> (48 <= c <= 57)%N.
Proof.
  intros H. apply hd_error_In, in_rev in H.
  pose proof (of_uint_chars d) as Hall.
  rewrite Forall_forall in Hall. now apply Hall.
Qed.

Lemma int_of_digits (negative : bool) (d : Decimal.uint) :
  d <> Decimal.Nil ->
  (List.length (Py.of_uint d) <= Py.int_max_str_digits)%nat ->
  Py.int ((if negative then [Py.minus_sign] else []) ++ Py.of_uint d)
  = Some (if negative then (- Z.of_N (Pos.of_uint d))%Z
          else Z.of_N (Pos.of_uint d)).
Proof.
  intros Hn Hlen.
  destruct (of_uint_nonnil d Hn) as (c & r & E & Hc).
  assert (Hscan : Py.scan_digits None 0 0
                    (Py.rstrip Py.ascii_spaces (Py.of_uint d))
                  = Some (Pos.of_uint d, List.length (Py.of_uint d))).
  { rewrite rstrip_id.
    - rewrite scan_digits_of_uint by now left.
      now rewrite DecimalPos.Unsigned.of_uint_alt, N.mul_0_l, N.add_0_r.
    - intros x Hx. apply digit_not_space. now apply of_uint_last_digit in Hx. }
  assert (Hlim : (Py.int_max_str_digits <? List.length (Py.of_uint d))%nat
                 = false) by (apply Nat.ltb_ge; exact Hlen).
  unfold Py.int. destruct negative.
  - rewrite transform_ascii.
    2:{ constructor; [reflexivity | apply of_uint_ascii]. }
    change ([Py.minus_sign] ++ Py.of_uint d) with (Py.minus_sign :: Py.of_uint d).
    rewrite (lstrip_cons_out Py.ascii_spaces (Py.of_uint d) Py.minus_sign eq_refl).
    rewrite N.eqb_refl. cbv zeta. lazy beta iota. rewrite Hscan, Hlim. reflexivity.
  - rewrite transform_ascii by apply of_uint_ascii.
    change ([] ++ Py.of_uint d) with (Py.of_uint d).
    rewrite (lstrip_id Py.ascii_spaces (Py.of_uint d)).
    2:{ intros x Hx. apply digit_not_space. rewrite E in Hx. simpl in Hx. now injection Hx as <-. }
    rewrite E at 1.
    replace (c =? Py.minus_sign)%N with false
      by (symmetry; apply N.eqb_neq; unfold Py.minus_sign; lia).
    replace (c =? Py.plus_sign)%N with false
      by (symmetry; apply N.eqb_neq; unfold Py.plus_sign; lia).
    cbv zeta. lazy beta iota. rewrite Hscan, Hlim. reflexivity.
Qed.

Lemma int_str_of_int (z : Z) :
  (List.length (Py.str_of_int (Z.abs z)) <= Py.int_max_str_digits)%nat ->
  Py.int (Py.str_of_int z) = Some z.
Proof.
  destruct z as [|p|p]; [reflexivity| |]; unfold Py.str_of_int;
    cbn [Z.abs Z.to_int]; intros Hlen.
  - pose proof (int_of_digits false (Pos.to_uint p)
                  (DecimalPos.Unsigned.to_uint_nonnil p) Hlen) as H.
    cbn [app] in H. rewrite H. now rewrite DecimalPos.Unsigned.of_to.
  - pose proof (int_of_digits true (Pos.to_uint p)
                  (DecimalPos.Unsigned.to_uint_nonnil p) Hlen) as H.
    cbn [app] in H. rewrite H. now rewrite DecimalPos.Unsigned.of_to.
Qed.

Lemma remove_free_id (c : Py.char) (s : Py.str) :
  free_of c s -> Py.remove c s = s.
Proof.
  unfold free_of, Py.remove. induction s as [|x r IH]; [reflexivity|].
  intros H. cbn [filter].
  destruct (N.eqb_spec x c) as [->|_].
  - exfalso. apply H. now left.
  - cbn [negb]. rewrite IH; [reflexivity | intros Hin; apply H; now right].
Qed.

(** X6.  [string_to_int] inverts the decimal rendering of integers,
    with commas anywhere: a field that is the numeral of [z] once its
    commas are removed is read as [z], for every integer whose numeral
    stays within the digit limit of the interpreter; in particular
    [string_to_int (str z)] is [z]. *)
Theorem string_to_int_numeral (v : Py.str) (z : Z)
    (Hv : Py.remove comma v = Py.str_of_int z)
    (Hd : (List.length (Py.str_of_int (Z.abs z)) <= Py.int_max_str_digits)%nat) :
  string_to_int v = inr z /\
  string_to_int (Py.str_of_int z) = inr z.
Proof.
  pose proof (int_str_of_int z Hd) as H.
  split; unfold string_to_int.
  - now rewrite Hv, H.
  - rewrite remove_free_id, H; [reflexivity|].
    apply str_of_int_free; unfold comma, Py.minus_sign; [discriminate | lia].
Qed.

Lemma string_to_int_numeral_witness :
  string_to_int (Py.lit "1,234,567") = inr 1234567%Z.
Proof.
  refine (proj1 (string_to_int_numeral (Py.lit "1,234,567") 1234567 _ _)).
  - reflexivity.
  - vm_compute. lia.
Defined.

(** ** Digits of other scripts *)

Lemma to_ascii_decimal_blocks :
  forallb
    (fun zero =>
       forallb
         (fun d =>
            match Py.to_ascii (zero + d)%N with
            | Some a => (a =? 48 + d)%N
            | None => false
            end)
         [0; 1; 2; 3; 4; 5; 6; 7; 8; 9]%N)
    Py.decimal_zeros = true.
Proof. vm_compute. reflexivity. Qed.

Lemma to_ascii_decimal (zero d : N) :
  In zero Py.decimal_zeros -> (d < 10)%N ->
  Py.to_ascii (zero + d)%N = Some (48 + d)%N.
Proof.
  intros Hz Hd. pose proof to_ascii_decimal_blocks as H.
  rewrite forallb_forall in H. specialize (H zero Hz).
  rewrite forallb_forall in H.
  assert (Hin : In d [0; 1; 2; 3; 4; 5; 6; 7; 8; 9]%N).
  { assert (E : (d = 0 \/ d = 1 \/ d = 2 \/ d = 3 \/ d = 4 \/ d = 5 \/
                 d = 6 \/ d = 7 \/ d = 8 \/ d = 9)%N) by lia.
    simpl. intuition. }
  specialize (H d Hin).
  destruct (Py.to_ascii (zero + d)%N) as [a|]; [|discriminate].
  apply N.eqb_eq in H. now subst.
Qed.

(** X7.  [string_to_int] reads the decimal digits of every script as
    it reads the ASCII digits: a field written with the digits of one
    of the Unicode decimal blocks (the Thai digits among them) gives
    the same result as the field written with the digits 0 to 9. *)
Theorem string_to_int_any_script (zero : N) (ds : list N)
    (Hzero : In zero Py.decimal_zeros)
    (Hds : Forall (fun d => d < 10)%N ds) :
  string_to_int (map (N.add zero) ds) = 
  match Py.int (map (N.add 48) ds) with
  | Some z => inr z
  | None => inl (ValueError_int (map (N.add zero) ds))
  end.
Proof.
  assert (Hfree : forall zero', In zero' Py.decimal_zeros ->
            Py.remove comma (map (N.add zero') ds) = map (N.add zero') ds).
  { intros zero' Hz'. apply remove_free_id. intros Hin.
    apply in_map_iff in Hin as (d & Hd & Hin).
    rewrite Forall_forall in Hds. specialize (Hds d Hin).
    pose proof (to_ascii_decimal zero' d Hz' Hds) as Ha.
    rewrite Hd in Ha. change (Py.to_ascii comma) with (Some 44%N) in Ha.
    assert (E : (44 = 48 + d)%N) by congruence. lia. }
  assert (Ht : forall zero', In zero' Py.decimal_zeros ->
            Py.transform (map (N.add zero') ds) = Some (map (N.add 48) ds)).
  { intros zero' Hz'. clear Hfree. induction Hds as [|d r Hd _ IH];
      [reflexivity|].
    cbn [map Py.transform].
    now rewrite (to_ascii_decimal zero' d Hz' Hd), IH. }
  unfold string_to_int. rewrite (Hfree zero Hzero).
  unfold Py.int. rewrite (Ht zero Hzero).
  rewrite (Ht 48%N) by now left. reflexivity.
Qed.

Lemma string_to_int_any_script_witness :
  string_to_int [3665; 3666; 3667]%N = inr 123%Z.
Proof.
  refine (string_to_int_any_script 3664 [1; 2; 3]%N _ _).
  - vm_compute. tauto.
  - repeat constructor.
Defined.

(* ================================================================== *)
(** * One address per year *)
(* ================================================================== *)

Lemma app_sep_inj (c : Py.char) (a b x y : Py.str) :
  free_of c a -> free_of c b -> a ++ c :: x = b ++ c :: y -> a = b.
Proof.
  unfold free_of. revert b. induction a as [|u a IH]; intros [|v b] Ha Hb E.
  - reflexivity.
  - simpl in E. injection E as E _. subst v. exfalso. apply Hb. now left.
  - simpl in E. injection E as E _. subst u. exfalso. apply Ha. now left.
  - simpl in E. injection E as -> E. f_equal.
    apply IH with (2 := fun H => Hb (or_intror H)); [|exact E].
    intros H. apply Ha. now right.
Qed.

Lemma str_of_int_inj (a b : Z) : Py.str_of_int a = Py.str_of_int b -> a = b.
Proof.
  intros H. pose proof (integer_of_text_str_of_int a) as Ha.
  rewrite H, integer_of_text_str_of_int in Ha. congruence.
Qed.

(** X8.  The Fetcher asks for a different address for every year:
    the address determines the year. *)
Theorem stat_url_injective (year year' : Z)
    (H : stat_url (convert_to_thai_year year)
         = stat_url (convert_to_thai_year year')) :
  year = year'.
Proof.
  unfold stat_url in H. apply app_inv_head in H.
  change (Py.lit "/stat_c") with (47%N :: Py.lit "stat_c") in H.
  apply app_sep_inj in H.
  - apply str_of_int_inj in H. unfold convert_to_thai_year in H. lia.
  - apply str_of_int_free; unfold Py.minus_sign; [discriminate | lia].
  - apply str_of_int_free; unfold Py.minus_sign; [discriminate | lia].
Qed.

Lemma stat_url_injective_witness : 1993%Z = (1000 + 993)%Z.
Proof. apply stat_url_injective. reflexivity. Defined.

(* ================================================================== *)
(** * Counts beyond 32 bits *)
(* ================================================================== *)

Lemma cast_integer_text (z : Z) :
  DuckDB.cast DuckDB.INTEGER (Py.str_of_int z)
  = if DuckDB.in_int32 z then Some (DuckDB.VInt z) else None.
Proof. unfold DuckDB.cast. now rewrite integer_of_text_str_of_int. Qed.

Lemma in_int32_true (z : Z) : DuckDB.in_int32 z = true <-> int32 z.
Proof.
  unfold DuckDB.in_int32, int32.
  rewrite andb_true_iff, !Z.leb_le. tauto.
Qed.

(** X9.  The table stores 32-bit integers while [string_to_int]
    returns unbounded ones: when one of the six integer arguments of
    the generated statement is outside the 32-bit range (and no text
    argument holds an apostrophe), the engine answers with a conversion
    error, and a row that leads to such a statement ends the run with
    nothing inserted for it. *)
Theorem out_of_range_count_raises
    (t : DuckDB.Table)
    (data_year : Z) (yymm : Py.str) (cc_code : Z)
    (cc_desc rcode_code rcode_desc ccaatt_code ccaatt_desc
     ccaattmm_code ccaattmm_desc : Py.str)
    (male female total house : Z)
    (Hschema : same_schema t thai_population)
    (Hquote : Forall (free_of DuckDB.quote)
                [yymm; cc_desc; rcode_code; rcode_desc; ccaatt_code;
                 ccaatt_desc; ccaattmm_code; ccaattmm_desc])
    (Hrange : ~ Forall int32 [data_year; cc_code; male; female; total; house]) :
  DuckDB.sql
    (generate_insert_sql data_year yymm cc_code cc_desc rcode_code
       rcode_desc ccaatt_code ccaatt_desc ccaattmm_code ccaattmm_desc
       male female total house) (Some t)
  = inl DuckDB.ConversionException /\
  (forall (row : Py.str) (rest : list Py.str) (w : World),
     db w = Some t ->
     row_statement data_year row
     = inr (generate_insert_sql data_year yymm cc_code cc_desc rcode_code
              rcode_desc ccaatt_code ccaatt_desc ccaattmm_code
              ccaattmm_desc male female total house) ->
     load_rows data_year (row :: rest) w
     = Raised (DuckDBException DuckDB.ConversionException) w).
Proof.
  assert (Hsql :
    DuckDB.sql
      (generate_insert_sql data_year yymm cc_code cc_desc rcode_code
         rcode_desc ccaatt_code ccaatt_desc ccaattmm_code ccaattmm_desc
         male female total house) (Some t)
    = inl DuckDB.ConversionException).
  { destruct Hschema as (Hn & Hc & Hk). destruct t as [name cols pk rows].
    simpl in Hn, Hc, Hk. subst name cols pk.
    rewrite (sql_insert _ _ _
               (parse_insert_arguments data_year yymm cc_code cc_desc
                  rcode_code rcode_desc ccaatt_code ccaatt_desc ccaattmm_code
                  ccaattmm_desc male female total house Hquote)).
    unfold DuckDB.insert.
    cbn [DuckDB.ins_table DuckDB.ins_values DuckDB.tbl_name DuckDB.tbl_columns
         DuckDB.tbl_rows DuckDB.tbl_primary_key].
    change (negb (Py.eqb (Py.lit "THAI_POPULATION")
                    (map DuckDB.upper (Py.lit "thai_population"))))
      with false.
    unfold argument_texts. cbn [List.length Nat.eqb negb].
    unfold thai_population. cbn [DuckDB.cast_row DuckDB.tbl_columns].
    rewrite !cast_integer_text.
    destruct (DuckDB.in_int32 data_year) eqn:E1;
      destruct (DuckDB.in_int32 cc_code) eqn:E2;
      destruct (DuckDB.in_int32 male) eqn:E3;
      destruct (DuckDB.in_int32 female) eqn:E4;
      destruct (DuckDB.in_int32 total) eqn:E5;
      destruct (DuckDB.in_int32 house) eqn:E6;
      try reflexivity.
    exfalso. apply Hrange.
    repeat constructor; now apply in_int32_true. }
  split; [exact Hsql|].
  intros row rest w Hdb Hrow. cbn [load_rows]. rewrite Hrow.
  rewrite <- Hdb in Hsql. rewrite Hsql. f_equal.
  exact (world_after_error _ _ w _
           (parse_insert_arguments data_year yymm cc_code cc_desc
              rcode_code rcode_desc ccaatt_code ccaatt_desc ccaattmm_code
              ccaattmm_desc male female total house Hquote) Hsql).
Qed.

Lemma out_of_range_count_raises_witness :
  DuckDB.sql
    (generate_insert_sql 1993 (Py.lit "3612") 1 (Py.lit "Bangkok")
       (Py.lit "1") (Py.lit "Central") (Py.lit "1001") (Py.lit "Phra Nakhon")
       (Py.lit "100101") (Py.lit "Phra Borom") 2147483648 0 2147483648 0)
    (Some thai_population)
  = inl DuckDB.ConversionException.
Proof.
  refine (proj1 (out_of_range_count_raises thai_population
            1993 (Py.lit "3612") 1 (Py.lit "Bangkok")
            (Py.lit "1") (Py.lit "Central") (Py.lit "1001")
            (Py.lit "Phra Nakhon") (Py.lit "100101") (Py.lit "Phra Borom")
            2147483648 0 2147483648 0 _ _ _)).
  - repeat split.
  - repeat constructor; intros H; vm_compute in H; intuition discriminate.
  - intros H.
    repeat match goal with
           | H : Forall _ (_ :: _) |- _ =>
               let a := fresh "Hi" in let b := fresh in
               inversion H as [|? ? a b]; subst; clear H
           end.
    unfold int32 in *. lia.
Defined.

(* ================================================================== *)
(** * Invariants of the run *)
(* ================================================================== *)

Section LoopInvariant.

Variable requests_get : Py.str -> Exception + Response.

(** [R] is what is known of every row of every body that the network
    serves. *)
Variable R : Py.str -> Prop.

(** [I] holds at the head of the loop, [J] between the fetch of a year
    and the end of that year. *)
Variables I J : Z -> World -> Prop.

Hypothesis rows_known :
  forall y value,
    get_data_stat_by_year requests_get y = inr (Ok value) ->
    Forall R (Py.splitlines (clean_text value)).
Hypothesis fetch_step : forall y w, I y w -> J y (log (EvFetch y) w).
Hypothesis insert_step :
  forall y w row q d,
    J y w -> R row ->
    row_statement y row = inr q -> DuckDB.sql q (db w) = inr d ->
    J y {| db := d; fs := fs w; trace := trace w ++ [EvInsert y] |}.
Hypothesis raise_step :
  forall y w row q e,
    J y w -> R row ->
    row_statement y row = inr q -> DuckDB.sql q (db w) = inl e ->
    J y {| db := DuckDB.after_error q (db w); fs := fs w;
           trace := trace w |}.
Hypothesis year_step :
  forall y w, J y w -> I (y + 1)%Z (log (EvYearDone y) w).

Lemma load_rows_invariant (y : Z) (rows : list Py.str) (w : World) :
  Forall R rows -> J y w ->
  match load_rows y rows w with
  | Normal w' | Raised _ w' => J y w'
  | Diverged _ => False
  end.
Proof.
  intros Hrows. revert w.
  induction Hrows as [|row rows Hrow _ IH]; intros w Hw; cbn [load_rows];
    [exact Hw|].
  destruct (row_statement y row) as [e|q] eqn:Eq; [exact Hw|].
  destruct (DuckDB.sql q (db w)) as [e|d] eqn:Ed.
  - exact (raise_step y w row q e Hw Hrow Eq Ed).
  - apply IH. exact (insert_step y w row q d Hw Hrow Eq Ed).
Qed.

Lemma driver_loop_invariant (fuel : nat) :
  forall (y : Z) (w : World), I y w ->
    match driver_loop requests_get fuel y w with
    | Normal w' | Raised _ w' => exists y', (y <= y')%Z /\ J y' w'
    | Diverged w' => exists y', (y <= y')%Z /\ I y' w'
    end.
Proof.
  induction fuel as [|fuel IH]; intros y w Hw; cbn [driver_loop].
  - exists y. split; [lia | exact Hw].
  - pose proof (fetch_step y w Hw) as Hj.
    destruct (get_data_stat_by_year requests_get y) as [e|[value|e]] eqn:Eg.
    + exists y. split; [lia | exact Hj].
    + pose proof (load_rows_invariant y (Py.splitlines (clean_text value))
                    _ (rows_known y value Eg) Hj) as Hl.
      destruct (load_rows y (Py.splitlines (clean_text value))
                  (log (EvFetch y) w)) as [w2|e w2|w2]; [| |contradiction].
      * specialize (IH (y + 1)%Z _ (year_step y w2 Hl)).
        destruct (driver_loop requests_get fuel (y + 1)
                    (log (EvYearDone y) w2)) as [w3|e w3|w3];
          destruct IH as (y' & Hy & H); exists y'; (split; [lia | exact H]).
      * exists y. split; [lia | exact Hl].
    + exists y. split; [lia | exact Hj].
Qed.

End LoopInvariant.

(** ** Bodies without an apostrophe *)

Lemma in_strip (chars s : Py.str) (c : Py.char) :
  In c (Py.strip chars s) -> In c s.
Proof.
  unfold Py.strip. intros H.
  destruct (lstrip_split chars s) as (p & Hp & _).
  destruct (rstrip_split chars (Py.lstrip chars s)) as (q & Hq & _).
  rewrite Hp, Hq. apply in_or_app. right. apply in_or_app. now left.
Qed.

Lemma in_join (sep : Py.char) (fields : list Py.str) (f : Py.str)
    (c : Py.char) :
  In f fields -> In c f -> In c (join sep fields).
Proof.
  induction fields as [|g r IH]; [intros []|].
  intros [->|Hin] Hc.
  - destruct r; [exact Hc|]. cbn [join]. apply in_or_app. now left.
  - destruct r as [|g' r']; [destruct Hin|].
    change (join sep (g :: g' :: r')) with (g ++ sep :: join sep (g' :: r')).
    apply in_or_app. right. right. now apply IH.
Qed.

Lemma fields_free (c : Py.char) (row : Py.str) :
  free_of c row -> Forall (free_of c) (fields_of row).
Proof.
  intros H. apply Forall_forall. intros f Hf Hc. apply H.
  apply (in_strip [pipe]). rewrite <- (join_split pipe (Py.strip [pipe] row)).
  exact (in_join pipe _ f c Hf Hc).
Qed.

Lemma lines_free (c : Py.char) (s : Py.str) :
  free_of c s -> Forall (free_of c) (Py.splitlines s).
Proof.
  intros H. apply Forall_forall. intros l Hl Hc. apply H.
  destruct (splitlines_from_concat (List.length s) s [] (le_n _)) as [E _].
  assert (Hin : In c (List.concat (Py.splitlines s))).
  { apply in_concat. now exists l. }
  unfold Py.splitlines in Hin. rewrite E in Hin. cbn [rev app] in Hin.
  now apply filter_In in Hin.
Qed.

Lemma rows_apostrophe_free rg (y : Z) (value : Py.str) :
  apostrophe_free rg ->
  get_data_stat_by_year rg y = inr (Ok value) ->
  Forall (free_of DuckDB.quote) (Py.splitlines (clean_text value)).
Proof.
  intros Hrg. unfold get_data_stat_by_year.
  destruct (rg (stat_url (convert_to_thai_year y))) as [e|response] eqn:E;
    cbn [bind]; [discriminate|].
  destruct (ok response) eqn:Eok; cbn [negb]; [|discriminate].
  intros [= <-].
  apply lines_free. intros Hc. apply (Hrg _ _ E Eok).
  now apply (in_strip [bom]).
Qed.

(** A row without an apostrophe that gives a statement gives one
    insertion, whose first value is the year of the iteration. *)
Lemma row_statement_reads (y : Z) (row q : Py.str) :
  free_of DuckDB.quote row -> row_statement y row = inr q ->
  exists vs,
    DuckDB.parse_insert q
    = Some {| DuckDB.ins_table := Py.lit "THAI_POPULATION";
              DuckDB.ins_values := Py.str_of_int y :: vs |}.
Proof.
  intros Hfree Hrow. apply fields_free in Hfree.
  apply row_statement_inr in Hrow
    as (yymm & cc_code & cc_desc & rcode_code & rcode_desc & ccaatt_code &
        ccaatt_desc & ccaattmm_code & ccaattmm_desc & male_str & female_str &
        total_str & house_str & cc & male & female & total & house &
        Hf & _ & _ & _ & _ & _ & ->).
  rewrite Hf in Hfree.
  repeat match goal with
         | H : Forall _ (_ :: _) |- _ =>
             let a := fresh "Hq" in let b := fresh in
             inversion H as [|? ? a b]; subst; clear H
         end.
  rewrite parse_insert_arguments.
  - unfold argument_texts. eexists. reflexivity.
  - repeat (apply Forall_cons; [assumption|]). apply Forall_nil.
Qed.


(** ** The table and the trace *)

Lemma cast_row_fits (cols : list (Py.str * DuckDB.sqltype)) :
  forall (vs : list Py.str) (r : DuckDB.row),
    DuckDB.cast_row cols vs = Some r -> Forall2 fits cols r.
Proof.
  induction cols as [|[n ty] cols IH]; intros [|v vs] r; cbn [DuckDB.cast_row];
    try discriminate.
  - intros [= <-]. constructor.
  - destruct (DuckDB.cast ty v) as [x|] eqn:Ex; [|discriminate].
    destruct (DuckDB.cast_row cols vs) as [xs|] eqn:Exs; [|discriminate].
    intros [= <-]. constructor; [|now apply (IH vs)].
    unfold fits. cbn [snd]. destruct ty; unfold DuckDB.cast in Ex.
    + destruct (DuckDB.integer_of_text v) as [z|]; [|discriminate].
      destruct (DuckDB.in_int32 z) eqn:Ez; [|discriminate].
      injection Ex as <-. now apply in_int32_true.
    + now injection Ex as <-.
Qed.

Lemma insert_inr_cast (stmt : DuckDB.insert_statement) (t t' : DuckDB.Table) :
  DuckDB.insert stmt t = inr t' ->
  exists r, DuckDB.cast_row (DuckDB.tbl_columns t) (DuckDB.ins_values stmt)
            = Some r /\ t' = append_row t r.
Proof.
  unfold DuckDB.insert.
  destruct (negb _); [discriminate|].
  destruct (negb _); [discriminate|].
  destruct (DuckDB.cast_row _ _) as [r|]; [|discriminate].
  destruct (DuckDB.key_taken t r); [discriminate|].
  intros [= <-]. now exists r.
Qed.

Lemma insert_years_app (a b : list Event) :
  insert_years (a ++ b) = insert_years a ++ insert_years b.
Proof. apply flat_map_app. Qed.

Lemma mirrors_log (e : Event) (w : World) :
  insert_years [e] = [] ->
  table_mirrors_trace w -> table_mirrors_trace (log e w).
Proof.
  intros He (t & Hdb & Hs & Ht & Hm). exists t.
  cbn [log db trace]. rewrite insert_years_app, He, app_nil_r. auto.
Qed.

Lemma mirrors_insert (y : Z) (w : World) (row q : Py.str)
    (d : option DuckDB.Table) :
  table_mirrors_trace w ->
  free_of DuckDB.quote row ->
  row_statement y row = inr q ->
  DuckDB.sql q (db w) = inr d ->
  table_mirrors_trace
    {| db := d; fs := fs w; trace := trace w ++ [EvInsert y] |}.
Proof.
  intros (t & Hdb & Hs & Ht & Hm) Hfree Hrow Hsql.
  destruct (row_statement_reads y row q Hfree Hrow) as [vs Ep].
  rewrite (sql_insert _ _ _ Ep), Hdb in Hsql.
  destruct (DuckDB.insert _ t) as [e|t'] eqn:Ei; [discriminate|].
  injection Hsql as <-.
  apply insert_inr_cast in Ei as (r & Hr & ->).
  cbn [DuckDB.ins_values] in Hr.
  destruct Hs as (Hn & Hc & Hk).
  assert (Hfit : Forall2 fits (DuckDB.tbl_columns t) r)
    by (eapply cast_row_fits; eassumption).
  assert (Hhd : data_year_of r = Some (DuckDB.VInt y)).
  { rewrite Hc in Hr. unfold thai_population in Hr.
    cbn [DuckDB.tbl_columns DuckDB.cast_row] in Hr.
    rewrite cast_integer_text in Hr.
    destruct (DuckDB.in_int32 y); [|discriminate].
    destruct (match vs with [] => None | _ => _ end) as [xs|];
      [|discriminate].
    now injection Hr as <-. }
  exists (append_row t r). cbn [db trace]. split; [reflexivity|].
  split; [repeat split; assumption|]. split.
  - unfold well_typed, append_row. cbn [DuckDB.tbl_columns DuckDB.tbl_rows].
    apply Forall_app. split; [exact Ht | now constructor].
  - unfold append_row. cbn [DuckDB.tbl_rows].
    rewrite map_app, insert_years_app, map_app, Hm. cbn [map insert_years flat_map app].
    now rewrite Hhd.
Qed.

Lemma mirrors_raise (y : Z) (w : World) (row q : Py.str) (e : DuckDB.error) :
  table_mirrors_trace w ->
  free_of DuckDB.quote row ->
  row_statement y row = inr q ->
  DuckDB.sql q (db w) = inl e ->
  table_mirrors_trace
    {| db := DuckDB.after_error q (db w); fs := fs w; trace := trace w |}.
Proof.
  intros Hw Hfree Hrow Hsql.
  destruct (row_statement_reads y row q Hfree Hrow) as [vs Ep].
  now rewrite (world_after_error _ _ _ _ Ep Hsql).
Qed.

(** X10.  For a network whose bodies hold no apostrophe, so that
    every statement of the Loader is one insertion of one row, the
    table mirrors the trace at every point where a run can end: it
    still has the schema created at the start, every stored row fits
    the column types (32-bit integers in the integer columns), the
    rows are exactly one per insertion, in the order of the
    insertions, and each row carries as [data_year] the year in whose
    iteration it was loaded. *)
Theorem table_mirrors_run
    (requests_get : Py.str -> Exception + Response)
    (duckdb_copy : DuckDB.copy_statement -> option DuckDB.Table -> FS.t ->
                   DuckDB.error + FS.t)
    (fuel : nat) (f : FS.t)
    (Hfree : apostrophe_free requests_get) :
  table_mirrors_trace (world_of (main requests_get duckdb_copy fuel f)).
Proof.
  pose proof (driver_loop_invariant requests_get (free_of DuckDB.quote)
                (fun _ => table_mirrors_trace) (fun _ => table_mirrors_trace)
                (fun y value => rows_apostrophe_free requests_get y value Hfree)
                (fun y w => mirrors_log (EvFetch y) w eq_refl)
                (fun y w row q d => mirrors_insert y w row q d)
                (fun y w row q e => mirrors_raise y w row q e)
                (fun y w => mirrors_log (EvYearDone y) w eq_refl)
                fuel 1993%Z (initial_world f)) as H.
  assert (H0 : table_mirrors_trace (initial_world f)).
  { exists thai_population. repeat split. constructor. }
  specialize (H H0). unfold main.
  change {| db := create_duck_db_table None; fs := f;
            trace := [EvCreateTable] |} with (initial_world f).
  destruct (driver_loop requests_get fuel 1993 (initial_world f))
    as [w|e w|w]; destruct H as (y' & _ & Hw); try exact Hw.
  pose proof (mirrors_log EvExport w eq_refl Hw) as He.
  destruct (write_into_hive_partition duckdb_copy (db (log EvExport w))
              (fs (log EvExport w))) as [e|f']; exact He.
Qed.

Lemma serve_until_2000_apostrophe_free (body : Py.str) :
  free_of DuckDB.quote body -> apostrophe_free (serve_until_2000 body).
Proof.
  intros Hb url response. unfold serve_until_2000.
  destruct (Py.eqb url (stat_url (convert_to_thai_year 2000)));
    intros [= <-]; [discriminate | intros _; exact Hb].
Qed.

Lemma table_mirrors_run_witness :
  table_mirrors_trace
    (world_of (main (serve_until_2000 sample_body) copy_nothing 8 [])).
Proof.
  apply table_mirrors_run. apply serve_until_2000_apostrophe_free.
  intros H. vm_compute in H. intuition discriminate.
Defined.

(** ** The order of the years and the Exporter *)

Lemma years_from_snoc (n : nat) :
  forall y, years_from y (S n) = years_from y n ++ [(y + Z.of_nat n)%Z].
Proof.
  induction n as [|n IH]; intros y.
  - cbn. now rewrite Z.add_0_r.
  - change (years_from y (S (S n))) with (y :: years_from (y + 1) (S n)).
    rewrite IH.
    replace (y + Z.of_nat (S n))%Z with (y + 1 + Z.of_nat n)%Z by lia.
    reflexivity.
Qed.

Lemma head_fetch (y : Z) (w : World) :
  at_head y w -> in_year y (log (EvFetch y) w).
Proof.
  intros (n & -> & Hf & Hd & He). exists n. cbn [log trace].
  rewrite fetched_app, years_done_app, exports_app, Hf, Hd, He.
  split; [reflexivity|]. split; [now rewrite years_from_snoc|].
  split; [apply app_nil_r | reflexivity].
Qed.

Lemma year_insert (y : Z) (w : World) (row q : Py.str)
    (d : option DuckDB.Table) :
  in_year y w -> True -> row_statement y row = inr q ->
  DuckDB.sql q (db w) = inr d ->
  in_year y {| db := d; fs := fs w; trace := trace w ++ [EvInsert y] |}.
Proof.
  intros (n & -> & Hf & Hd & He) _ _ _. exists n. cbn [trace].
  rewrite fetched_app, years_done_app, exports_app, Hf, Hd, He.
  split; [reflexivity|]. split; [apply app_nil_r|].
  split; [apply app_nil_r | reflexivity].
Qed.

Lemma year_raise (y : Z) (w : World) (row q : Py.str) (e : DuckDB.error) :
  in_year y w -> True -> row_statement y row = inr q ->
  DuckDB.sql q (db w) = inl e ->
  in_year y {| db := DuckDB.after_error q (db w); fs := fs w;
               trace := trace w |}.
Proof. intros H _ _ _. exact H. Qed.

Lemma year_done (y : Z) (w : World) :
  in_year y w -> at_head (y + 1) (log (EvYearDone y) w).
Proof.
  intros (n & -> & Hf & Hd & He). exists (S n). cbn [log trace].
  rewrite fetched_app, years_done_app, exports_app, Hf, Hd, He.
  split; [lia|]. split; [apply app_nil_r|].
  split; [now rewrite (years_from_snoc n 1993) | reflexivity].
Qed.

Lemma initial_at_head (f : FS.t) : at_head 1993 (initial_world f).
Proof. exists 0%nat. repeat split. Qed.

Lemma any_rows (l : list Py.str) : Forall (fun _ => True) l.
Proof. apply Forall_forall. trivial. Qed.

(** Where the loop can be when it ends, whatever ends it. *)
Lemma loop_end_state rg (fuel : nat) (f : FS.t) :
  match driver_loop rg fuel 1993 (initial_world f) with
  | Normal w | Raised _ w => exists y, in_year y w
  | Diverged w => exists y, at_head y w
  end.
Proof.
  pose proof (driver_loop_invariant rg (fun _ => True) at_head in_year
                (fun _ value _ => any_rows _)
                head_fetch year_insert year_raise year_done
                fuel 1993%Z (initial_world f) (initial_at_head f)) as H.
  destruct (driver_loop rg fuel 1993 (initial_world f)) as [w|e w|w];
    destruct H as (y & _ & H); now exists y.
Qed.

(** X11.  Whatever the network answers and whenever the run ends, the
    years were fetched consecutively from 1993 upwards, each once; the
    completed years are the fetched years, except that the last
    fetched year may not be completed. *)
Theorem years_fetched_in_order
    (requests_get : Py.str -> Exception + Response)
    (duckdb_copy : DuckDB.copy_statement -> option DuckDB.Table -> FS.t ->
                   DuckDB.error + FS.t)
    (fuel : nat) (f : FS.t) :
  exists n,
    years_done (trace (world_of (main requests_get duckdb_copy fuel f)))
    = years_from 1993 n /\
    (fetched (trace (world_of (main requests_get duckdb_copy fuel f)))
     = years_from 1993 n \/
     fetched (trace (world_of (main requests_get duckdb_copy fuel f)))
     = years_from 1993 (S n)).
Proof.
  pose proof (loop_end_state requests_get fuel f) as H. unfold main.
  change {| db := create_duck_db_table None; fs := f;
            trace := [EvCreateTable] |} with (initial_world f).
  destruct (driver_loop requests_get fuel 1993 (initial_world f))
    as [w|e w|w]; destruct H as (y & n & _ & Hf & Hd & _).
  - exists n.
    assert (Ht : years_done (trace (log EvExport w)) = years_from 1993 n /\
                 fetched (trace (log EvExport w)) = years_from 1993 (S n)).
    { cbn [log trace]. rewrite years_done_app, fetched_app, Hf, Hd.
      split; apply app_nil_r. }
    destruct (write_into_hive_partition duckdb_copy (db (log EvExport w))
                (fs (log EvExport w))) as [e|f'];
      cbn [world_of trace]; destruct Ht as [H1 H2]; auto.
  - exists n. cbn [world_of]. auto.
  - exists n. cbn [world_of]. auto.
Qed.

(** X12.  The Exporter is called at most once, and only after the
    loop: a run that ends normally has called it exactly once; when it
    has been called, the call is the last event of the run; and while
    the loop runs, or when an exception ends the loop, it has not been
    called. *)
Theorem exporter_at_most_once
    (requests_get : Py.str -> Exception + Response)
    (duckdb_copy : DuckDB.copy_statement -> option DuckDB.Table -> FS.t ->
                   DuckDB.error + FS.t)
    (fuel : nat) (f : FS.t) :
  (exports (trace (world_of (main requests_get duckdb_copy fuel f))) <= 1)%nat /\
  (exports (trace (world_of (main requests_get duckdb_copy fuel f))) = 1%nat ->
   exists tr,
     trace (world_of (main requests_get duckdb_copy fuel f)) = tr ++ [EvExport]) /\
  (forall w, main requests_get duckdb_copy fuel f = Normal w ->
             exports (trace w) = 1%nat) /\
  exports (trace (world_of (driver_loop requests_get fuel 1993
                              (initial_world f)))) = 0%nat.
Proof.
  pose proof (loop_end_state requests_get fuel f) as H. unfold main.
  change {| db := create_duck_db_table None; fs := f;
            trace := [EvCreateTable] |} with (initial_world f).
  destruct (driver_loop requests_get fuel 1993 (initial_world f))
    as [w|e w|w]; destruct H as (y & n & _ & _ & _ & He);
    cbn [world_of].
  - assert (Hx : exports (trace (log EvExport w)) = 1%nat).
    { cbn [log trace]. now rewrite exports_app, He. }
    destruct (write_into_hive_partition duckdb_copy (db (log EvExport w))
                (fs (log EvExport w))) as [e|f'];
      cbn [world_of trace]; rewrite ?Hx;
      (split; [lia|]);
      (split; [intros _; exists (trace w); reflexivity|]);
      (split; [|exact He]).
    + discriminate.
    + intros w' [= <-]. exact Hx.
  - rewrite He. split; [lia|]. split; [discriminate|].
    split; [discriminate | reflexivity].
  - rewrite He. split; [lia|]. split; [discriminate|].
    split; [discriminate | reflexivity].
Qed.

Lemma exporter_at_most_once_witness :
  exists tr,
    trace (world_of (main (serve_until_2000 sample_body) copy_nothing 8 []))
    = tr ++ [EvExport].
Proof.
  apply (proj1 (proj2 (exporter_at_most_once
                         (serve_until_2000 sample_body) copy_nothing 8 []))).
  vm_compute. reflexivity.
Defined.

(** ** What stops the loop *)

Lemma driver_loop_stops rg (fuel : nat) :
  forall (y : Z) (w w' : World),
    driver_loop rg fuel y w = Normal w' ->
    exists n, (n < fuel)%nat /\
              fetch_err rg (y + Z.of_nat n) /\
              Forall (fetch_ok rg) (years_from y n) /\
              trace w' = trace w ++ flat_map (year_events rg) (years_from y n)
                         ++ [EvFetch (y + Z.of_nat n)].
Proof.
  induction fuel as [|fuel IH]; intros y w w'; cbn [driver_loop];
    [discriminate|].
  destruct (get_data_stat_by_year rg y) as [e|[value|e]] eqn:Eg;
    [discriminate| |].
  - destruct (load_rows y (Py.splitlines (clean_text value))
                (log (EvFetch y) w)) as [w2|e w2|w2] eqn:El;
      [|discriminate|discriminate].
    intros H. apply IH in H as (n & Hn & He & Hok & Ht).
    apply load_rows_trace in El as [Hl _].
    exists (S n). split; [lia|].
    replace (y + Z.of_nat (S n))%Z with (y + 1 + Z.of_nat n)%Z by lia.
    split; [exact He|]. split.
    + cbn [years_from]. constructor; [now exists value | exact Hok].
    + rewrite Ht. cbn [log trace flat_map years_from]. rewrite Hl.
      cbn [log trace]. unfold year_events at 2, lines_of. rewrite Eg.
      norm_app. reflexivity.
  - intros [= <-]. exists 0%nat. split; [lia|].
    rewrite Z.add_0_r. split; [now exists e|]. split; [constructor|].
    reflexivity.
Qed.

(** X13.  A run ends normally only through a failed fetch: when it
    does, there is a first year, 1993 or later, for which the Fetcher
    returned the failure variant; every year before it was fetched
    successfully and loaded to its end, with one insertion per line of
    its cleaned body; and the trace is the creation of the table, the
    events of these years in order, the failed fetch and the export. *)
Theorem normal_end_after_failed_fetch
    (requests_get : Py.str -> Exception + Response)
    (duckdb_copy : DuckDB.copy_statement -> option DuckDB.Table -> FS.t ->
                   DuckDB.error + FS.t)
    (fuel : nat) (f : FS.t) (w : World)
    (Hend : main requests_get duckdb_copy fuel f = Normal w) :
  exists n, (n < fuel)%nat /\
            fetch_err requests_get (1993 + Z.of_nat n) /\
            Forall (fetch_ok requests_get) (years_from 1993 n) /\
            trace w = [EvCreateTable] ++
                      flat_map (year_events requests_get) (years_from 1993 n)
                      ++ [EvFetch (1993 + Z.of_nat n); EvExport].
Proof.
  unfold main in Hend.
  change {| db := create_duck_db_table None; fs := f;
            trace := [EvCreateTable] |} with (initial_world f) in Hend.
  destruct (driver_loop requests_get fuel 1993 (initial_world f))
    as [w1|e w1|w1] eqn:El; [|discriminate|discriminate].
  apply driver_loop_stops in El as (n & Hn & He & Hok & Ht).
  exists n. split; [exact Hn|]. split; [exact He|]. split; [exact Hok|].
  destruct (write_into_hive_partition duckdb_copy (db (log EvExport w1))
              (fs (log EvExport w1))) as [e|f']; [discriminate|].
  injection Hend as <-. cbn [log trace]. rewrite Ht.
  cbn [initial_world trace]. norm_app. reflexivity.
Qed.

Lemma normal_end_after_failed_fetch_witness :
  exists n, (n < 8)%nat /\
            fetch_err (serve_until_2000 sample_body) (1993 + Z.of_nat n) /\
            Forall (fetch_ok (serve_until_2000 sample_body))
              (years_from 1993 n) /\
            trace (world_of (main (serve_until_2000 sample_body)
                               copy_nothing 8 []))
            = [EvCreateTable] ++
              flat_map (year_events (serve_until_2000 sample_body))
                (years_from 1993 n)
              ++ [EvFetch (1993 + Z.of_nat n); EvExport].
Proof.
  apply (normal_end_after_failed_fetch (serve_until_2000 sample_body)
           copy_nothing 8 []).
  vm_compute. reflexivity.
Defined.

(** X14.  The loop has no other bound: when the Fetcher never returns
    the failure variant from 1993 on, no number of iterations lets the
    run end normally, and the Exporter is never called. *)
Theorem no_export_without_failed_fetch
    (requests_get : Py.str -> Exception + Response)
    (duckdb_copy : DuckDB.copy_statement -> option DuckDB.Table -> FS.t ->
                   DuckDB.error + FS.t)
    (f : FS.t)
    (Hnever : forall n : nat, ~ fetch_err requests_get (1993 + Z.of_nat n))
    (fuel : nat) :
  (forall w, main requests_get duckdb_copy fuel f <> Normal w) /\
  exports (trace (world_of (main requests_get duckdb_copy fuel f))) = 0%nat.
Proof.
  pose proof (loop_end_state requests_get fuel f) as H.
  unfold main.
  change {| db := create_duck_db_table None; fs := f;
            trace := [EvCreateTable] |} with (initial_world f).
  destruct (driver_loop requests_get fuel 1993 (initial_world f))
    as [w|e w|w] eqn:El.
  - exfalso. apply driver_loop_stops in El as (n & _ & He & _).
    exact (Hnever n He).
  - destruct H as (y & n & _ & _ & _ & He). cbn [world_of].
    split; [discriminate | exact He].
  - destruct H as (y & n & _ & _ & _ & He). cbn [world_of].
    split; [discriminate | exact He].
Qed.

Lemma no_export_without_failed_fetch_witness :
  exports (trace (world_of (main (serve_always []) copy_nothing 5 [])))
  = 0%nat.
Proof.
  refine (proj2 (no_export_without_failed_fetch (serve_always [])
                   copy_nothing [] _ 5)).
  intros n [e He]. discriminate He.
Defined.

(* ================================================================== *)
(** * Loading a body, end to end *)
(* ================================================================== *)

Lemma string_to_int_some (v : Py.str) (z : Z) :
  Py.int (Py.remove comma v) = Some z -> string_to_int v = inr z.
Proof. unfold string_to_int. now intros ->. Qed.

Lemma line_record_statement (year : Z) (row : Py.str) (r : DuckDB.row) :
  line_record year row = Some r ->
  exists yymm cc cc_desc rcode_code rcode_desc ccaatt_code ccaatt_desc
         ccaattmm_code ccaattmm_desc male female total house,
    r = record_of year yymm cc cc_desc rcode_code rcode_desc ccaatt_code
          ccaatt_desc ccaattmm_code ccaattmm_desc male female total house /\
    row_statement year row
    = inr (generate_insert_sql year yymm cc cc_desc rcode_code rcode_desc
             ccaatt_code ccaatt_desc ccaattmm_code ccaattmm_desc
             male female total house).
Proof.
  unfold line_record.
  destruct (fields_of row) as [|f1 l] eqn:E; [discriminate|].
  do 12 (destruct l as [|? l]; [discriminate|]).
  destruct l as [|? l]; [|discriminate].
  rewrite (row_statement_fields _ _ _ _ _ _ _ _ _ _ _ _ _ _ _ E).
  repeat match goal with
         | |- context [Py.int (Py.remove comma ?v)] =>
             let Hv := fresh "Hv" in
             destruct (Py.int (Py.remove comma v)) eqn:Hv;
             [apply string_to_int_some in Hv; rewrite Hv|discriminate]
         end.
  intros [= <-]. cbn [bind]. do 13 eexists. split; reflexivity.
Qed.

Lemma extend_append (t : DuckDB.Table) (r : DuckDB.row) (rs : list DuckDB.row) :
  extend (append_row t r) rs = extend t (r :: rs).
Proof.
  unfold extend, append_row. cbn. now rewrite <- app_assoc.
Qed.

Lemma table_key_schema (t : DuckDB.Table) (r : DuckDB.row) :
  same_schema t thai_population ->
  DuckDB.table_key t r = DuckDB.table_key thai_population r.
Proof. intros (_ & Hc & Hk). unfold DuckDB.table_key. now rewrite Hc, Hk. Qed.

Lemma map_table_key_schema (t : DuckDB.Table) (rs : list DuckDB.row) :
  same_schema t thai_population ->
  map (DuckDB.table_key t) rs = map (DuckDB.table_key thai_population) rs.
Proof.
  intros H. apply map_ext. intros r. now apply table_key_schema.
Qed.

Lemma record_fits
    (data_year : Z) (yymm : Py.str) (cc_code : Z)
    (cc_desc rcode_code rcode_desc ccaatt_code ccaatt_desc
     ccaattmm_code ccaattmm_desc : Py.str)
    (male female total house : Z) :
  Forall2 fits (DuckDB.tbl_columns thai_population)
    (record_of data_year yymm cc_code cc_desc rcode_code rcode_desc
       ccaatt_code ccaatt_desc ccaattmm_code ccaattmm_desc
       male female total house) ->
  Forall int32 [data_year; cc_code; male; female; total; house].
Proof.
  unfold thai_population, record_of. cbn [DuckDB.tbl_columns]. intros H.
  repeat match goal with
         | H : Forall2 _ (_ :: _) (_ :: _) |- _ =>
             let a := fresh "Hf" in let b := fresh in
             inversion H as [|? ? ? ? a b]; subst; clear H
         end.
  repeat (apply Forall_cons; [assumption|]). apply Forall_nil.
Qed.

Lemma record_quote_free
    (data_year : Z) (yymm : Py.str) (cc_code : Z)
    (cc_desc rcode_code rcode_desc ccaatt_code ccaatt_desc
     ccaattmm_code ccaattmm_desc : Py.str)
    (male female total house : Z) :
  Forall text_free_of_quote
    (record_of data_year yymm cc_code cc_desc rcode_code rcode_desc
       ccaatt_code ccaatt_desc ccaattmm_code ccaattmm_desc
       male female total house) ->
  Forall (free_of DuckDB.quote)
    [yymm; cc_desc; rcode_code; rcode_desc; ccaatt_code; ccaatt_desc;
     ccaattmm_code; ccaattmm_desc].
Proof.
  unfold record_of. intros H.
  repeat match goal with
         | H : Forall _ (_ :: _) |- _ =>
             let a := fresh "Hq" in let b := fresh in
             inversion H as [|? ? a b]; subst; clear H
         end.
  repeat (apply Forall_cons; [assumption|]). apply Forall_nil.
Qed.

Lemma load_rows_records (year : Z) (lines : list Py.str)
    (records : list DuckDB.row) :
  forall (w : World) (t : DuckDB.Table),
    db w = Some t ->
    same_schema t thai_population ->
    Forall2 (loadable year) lines records ->
    NoDup (map (DuckDB.table_key thai_population)
             (DuckDB.tbl_rows t ++ records)) ->
    load_rows year lines w
    = Normal {| db := Some (extend t records); fs := fs w;
                trace := trace w ++
                         repeat (EvInsert year) (List.length lines) |}.
Proof.
  intros w t Hdb Hs Hload. revert w t Hdb Hs.
  induction Hload as [|row r lines records (Hrec & Hfit & Hq) _ IH];
    intros w t Hdb Hs Hnd.
  - cbn [load_rows repeat List.length]. unfold extend.
    rewrite !app_nil_r. destruct w as [d f tr], t as [n c k rows].
    cbn in *. now rewrite Hdb.
  - apply line_record_statement in Hrec
      as (yymm & cc & cc_desc & rcode_code & rcode_desc & ccaatt_code &
          ccaatt_desc & ccaattmm_code & ccaattmm_desc & male & female &
          total & house & -> & Hrow).
    cbn [load_rows]. rewrite Hrow, Hdb.
    rewrite (sql_generated t _ _ _ _ _ _ _ _ _ _ _ _ _ _ Hs
               (record_quote_free _ _ _ _ _ _ _ _ _ _ _ _ _ _ Hq)
               (record_fits _ _ _ _ _ _ _ _ _ _ _ _ _ _ Hfit)).
    set (r := record_of year yymm cc cc_desc rcode_code rcode_desc
                ccaatt_code ccaatt_desc ccaattmm_code ccaattmm_desc
                male female total house) in *.
    assert (Hk : existsb
                   (fun r' => DuckDB.key_eqb (DuckDB.table_key t r')
                                [DuckDB.VInt year; DuckDB.VInt cc])
                   (DuckDB.tbl_rows t) = false).
    { apply not_true_is_false. intros E.
      apply key_present in E. rewrite (map_table_key_schema _ _ Hs) in E.
      rewrite map_app in Hnd. cbn [map] in Hnd.
      apply NoDup_remove_2 in Hnd. apply Hnd.
      apply in_or_app. left. exact E. }
    rewrite Hk.
    rewrite (IH _ (append_row t r)).
    + cbn [fs trace List.length repeat]. rewrite extend_append.
      f_equal. f_equal. norm_app. reflexivity.
    + reflexivity.
    + destruct Hs as (H1 & H2 & H3). repeat split; assumption.
    + unfold append_row. cbn [DuckDB.tbl_rows]. now rewrite <- app_assoc.
Qed.

(** X15.  End to end, the Loader stores what the lines say.  When
    every line of a body stands for a record whose integers fit the
    columns and whose texts hold no apostrophe, and the keys of these
    records are distinct from one another and from the keys already in
    the table, [load_rows] ends normally, and the table is the former
    table followed by exactly these records, in the order of the
    lines, with one insertion event per line. *)
Theorem load_rows_stores_records (year : Z) (lines : list Py.str)
    (records : list DuckDB.row) (w : World) (t : DuckDB.Table)
    (Hdb : db w = Some t)
    (Hschema : same_schema t thai_population)
    (Hlines : Forall2 (loadable year) lines records)
    (Hkeys : NoDup (map (DuckDB.table_key thai_population)
                      (DuckDB.tbl_rows t ++ records))) :
  load_rows year lines w
  = Normal {| db := Some (extend t records); fs := fs w;
              trace := trace w ++
                       repeat (EvInsert year) (List.length lines) |}.
Proof. now apply load_rows_records. Qed.

Lemma load_rows_stores_records_witness :
  load_rows 1993 [sample_line; sample_line2]
    {| db := Some thai_population; fs := []; trace := [] |}
  = Normal {| db := Some (extend thai_population
                            [sample_record; sample_record2]);
              fs := [];
              trace := [EvInsert 1993%Z; EvInsert 1993%Z] |}.
Proof.
  refine (load_rows_stores_records 1993 [sample_line; sample_line2]
            [sample_record; sample_record2]
            {| db := Some thai_population; fs := []; trace := [] |}
            thai_population eq_refl _ _ _).
  - repeat split.
  - repeat (apply Forall2_cons || apply Forall2_nil);
      (split; [reflexivity|]); split;
      try (repeat (apply Forall2_cons || apply Forall2_nil);
           first [exact I | unfold fits, int32; cbn; lia]);
      repeat (apply Forall_cons || apply Forall_nil);
      first [exact I
            | intros H; vm_compute in H; intuition discriminate].
  - vm_compute.
    repeat constructor; intros H; simpl in H; intuition discriminate.
Defined.

(* ================================================================== *)
(** * The directory step of the Exporter *)
(* ================================================================== *)

(** X16.  [write_into_hive_partition] and the path [.datasets]: when
    a file of that name is in the way the function raises
    [FileExistsError] and the [COPY] statement is not run; otherwise
    the statement is run on a filesystem in which [.datasets] is a
    directory and every other path is as before, and making the
    directory again changes nothing. *)
Theorem exporter_directory_step
    (duckdb_copy : DuckDB.copy_statement -> option DuckDB.Table -> FS.t ->
                   DuckDB.error + FS.t)
    (d : option DuckDB.Table) (f : FS.t) :
  (forall c, FS.lookup [Py.lit ".datasets"] f = Some (FS.File c) ->
     write_into_hive_partition duckdb_copy d f
     = inl (OSError (FS.FileExistsError [Py.lit ".datasets"]))) /\
  ((forall c, FS.lookup [Py.lit ".datasets"] f <> Some (FS.File c)) ->
   exists f',
     FS.mkdir_parents_exist_ok (FS.parts (Py.lit ".datasets")) f = inr f' /\
     FS.is_dir [Py.lit ".datasets"] f' = true /\
     (forall p, p <> [Py.lit ".datasets"] -> FS.lookup p f' = FS.lookup p f) /\
     FS.mkdir_parents_exist_ok (FS.parts (Py.lit ".datasets")) f' = inr f' /\
     write_into_hive_partition duckdb_copy d f
     = match duckdb_copy copy_thai_population d f' with
       | inl e => inl (DuckDBException e)
       | inr f'' => inr f''
       end).
Proof.
  unfold write_into_hive_partition.
  change (FS.parts (Py.lit ".datasets")) with [Py.lit ".datasets"].
  unfold FS.mkdir_parents_exist_ok. cbn [FS.mkdir_from app].
  split.
  - intros c Hc. now rewrite Hc.
  - intros Hno.
    destruct (FS.lookup [Py.lit ".datasets"] f) as [[|c]|] eqn:E.
    + exists f. unfold FS.is_dir. rewrite E. repeat split; reflexivity.
    + now destruct (Hno c).
    + exists (([Py.lit ".datasets"], FS.Dir) :: f).
      split; [reflexivity|]. split; [reflexivity|]. split; [|split].
      * intros p Hp. cbn [FS.lookup].
        destruct (FS.path_eqb p [Py.lit ".datasets"]) eqn:Ep; [|reflexivity].
        now apply path_eqb_eq in Ep.
      * reflexivity.
      * reflexivity.
Qed.

Lemma exporter_directory_step_witness :
  write_into_hive_partition copy_nothing None
    [([Py.lit ".datasets"], FS.File [])]
  = inl (OSError (FS.FileExistsError [Py.lit ".datasets"])).
Proof.
  apply (proj1 (exporter_directory_step copy_nothing None
                  [([Py.lit ".datasets"], FS.File [])]) []).
  reflexivity.
Defined.

(* ================================================================== *)
(** * The whole run on well-formed bodies *)
(* ================================================================== *)

Lemma extend_extend (t : DuckDB.Table) (a b : list DuckDB.row) :
  extend (extend t a) b = extend t (a ++ b).
Proof. unfold extend. cbn. now rewrite <- app_assoc. Qed.

Lemma extend_nil (t : DuckDB.Table) : extend t [] = t.
Proof. destruct t. unfold extend. cbn. now rewrite app_nil_r. Qed.

Lemma driver_loop_loads rg (n : nat) :
  forall (fuel : nat) (y : Z) (w : World) (t : DuckDB.Table)
         (records : list (list DuckDB.row)),
    (n < fuel)%nat ->
    db w = Some t ->
    same_schema t thai_population ->
    years_loadable rg (years_from y n) records ->
    fetch_err rg (y + Z.of_nat n) ->
    NoDup (map (DuckDB.table_key thai_population)
             (DuckDB.tbl_rows t ++ List.concat records)) ->
    exists w',
      driver_loop rg fuel y w = Normal w' /\
      db w' = Some (extend t (List.concat records)) /\
      fs w' = fs w.
Proof.
  induction n as [|n IH]; intros fuel y w t records Hfuel Hdb Hs Hrec Herr Hnd;
    (destruct fuel as [|fuel]; [lia|]); cbn [driver_loop].
  - inversion Hrec; subst. destruct Herr as [e He].
    rewrite Z.add_0_r in He. rewrite He.
    exists (log (EvFetch y) w). cbn [List.concat log db fs].
    now rewrite extend_nil.
  - cbn [years_from] in Hrec.
    inversion Hrec as [|? rs ? records' (body & Hb & Hl) Hrest]; subst.
    rewrite Hb. cbn [List.concat] in Hnd.
    rewrite (load_rows_records y _ rs (log (EvFetch y) w) t Hdb Hs Hl).
    2:{ rewrite app_assoc, map_app in Hnd.
        now apply NoDup_app_remove_r in Hnd. }
    match goal with
    | |- context [driver_loop rg fuel (y + 1)%Z ?w0] =>
        pose proof (IH fuel (y + 1)%Z w0 (extend t rs) records') as Hih
    end.
    assert (Hs' : same_schema (extend t rs) thai_population).
    { destruct Hs as (H1 & H2 & H3). repeat split; assumption. }
    replace (y + 1 + Z.of_nat n)%Z with (y + Z.of_nat (S n))%Z in Hih by lia.
    cbn [extend DuckDB.tbl_rows] in Hih. rewrite <- app_assoc in Hih.
    destruct (Hih ltac:(lia) eq_refl Hs' Hrest Herr Hnd) as (w' & Hw & Hd & Hf).
    exists w'. split; [exact Hw|]. split.
    + rewrite Hd. cbn [List.concat]. unfold extend. cbn.
      now rewrite <- app_assoc.
    + rewrite Hf. reflexivity.
Qed.

(** X17.  The whole run on well-formed data.  When the years from
    1993 on are served up to a first failing year, every line of their
    cleaned bodies stands for a loadable record, and the keys of all
    these records are distinct, then the loop stops normally at the
    failing year without touching the filesystem, the table holds
    exactly the records of all these years, year after year and line
    after line, and the Exporter is run on this table; when the
    Exporter raises, the run ends with the filesystem as the directory
    step left it. *)
Theorem run_stores_all_records
    (requests_get : Py.str -> Exception + Response)
    (duckdb_copy : DuckDB.copy_statement -> option DuckDB.Table -> FS.t ->
                   DuckDB.error + FS.t)
    (f : FS.t) (fuel n : nat) (records : list (list DuckDB.row))
    (Hfuel : (n < fuel)%nat)
    (Hyears : years_loadable requests_get (years_from 1993 n) records)
    (Hstop : fetch_err requests_get (1993 + Z.of_nat n))
    (Hkeys : NoDup (map (DuckDB.table_key thai_population)
                      (List.concat records))) :
  exists w,
    driver_loop requests_get fuel 1993 (initial_world f) = Normal w /\
    db w = Some (extend thai_population (List.concat records)) /\
    fs w = f /\
    main requests_get duckdb_copy fuel f
    = match write_into_hive_partition duckdb_copy
              (Some (extend thai_population (List.concat records))) f with
      | inl e => Raised e {| db := db w; fs := directory_step f;
                             trace := trace w ++ [EvExport] |}
      | inr f' => Normal {| db := db w; fs := f';
                            trace := trace w ++ [EvExport] |}
      end.
Proof.
  destruct (driver_loop_loads requests_get n fuel 1993 (initial_world f)
              thai_population records Hfuel eq_refl
              (conj eq_refl (conj eq_refl eq_refl)) Hyears Hstop Hkeys)
    as (w & Hw & Hd & Hf).
  exists w. split; [exact Hw|]. split; [exact Hd|]. split; [exact Hf|].
  unfold main.
  change {| db := create_duck_db_table None; fs := f;
            trace := [EvCreateTable] |} with (initial_world f).
  rewrite Hw. cbn [log db fs trace]. rewrite Hd, Hf.
  reflexivity.
Qed.

Lemma run_stores_all_records_witness :
  exists w,
    driver_loop (serve_until_2000 sample_body) 8 1993 (initial_world [])
    = Normal w /\
    db w = Some (extend thai_population
                   (List.concat (map sample_records_of years_1993_1999))) /\
    fs w = [] /\
    main (serve_until_2000 sample_body) copy_nothing 8 []
    = match write_into_hive_partition copy_nothing
              (Some (extend thai_population
                       (List.concat (map sample_records_of years_1993_1999))))
              [] with
      | inl e => Raised e {| db := db w; fs := directory_step [];
                             trace := trace w ++ [EvExport] |}
      | inr f' => Normal {| db := db w; fs := f';
                            trace := trace w ++ [EvExport] |}
      end.
Proof.
  refine (run_stores_all_records (serve_until_2000 sample_body) copy_nothing
            [] 8 7 (map sample_records_of years_1993_1999) _ _ _ _).
  - lia.
  - unfold years_loadable. cbn [years_from map years_1993_1999].
    repeat (apply Forall2_cons || apply Forall2_nil);
      (exists sample_body; split; [reflexivity|]);
      change (Py.splitlines (clean_text sample_body)) with [sample_line];
      (apply Forall2_cons; [|apply Forall2_nil]);
      (split; [reflexivity|]); split;
      try (repeat (apply Forall2_cons || apply Forall2_nil);
           first [exact I | unfold fits, int32; cbn; lia]);
      repeat (apply Forall_cons || apply Forall_nil);
      first [exact I
            | intros H; vm_compute in H; intuition discriminate].
  - exists (Py.lit "Not Found"). reflexivity.
  - vm_compute.
    repeat constructor; intros H; simpl in H; intuition discriminate.
Defined.

(** When the [COPY] raises, as it does in a working directory without
    [./datasets], the run ends with the hidden directory made. *)
Lemma failed_copy_leaves_directory :
  fs (world_of (main (serve_until_2000 sample_body) copy_refused 8 []))
  = [([Py.lit ".datasets"], FS.Dir)].
Proof. vm_compute. reflexivity. Qed.

(* ================================================================== *)
(** * The primary key *)
(* ================================================================== *)

(** The statement of [create_duck_db_table], read from its text and
    executed, declares the table of the script with its key, empty,
    whatever the table held before. *)
Lemma create_table_sql_declares (d : option DuckDB.Table) :
  (forall t, d = Some t -> DuckDB.tbl_name t = Py.lit "thai_population") ->
  DuckDB.sql create_table_sql d = inr (create_duck_db_table d).
Proof.
  intros H.
  assert (E : DuckDB.parse_script create_table_sql
              = Some [DuckDB.CreateOrReplaceTable thai_population])
    by (vm_compute; reflexivity).
  unfold DuckDB.sql, DuckDB.execute. rewrite E.
  cbn [DuckDB.run DuckDB.exec].
  destruct d as [t|]; [|reflexivity].
  now rewrite (H t eq_refl).
Qed.

Lemma keyed_log (e : Event) (w : World) :
  keyed_table w -> keyed_table (log e w).
Proof. intros (t & Hdb & H). now exists t. Qed.

Lemma keyed_insert (year : Z) (w : World) (row q : Py.str)
    (d : option DuckDB.Table) :
  keyed_table w ->
  free_of DuckDB.quote row ->
  row_statement year row = inr q ->
  DuckDB.sql q (db w) = inr d ->
  keyed_table {| db := d; fs := fs w; trace := trace w ++ [EvInsert year] |}.
Proof.
  intros (t & Hdb & Hs & Hu) Hfree Hrow Hsql.
  destruct (row_statement_reads year row q Hfree Hrow) as [vs Ep].
  rewrite (sql_insert _ _ _ Ep), Hdb in Hsql.
  destruct (DuckDB.insert _ t) as [e|t'] eqn:Ei; [discriminate|].
  injection Hsql as <-. exists t'. cbn [db]. split; [reflexivity|].
  split.
  - destruct (insert_schema _ _ _ Ei) as (Hn & Hc & Hk).
    destruct Hs as (Hn' & Hc' & Hk'). unfold same_schema.
    now rewrite Hn, Hc, Hk.
  - exact (insert_unique _ _ _ (schema_key_declared _ Hs) Hu Ei).
Qed.

Lemma keyed_raise (year : Z) (w : World) (row q : Py.str)
    (e : DuckDB.error) :
  keyed_table w ->
  free_of DuckDB.quote row ->
  row_statement year row = inr q ->
  DuckDB.sql q (db w) = inl e ->
  keyed_table
    {| db := DuckDB.after_error q (db w); fs := fs w; trace := trace w |}.
Proof.
  intros Hw Hfree Hrow Hsql.
  destruct (row_statement_reads year row q Hfree Hrow) as [vs Ep].
  now rewrite (world_after_error _ _ _ _ Ep Hsql).
Qed.

Lemma main_keyed requests_get duckdb_copy (fuel : nat) (f : FS.t) :
  apostrophe_free requests_get ->
  keyed_table (world_of (main requests_get duckdb_copy fuel f)).
Proof.
  intros Hfree.
  pose proof (driver_loop_invariant requests_get (free_of DuckDB.quote)
                (fun _ => keyed_table) (fun _ => keyed_table)
                (fun y value => rows_apostrophe_free requests_get y value Hfree)
                (fun y w => keyed_log (EvFetch y) w)
                keyed_insert keyed_raise
                (fun y w => keyed_log (EvYearDone y) w)
                fuel 1993%Z (initial_world f)) as H.
  assert (H0 : keyed_table (initial_world f)).
  { exists thai_population. repeat split. constructor. }
  specialize (H H0). unfold main.
  change {| db := create_duck_db_table None; fs := f;
            trace := [EvCreateTable] |} with (initial_world f).
  destruct (driver_loop requests_get fuel 1993 (initial_world f))
    as [w|e w|w]; destruct H as (y' & _ & Hw); try exact Hw.
  pose proof (keyed_log EvExport w Hw) as He.
  destruct (write_into_hive_partition duckdb_copy (db (log EvExport w))
              (fs (log EvExport w))) as [e|f']; exact He.
Qed.

(** The claim C6 as the specification words it fails: nothing escapes
    an apostrophe, so a field can close its literal and the statement
    and declare the table again without its key.  After the line
    [injected_line] the table has lost the key, and the next line, a
    second record with the key (1993, 1), is accepted: the Loader ends
    normally on a table in which two rows have the same key.  A run on
    such bodies ends normally as well, and exports a table with two
    rows of the key (1999, 1). *)
Lemma injected_line_drops_key :
  load_rows 1993 [injected_line; sample_line]
    {| db := Some thai_population; fs := []; trace := [] |}
  = Normal {| db := Some (keyless (extend thai_population
                                     [sample_record; sample_record]));
              fs := [];
              trace := [EvInsert 1993%Z; EvInsert 1993%Z] |} /\
  ~ NoDup (map (DuckDB.table_key thai_population)
             [sample_record; sample_record]) /\
  (exists w,
     main (serve_until_2000 injected_body) copy_nothing 8 [] = Normal w /\
     db w = Some (keyless (extend thai_population
                             (sample_records_of 1993 ++
                              sample_records_of 1999 ++
                              sample_records_of 1999)))) /\
  ~ (forall (year : Z) (rows : list Py.str) (w : World),
       keyed_table w -> keyed_table (world_of (load_rows year rows w))).
Proof.
  assert (Hload :
    load_rows 1993 [injected_line; sample_line]
      {| db := Some thai_population; fs := []; trace := [] |}
    = Normal {| db := Some (keyless (extend thai_population
                                       [sample_record; sample_record]));
                fs := [];
                trace := [EvInsert 1993%Z; EvInsert 1993%Z] |})
    by (vm_compute; reflexivity).
  split; [exact Hload|]. split; [|split].
  - intros H. inversion H as [|? ? Hin _]; subst. apply Hin. now left.
  - eexists. split; [vm_compute; reflexivity | reflexivity].
  - intros H.
    specialize (H 1993%Z [injected_line; sample_line]
                  {| db := Some thai_population; fs := []; trace := [] |}).
    rewrite Hload in H.
    destruct H as (t & Hdb & (_ & _ & Hk) & _).
    + exists thai_population. repeat split. constructor.
    + cbn [world_of db] in Hdb. injection Hdb as <-. discriminate Hk.
Qed.

(** C6 (amended).  For records whose text fields hold no apostrophe,
    the pair [(data_year, cc_code)] is unique in the table after every
    Loader step, and at every point of every run on bodies without an
    apostrophe.  The behaviour on a duplicate is settled: the engine
    refuses a second record with the key of an existing row (the table
    declares the primary key), the row is not inserted and the run
    ends there. *)
Theorem primary_key_unique :
  (forall (year : Z) (row q : Py.str) (w : World)
          (d : option DuckDB.Table),
     keyed_table w ->
     free_of DuckDB.quote row ->
     row_statement year row = inr q ->
     DuckDB.sql q (db w) = inr d ->
     keyed_table
       {| db := d; fs := fs w; trace := trace w ++ [EvInsert year] |}) /\
  (forall requests_get duckdb_copy (fuel : nat) (f : FS.t),
     apostrophe_free requests_get ->
     keyed_table (world_of (main requests_get duckdb_copy fuel f))) /\
  (forall (t : DuckDB.Table)
          (data_year : Z) (yymm : Py.str) (cc_code : Z)
          (cc_desc rcode_code rcode_desc ccaatt_code ccaatt_desc
           ccaattmm_code ccaattmm_desc : Py.str)
          (male female total house : Z),
     same_schema t thai_population ->
     Forall (free_of DuckDB.quote)
       [yymm; cc_desc; rcode_code; rcode_desc; ccaatt_code; ccaatt_desc;
        ccaattmm_code; ccaattmm_desc] ->
     Forall int32 [data_year; cc_code; male; female; total; house] ->
     has_key t data_year cc_code ->
     DuckDB.sql
       (generate_insert_sql data_year yymm cc_code cc_desc rcode_code
          rcode_desc ccaatt_code ccaatt_desc ccaattmm_code ccaattmm_desc
          male female total house) (Some t)
     = inl DuckDB.ConstraintException) /\
  (forall (year : Z) (row : Py.str) (rest : list Py.str) (w : World)
          (q : Py.str),
     free_of DuckDB.quote row ->
     row_statement year row = inr q ->
     DuckDB.sql q (db w) = inl DuckDB.ConstraintException ->
     load_rows year (row :: rest) w
     = Raised (DuckDBException DuckDB.ConstraintException) w).
Proof.
  split; [intros year row q w d; apply keyed_insert|].
  split; [exact main_keyed|]. split.
  - intros t data_year yymm cc_code cc_desc rcode_code rcode_desc ccaatt_code
      ccaatt_desc ccaattmm_code ccaattmm_desc male female total house
      Hs Hq Hi Hk.
    rewrite (sql_generated t _ _ _ _ _ _ _ _ _ _ _ _ _ _ Hs Hq Hi).
    now rewrite (key_there _ _ _ Hk).
  - intros year row rest w q Hfree Hq He. cbn [load_rows]. rewrite Hq, He.
    destruct (row_statement_reads year row q Hfree Hq) as [vs Ep].
    now rewrite (world_after_error _ _ _ _ Ep He).
Qed.

Lemma primary_key_unique_witness :
  load_rows 1993 [sample_line; sample_line]
    {| db := Some thai_population; fs := []; trace := [] |}
  = Raised (DuckDBException DuckDB.ConstraintException)
      {| db := Some sample_table; fs := [];
         trace := [EvInsert 1993%Z] |} /\
  keyed_table
    {| db := Some sample_table; fs := []; trace := [EvInsert 1993%Z] |} /\
  keyed_table
    (world_of (main (serve_until_2000 sample_body) copy_nothing 8 [])).
Proof.
  assert (Hfree : free_of DuckDB.quote sample_line).
  { intros H. vm_compute in H. intuition discriminate. }
  split; [|split].
  - change (load_rows 1993 [sample_line; sample_line]
              {| db := Some thai_population; fs := []; trace := [] |})
      with (load_rows 1993 [sample_line]
              {| db := Some sample_table; fs := [];
                 trace := [EvInsert 1993%Z] |}).
    refine (proj2 (proj2 (proj2 primary_key_unique)) 1993%Z sample_line []
              {| db := Some sample_table; fs := [];
                 trace := [EvInsert 1993%Z] |}
              (generate_insert_sql 1993 (Py.lit "3612") 1 (Py.lit "Bangkok")
                 (Py.lit "1") (Py.lit "Central") (Py.lit "1001")
                 (Py.lit "Phra Nakhon") (Py.lit "100101")
                 (Py.lit "Phra Borom") 1234 2345 3579 1000) Hfree _ _).
    + reflexivity.
    + refine (proj1 (proj2 (proj2 primary_key_unique)) sample_table
                1993%Z (Py.lit "3612") 1%Z (Py.lit "Bangkok") (Py.lit "1")
                (Py.lit "Central") (Py.lit "1001") (Py.lit "Phra Nakhon")
                (Py.lit "100101") (Py.lit "Phra Borom")
                1234%Z 2345%Z 3579%Z 1000%Z _ _ _ _).
      * repeat split.
      * repeat constructor; intros H; vm_compute in H; intuition discriminate.
      * repeat constructor; unfold int32; lia.
      * exists sample_record. split; [now left | reflexivity].
  - refine (proj1 primary_key_unique 1993%Z sample_line
              (generate_insert_sql 1993 (Py.lit "3612") 1 (Py.lit "Bangkok")
                 (Py.lit "1") (Py.lit "Central") (Py.lit "1001")
                 (Py.lit "Phra Nakhon") (Py.lit "100101")
                 (Py.lit "Phra Borom") 1234 2345 3579 1000)
              {| db := Some thai_population; fs := []; trace := [] |}
              (Some sample_table) _ Hfree _ _).
    + exists thai_population. repeat split. constructor.
    + reflexivity.
    + reflexivity.
  - refine (proj1 (proj2 primary_key_unique)
              (serve_until_2000 sample_body) copy_nothing 8%nat [] _).
    apply serve_until_2000_apostrophe_free.
    intros H. vm_compute in H. intuition discriminate.
Defined.
